(** * Moveo: the exercise catalog application (js/app.js) and the
      saved-exercise helper, embedded in Rocq.

    The stateful JavaScript is written with explicit state passing: every
    function takes the module-level variables, the page and the storage as
    a [State] and gives back the completion (a returned value or a thrown
    error) together with the new [State].  JavaScript strings are kept as
    sequences of UTF-16 code units. *)

From Stdlib Require Import ZArith NArith QArith List String Ascii Bool Lia.
From Stdlib Require Import DecimalString.
From stdpp Require Import base gmap strings list.

Local Open Scope N_scope.

(** ** JavaScript strings *)

(** A string value: its UTF-16 code units. *)
Abbreviation jsstring := (list N) (only parsing).

(** An ASCII literal of the source as a JavaScript string. *)
Definition js (s : string) : jsstring :=
  map N_of_ascii (list_ascii_of_string s).

(** [a.join(sep)] for an array of strings. *)
Fixpoint join (sep : jsstring) (l : list jsstring) : jsstring :=
  match l with
  | [] => []
  | [x] => x
  | x :: rest => x ++ sep ++ join sep rest
  end.

(** [s.startsWith(p)], returning what follows the prefix. *)
Fixpoint strip_prefix (p s : jsstring) : option jsstring :=
  match p, s with
  | [], _ => Some s
  | a :: p', b :: s' => if a =? b then strip_prefix p' s' else None
  | _ :: _, [] => None
  end.

(** [s.includes(p)] on strings. *)
Fixpoint str_includes (p s : jsstring) : bool :=
  match strip_prefix p s with
  | Some _ => true
  | None => match s with
            | [] => false
            | _ :: s' => str_includes p s'
            end
  end.

(** Decimal rendering of a non-negative integer. *)
Definition dec_of_N (n : N) : jsstring :=
  js (NilZero.string_of_uint (N.to_uint n)).

Definition dec_of_Z (z : Z) : jsstring :=
  match z with
  | Zneg p => js "-" ++ dec_of_N (Npos p)
  | _ => dec_of_N (Z.to_N z)
  end.

(** ** Completions *)

Inductive JsError :=
| TypeError (what : string)
| ReferenceError (ident : string)
| SyntaxError
| ErrorMsg (message : string).

(** How a call ends: it returns a value or throws. *)
Inductive Completion (A : Type) :=
| Return (v : A)
| Throw (e : JsError).
Arguments Return {A} v.
Arguments Throw {A} e.

(** ** JSON values, JSON.stringify and JSON.parse *)

Module Json.

(** Values that JSON.parse produces.  A number keeps the exact decimal of
    its token ([neg], [digits] * 10^[exp10]); the rounding to a double is
    not represented, no function of the application reads a number out of
    stored JSON. *)
#[warnings="-register-all"]
Inductive json :=
| JNull
| JBool (b : bool)
| JNum (neg : bool) (digits : N) (exp10 : Z)
| JStr (s : jsstring)
| JArr (elems : list json)
| JObj (members : list (jsstring * json)).

(** Lower-case hexadecimal digit of a value below 16. *)
Definition hex_digit (d : N) : N :=
  if d <? 10 then 48 + d else 87 + d.

Definition hex_value (c : N) : option N :=
  if (48 <=? c) && (c <=? 57) then Some (c - 48)
  else if (97 <=? c) && (c <=? 102) then Some (c - 87)
  else if (65 <=? c) && (c <=? 70) then Some (c - 55)
  else None.

(** The six characters [\uXXXX] of a code unit. *)
Definition unicode_escape (c : N) : jsstring :=
  [92; 117; hex_digit (c / 4096 mod 16); hex_digit (c / 256 mod 16);
   hex_digit (c / 16 mod 16); hex_digit (c mod 16)].

Definition is_high_surrogate (c : N) : bool := (55296 <=? c) && (c <=? 56319).
Definition is_low_surrogate (c : N) : bool := (56320 <=? c) && (c <=? 57343).

(** One code unit that is not part of a surrogate pair, as QuoteJSONString
    writes it. *)
Definition quote_unit (c : N) : jsstring :=
  if c =? 8 then [92; 98]
  else if c =? 9 then [92; 116]
  else if c =? 10 then [92; 110]
  else if c =? 12 then [92; 102]
  else if c =? 13 then [92; 114]
  else if c =? 34 then [92; 34]
  else if c =? 92 then [92; 92]
  else if (c <? 32) || is_high_surrogate c || is_low_surrogate c
       then unicode_escape c
  else [c].

(** The body of a quoted string: a well-formed surrogate pair is copied,
    a lone surrogate is escaped. *)
Fixpoint quote_chars (s : jsstring) : jsstring :=
  match s with
  | [] => []
  | c :: rest =>
      if is_high_surrogate c then
        match rest with
        | d :: rest' =>
            if is_low_surrogate d then c :: d :: quote_chars rest'
            else unicode_escape c ++ quote_chars rest
        | [] => unicode_escape c
        end
      else quote_unit c ++ quote_chars rest
  end.

(** QuoteJSONString. *)
Definition quote (s : jsstring) : jsstring := 34 :: quote_chars s ++ [34].

(** Rendering of the exact decimal of a number. *)
Definition number_text (neg : bool) (digits : N) (exp10 : Z) : jsstring :=
  (if neg then [45] else []) ++ dec_of_N digits ++
  (if (exp10 =? 0)%Z then [] else 101 :: dec_of_Z exp10).

(** JSON.stringify(value) without indentation. *)
Fixpoint stringify (j : json) : jsstring :=
  match j with
  | JNull => js "null"
  | JBool true => js "true"
  | JBool false => js "false"
  | JNum neg digits exp10 => number_text neg digits exp10
  | JStr s => quote s
  | JArr elems => 91 :: join [44] (map stringify elems) ++ [93]
  | JObj members =>
      123 :: join [44] (map (fun kv => quote (fst kv) ++ 58 :: stringify (snd kv))
                            members) ++ [125]
  end.

(** *** The parser *)

Definition is_ws (c : N) : bool :=
  (c =? 9) || (c =? 10) || (c =? 13) || (c =? 32).

Fixpoint skip_ws (s : jsstring) : jsstring :=
  match s with
  | c :: rest => if is_ws c then skip_ws rest else s
  | [] => []
  end.

Definition is_digit (c : N) : bool := (48 <=? c) && (c <=? 57).

(** The longest run of digits at the head of [s], folded into [acc];
    gives the value, the number of digits read and the rest. *)
Fixpoint read_digits (acc : N) (count : nat) (s : jsstring) : N * nat * jsstring :=
  match s with
  | c :: rest =>
      if is_digit c then read_digits (10 * acc + (c - 48)) (S count) rest
      else (acc, count, s)
  | [] => (acc, count, [])
  end.

(** The characters of a string token after its opening quote. *)
Fixpoint parse_chars (s : jsstring) : option (jsstring * jsstring) :=
  match s with
  | [] => None
  | c :: rest =>
      if c =? 34 then Some ([], rest)
      else if c =? 92 then
        match rest with
        | [] => None
        | e :: rest' =>
            let simple (u : N) :=
              match parse_chars rest' with
              | Some (body, after) => Some (u :: body, after)
              | None => None
              end in
            if e =? 34 then simple 34
            else if e =? 92 then simple 92
            else if e =? 47 then simple 47
            else if e =? 98 then simple 8
            else if e =? 102 then simple 12
            else if e =? 110 then simple 10
            else if e =? 114 then simple 13
            else if e =? 116 then simple 9
            else if e =? 117 then
              match rest' with
              | h1 :: h2 :: h3 :: h4 :: rest'' =>
                  match hex_value h1, hex_value h2, hex_value h3, hex_value h4 with
                  | Some a, Some b, Some c', Some d =>
                      match parse_chars rest'' with
                      | Some (body, after) =>
                          Some (4096 * a + 256 * b + 16 * c' + d :: body, after)
                      | None => None
                      end
                  | _, _, _, _ => None
                  end
              | _ => None
              end
            else None
        end
      else if c <? 32 then None
      else match parse_chars rest with
           | Some (body, after) => Some (c :: body, after)
           | None => None
           end
  end.

(** A number token: [-]? int frac? exp?. *)
Definition parse_number (s : jsstring) : option (json * jsstring) :=
  let '(neg, s1) := match s with
                    | 45 :: rest => (true, rest)
                    | _ => (false, s)
                    end in
  let int_part :=
    match s1 with
    | c :: rest =>
        if c =? 48 then Some (0, rest)
        else if is_digit c then
          let '(v, _, rest') := read_digits 0 0 s1 in Some (v, rest')
        else None
    | [] => None
    end in
  match int_part with
  | None => None
  | Some (i, s2) =>
      let frac_part :=
        match s2 with
        | 46 :: rest =>
            let '(v, count, rest') := read_digits i 0 rest in
            match count with
            | O => None
            | _ => Some (v, Z.of_nat count, rest')
            end
        | _ => Some (i, 0%Z, s2)
        end in
      match frac_part with
      | None => None
      | Some (m, scale, s3) =>
          let with_exp (rest : jsstring) (sign : Z) :=
            let '(v, count, rest') := read_digits 0 0 rest in
            match count with
            | O => None
            | _ => Some (JNum neg m (sign * Z.of_N v - scale), rest')
            end in
          match s3 with
          | c :: rest =>
              if (c =? 101) || (c =? 69) then
                match rest with
                | 43 :: rest' => with_exp rest' 1%Z
                | 45 :: rest' => with_exp rest' (-1)%Z
                | _ => with_exp rest 1%Z
                end
              else Some (JNum neg m (- scale), s3)
          | [] => Some (JNum neg m (- scale), [])
          end
      end
  end.

(** Recursive descent over values, array elements and object members.
    [fuel] bounds the depth of the calls; [parse] gives enough for every
    input. *)
Fixpoint parse_value (fuel : nat) (s : jsstring) : option (json * jsstring) :=
  match fuel with
  | O => None
  | S fuel' =>
      match skip_ws s with
      | [] => None
      | c :: rest =>
          if c =? 34 then
            match parse_chars rest with
            | Some (body, after) => Some (JStr body, after)
            | None => None
            end
          else if c =? 91 then
            match skip_ws rest with
            | 93 :: after => Some (JArr [], after)
            | _ => match parse_elems fuel' rest with
                   | Some (elems, after) => Some (JArr elems, after)
                   | None => None
                   end
            end
          else if c =? 123 then
            match skip_ws rest with
            | 125 :: after => Some (JObj [], after)
            | _ => match parse_members fuel' rest with
                   | Some (members, after) => Some (JObj members, after)
                   | None => None
                   end
            end
          else
            match strip_prefix (js "null") (c :: rest),
                  strip_prefix (js "true") (c :: rest),
                  strip_prefix (js "false") (c :: rest) with
            | Some after, _, _ => Some (JNull, after)
            | _, Some after, _ => Some (JBool true, after)
            | _, _, Some after => Some (JBool false, after)
            | None, None, None => parse_number (c :: rest)
            end
      end
  end
with parse_elems (fuel : nat) (s : jsstring) : option (list json * jsstring) :=
  match fuel with
  | O => None
  | S fuel' =>
      match parse_value fuel' s with
      | None => None
      | Some (v, after) =>
          match skip_ws after with
          | 44 :: more =>
              match parse_elems fuel' more with
              | Some (vs, after') => Some (v :: vs, after')
              | None => None
              end
          | 93 :: after' => Some ([v], after')
          | _ => None
          end
      end
  end
with parse_members (fuel : nat) (s : jsstring)
  : option (list (jsstring * json) * jsstring) :=
  match fuel with
  | O => None
  | S fuel' =>
      match skip_ws s with
      | 34 :: rest =>
          match parse_chars rest with
          | None => None
          | Some (key, after) =>
              match skip_ws after with
              | 58 :: rest' =>
                  match parse_value fuel' rest' with
                  | None => None
                  | Some (v, after') =>
                      match skip_ws after' with
                      | 44 :: more =>
                          match parse_members fuel' more with
                          | Some (kvs, after'') => Some ((key, v) :: kvs, after'')
                          | None => None
                          end
                      | 125 :: after'' => Some ([(key, v)], after'')
                      | _ => None
                      end
                  end
              | _ => None
              end
          end
      | _ => None
      end
  end.

(** JSON.parse(text): [None] stands for the SyntaxError it throws. *)
Definition parse (text : jsstring) : option json :=
  match parse_value (2 * length text + 2) text with
  | Some (v, after) =>
      match skip_ws after with
      | [] => Some v
      | _ :: _ => None
      end
  | None => None
  end.

End Json.

Import Json.

(** ** Markup *)

(** The markup a template literal produces, kept as the tree of its
    elements.  [Text] is text put into the markup as it is, literal or
    interpolated (the source escapes nothing).  White space between the
    elements of a template is not kept. *)
#[warnings="-register-all"]
Inductive html :=
| Elem (tag : string) (attrs : list (string * jsstring)) (children : list html)
| Text (s : jsstring).

(** Does the forest hold an element whose [id] attribute is [i]? *)
Definition has_attr (name : string) (value : jsstring)
    (attrs : list (string * jsstring)) : bool :=
  existsb (fun a => String.eqb (fst a) name && bool_decide (snd a = value)) attrs.

Fixpoint html_has_id (i : jsstring) (h : html) : bool :=
  match h with
  | Elem _ attrs children =>
      has_attr "id" i attrs ||
      (fix any (l : list html) : bool :=
         match l with
         | [] => false
         | c :: l' => html_has_id i c || any l'
         end) children
  | Text _ => false
  end.

Definition forest_has_id (i : jsstring) (f : list html) : bool :=
  existsb (html_has_id i) f.

(** ** Data model *)

(** One record of data/exercises.json. *)
Record Exercise := {
  id : jsstring;
  name : jsstring;
  description : jsstring;
  duration : Z;
  difficulty : jsstring;
  category : jsstring;
  muscleGroups : list jsstring;
  tips : list jsstring;
  commonMistakes : option (list jsstring);
  progression : option (list jsstring);
  rhythm : option jsstring;
  previewVideo : option jsstring
}.

(** An element of the page that the script reaches by id: whether it
    carries the class [hidden], and its content. *)
Record Element := {
  hidden : bool;
  innerHTML : list html
}.

(** What the script does to the outside, in order. *)
Inductive Effect :=
| Announce (message : jsstring)
| ShowError (message : jsstring)
| ConsoleError (label : string)
| Fetch (url : jsstring)
| PushState (exerciseId : option jsstring) (url : jsstring)
| ScrollToTop
| VideoSrc (src : jsstring)
| VideoRate (rate : Q)
| VideoPlay
| VideoPause
| ToggleClass (target : string) (class : string) (on : bool)
| SetAttribute (target : string) (attr : string) (value : jsstring)
| SetContent (target : string) (content : list html).

(** The module-level variables of app.js with the parts of the browser
    they act on. *)
Record State := {
  exercises : list Exercise;
  bookmarkedExercises : json;
  currentExercise : option Exercise;
  animationSpeed : Q;
  isPlaying : bool;
  showMuscleHighlight : bool;
  (** window.localStorage; [getItem] and [setItem] are taken to succeed *)
  localStorage : gmap string jsstring;
  (** the elements of the page, by id *)
  document : gmap string Element;
  (** window.location.href as the page was opened.  [history.pushState]
      is logged in [effects]; the address it sets is not followed. *)
  location_href : jsstring;
  (** What the global scope binds [backMarkup] to, as the text a template
      inserts; [None] when the name is bound nowhere.  The script itself
      has no declaration of it. *)
  global_backMarkup : option jsstring;
  (** What the global scope binds [options] to, reduced to its [baseUrl]
      when that is truthy; [None] when the name is bound nowhere.  The
      script itself has no declaration of it. *)
  global_options : option (option jsstring);
  effects : list Effect
}.

(** The state when the script has been loaded on a page with the given
    elements: the initial values of its [let] declarations. *)
Definition initial_state (page : gmap string Element) (href : jsstring)
    (storage : gmap string jsstring) : State :=
  {| exercises := [];
     bookmarkedExercises := JArr [];
     currentExercise := None;
     animationSpeed := 1;
     isPlaying := false;
     showMuscleHighlight := false;
     localStorage := storage;
     document := page;
     location_href := href;
     global_backMarkup := None;
     global_options := None;
     effects := [] |}.

Definition set_exercises (v : list Exercise) (st : State) : State :=
  {| exercises := v; bookmarkedExercises := bookmarkedExercises st;
     currentExercise := currentExercise st; animationSpeed := animationSpeed st;
     isPlaying := isPlaying st; showMuscleHighlight := showMuscleHighlight st;
     localStorage := localStorage st; document := document st;
     location_href := location_href st;
     global_backMarkup := global_backMarkup st;
     global_options := global_options st; effects := effects st |}.

Definition set_bookmarkedExercises (v : json) (st : State) : State :=
  {| exercises := exercises st; bookmarkedExercises := v;
     currentExercise := currentExercise st; animationSpeed := animationSpeed st;
     isPlaying := isPlaying st; showMuscleHighlight := showMuscleHighlight st;
     localStorage := localStorage st; document := document st;
     location_href := location_href st;
     global_backMarkup := global_backMarkup st;
     global_options := global_options st; effects := effects st |}.

Definition set_currentExercise (v : option Exercise) (st : State) : State :=
  {| exercises := exercises st; bookmarkedExercises := bookmarkedExercises st;
     currentExercise := v; animationSpeed := animationSpeed st;
     isPlaying := isPlaying st; showMuscleHighlight := showMuscleHighlight st;
     localStorage := localStorage st; document := document st;
     location_href := location_href st;
     global_backMarkup := global_backMarkup st;
     global_options := global_options st; effects := effects st |}.

Definition set_animationSpeed (v : Q) (st : State) : State :=
  {| exercises := exercises st; bookmarkedExercises := bookmarkedExercises st;
     currentExercise := currentExercise st; animationSpeed := v;
     isPlaying := isPlaying st; showMuscleHighlight := showMuscleHighlight st;
     localStorage := localStorage st; document := document st;
     location_href := location_href st;
     global_backMarkup := global_backMarkup st;
     global_options := global_options st; effects := effects st |}.

Definition set_isPlaying (v : bool) (st : State) : State :=
  {| exercises := exercises st; bookmarkedExercises := bookmarkedExercises st;
     currentExercise := currentExercise st; animationSpeed := animationSpeed st;
     isPlaying := v; showMuscleHighlight := showMuscleHighlight st;
     localStorage := localStorage st; document := document st;
     location_href := location_href st;
     global_backMarkup := global_backMarkup st;
     global_options := global_options st; effects := effects st |}.

Definition set_showMuscleHighlight (v : bool) (st : State) : State :=
  {| exercises := exercises st; bookmarkedExercises := bookmarkedExercises st;
     currentExercise := currentExercise st; animationSpeed := animationSpeed st;
     isPlaying := isPlaying st; showMuscleHighlight := v;
     localStorage := localStorage st; document := document st;
     location_href := location_href st;
     global_backMarkup := global_backMarkup st;
     global_options := global_options st; effects := effects st |}.

Definition set_localStorage (v : gmap string jsstring) (st : State) : State :=
  {| exercises := exercises st; bookmarkedExercises := bookmarkedExercises st;
     currentExercise := currentExercise st; animationSpeed := animationSpeed st;
     isPlaying := isPlaying st; showMuscleHighlight := showMuscleHighlight st;
     localStorage := v; document := document st;
     location_href := location_href st;
     global_backMarkup := global_backMarkup st;
     global_options := global_options st; effects := effects st |}.

Definition set_document (v : gmap string Element) (st : State) : State :=
  {| exercises := exercises st; bookmarkedExercises := bookmarkedExercises st;
     currentExercise := currentExercise st; animationSpeed := animationSpeed st;
     isPlaying := isPlaying st; showMuscleHighlight := showMuscleHighlight st;
     localStorage := localStorage st; document := v;
     location_href := location_href st;
     global_backMarkup := global_backMarkup st;
     global_options := global_options st; effects := effects st |}.

(** Appends one effect to the log. *)
Definition emit (e : Effect) (st : State) : State :=
  {| exercises := exercises st; bookmarkedExercises := bookmarkedExercises st;
     currentExercise := currentExercise st; animationSpeed := animationSpeed st;
     isPlaying := isPlaying st; showMuscleHighlight := showMuscleHighlight st;
     localStorage := localStorage st; document := document st;
     location_href := location_href st;
     global_backMarkup := global_backMarkup st;
     global_options := global_options st; effects := effects st ++ [e] |}.

(** ** The monad of the script: state and thrown errors *)

(** The value of a call, as far as the functions below return one. *)
Inductive value :=
| Undefined
| Boolean (b : bool).

Definition M (A : Type) : Type := State -> Completion A * State.

Definition ret {A} (a : A) : M A := fun st => (Return a, st).

Definition throw {A} (e : JsError) : M A := fun st => (Throw e, st).

Definition bind {A B} (m : M A) (k : A -> M B) : M B :=
  fun st =>
    match m st with
    | (Return a, st') => k a st'
    | (Throw e, st') => (Throw e, st')
    end.

(** [try { m } catch (error) { handler }] *)
Definition try_catch {A} (m : M A) (handler : JsError -> M A) : M A :=
  fun st =>
    match m st with
    | (Return a, st') => (Return a, st')
    | (Throw e, st') => handler e st'
    end.

Definition get : M State := fun st => (Return st, st).

Definition modify (f : State -> State) : M unit := fun st => (Return tt, f st).

Notation "x <- m ;; k" := (bind m (fun x => k))
  (at level 100, m at next level, right associativity).
Notation "m ;;; k" := (bind m (fun _ => k))
  (at level 100, right associativity).

(** Lifts a completion computed without the state. *)
Definition lift {A} (c : Completion A) : M A := fun st => (c, st).

(** Runs [f] on every element in order, stopping at the first throw. *)
Fixpoint mapM {A B} (f : A -> M B) (l : list A) : M (list B) :=
  match l with
  | [] => ret []
  | a :: rest => b <- f a ;; bs <- mapM f rest ;; ret (b :: bs)
  end.

(** ** Built-ins the script calls *)

(** JavaScript truthiness of a string. *)
Definition truthy (s : jsstring) : bool :=
  match s with
  | [] => false
  | _ :: _ => true
  end.

(** [a === b] where [a] is an element of parsed JSON and [b] a string. *)
Definition strict_eq_str (a : json) (b : jsstring) : bool :=
  match a with
  | JStr s => bool_decide (s = b)
  | _ => false
  end.

(** [arr.indexOf(x)] for a string [x]: the first position whose element is
    strictly equal to [x], or -1. *)
Fixpoint indexOf (arr : list json) (x : jsstring) : Z :=
  match arr with
  | [] => -1
  | a :: rest =>
      if strict_eq_str a x then 0
      else let r := indexOf rest x in
           if (r =? -1)%Z then (-1)%Z else (1 + r)%Z
  end.

(** [arr.splice(index, 1)] for an index within the array: the array
    without that position. *)
Fixpoint splice1 (arr : list json) (index : nat) : list json :=
  match arr, index with
  | [], _ => []
  | _ :: rest, O => rest
  | a :: rest, S i => a :: splice1 rest i
  end.

(** [arr.find(ex => ex.id === wanted)]: the first record with that id. *)
Fixpoint find_by_id (arr : list Exercise) (wanted : jsstring) : option Exercise :=
  match arr with
  | [] => None
  | ex :: rest => if bool_decide (id ex = wanted) then Some ex
                  else find_by_id rest wanted
  end.

(** [bookmarkedExercises.includes(x)]: membership for an array, substring
    test for a string, a TypeError for anything else (the method is
    missing there, or the value is null). *)
Definition includes (bookmarks : json) (x : jsstring) : Completion bool :=
  match bookmarks with
  | JArr arr => Return (existsb (fun a => strict_eq_str a x) arr)
  | JStr s => Return (str_includes x s)
  | _ => Throw (TypeError "bookmarkedExercises.includes")
  end.

(** [s.lastIndexOf(c)] for a single code unit. *)
Fixpoint lastIndexOf (c : N) (s : jsstring) : option nat :=
  match s with
  | [] => None
  | a :: rest =>
      match lastIndexOf c rest with
      | Some k => Some (S k)
      | None => if a =? c then Some O else None
      end
  end.

(** [s.split(sep)[0]] for a single code unit: what comes before its
    first occurrence, the whole string when there is none. *)
Fixpoint before_first (sep : N) (s : jsstring) : jsstring :=
  match s with
  | [] => []
  | a :: rest => if a =? sep then [] else a :: before_first sep rest
  end.

(** The UTF-8 bytes of a code point. *)
Definition utf8_bytes (cp : N) : list N :=
  if cp <? 128 then [cp]
  else if cp <? 2048 then [192 + cp / 64; 128 + cp mod 64]
  else if cp <? 65536 then
    [224 + cp / 4096; 128 + cp / 64 mod 64; 128 + cp mod 64]
  else [240 + cp / 262144; 128 + cp / 4096 mod 64;
        128 + cp / 64 mod 64; 128 + cp mod 64].

Definition uri_unreserved (c : N) : bool :=
  ((48 <=? c) && (c <=? 57)) || ((65 <=? c) && (c <=? 90)) ||
  ((97 <=? c) && (c <=? 122)) ||
  existsb (N.eqb c) [45; 95; 46; 33; 126; 42; 39; 40; 41].

Definition upper_hex (d : N) : N := if d <? 10 then 48 + d else 55 + d.

Definition percent_byte (b : N) : jsstring :=
  [37; upper_hex (b / 16); upper_hex (b mod 16)].

(** [encodeURIComponent(s)]: a URIError on a lone surrogate. *)
Fixpoint encodeURIComponent (s : jsstring) : Completion jsstring :=
  match s with
  | [] => Return []
  | c :: rest =>
      if uri_unreserved c then
        match encodeURIComponent rest with
        | Return out => Return (c :: out)
        | Throw e => Throw e
        end
      else if is_low_surrogate c then Throw (ErrorMsg "URIError")
      else if is_high_surrogate c then
        match rest with
        | d :: rest' =>
            if is_low_surrogate d then
              match encodeURIComponent rest' with
              | Return out =>
                  Return (flat_map percent_byte
                            (utf8_bytes (65536 + (c - 55296) * 1024 + (d - 56320)))
                          ++ out)
              | Throw e => Throw e
              end
            else Throw (ErrorMsg "URIError")
        | [] => Throw (ErrorMsg "URIError")
        end
      else
        match encodeURIComponent rest with
        | Return out => Return (flat_map percent_byte (utf8_bytes c) ++ out)
        | Throw e => Throw e
        end
  end.

(** ** The page *)

(** [document.getElementById(i)] for an element of the page itself. *)
Definition page_element (i : string) (st : State) : option Element :=
  document st !! i.

(** [document.getElementById(i)] as a truth value, for an id that a
    template writes: it is found in the page or inside rendered content. *)
Definition element_exists (i : string) (st : State) : bool :=
  match document st !! i with
  | Some _ => true
  | None => existsb (fun kv => forest_has_id (js i) (innerHTML (snd kv)))
                    (map_to_list (document st))
  end.

(** [el.innerHTML = content] for the page element [i]. *)
Definition set_innerHTML (i : string) (content : list html) (st : State) : State :=
  match document st !! i with
  | Some el =>
      set_document (<[i := {| hidden := hidden el; innerHTML := content |}]>
                      (document st)) st
  | None => st
  end.

(** [document.getElementById(i).classList.add('hidden')] or [remove]:
    a TypeError when the element is missing. *)
Definition set_hidden (i : string) (h : bool) : M unit :=
  st <- get ;;
  match document st !! i with
  | Some el =>
      modify (set_document
                (<[i := {| hidden := h; innerHTML := innerHTML el |}]> (document st)))
  | None => throw (TypeError "classList of null")
  end.

Definition announceToScreenReader (message : jsstring) : M unit :=
  modify (emit (Announce message)).

Definition showError (message : jsstring) : M unit :=
  modify (emit (ShowError message)).

(** ** app.js: loading *)

(** How [fetch(url)] followed by [response.json()] can go.  A body that
    parses is taken as the array of records it is expected to be: the
    catalog of [State] holds records only, so a file with JSON of another
    shape is outside of what is described here.  [loadExercises] itself
    does not look at what has been parsed. *)
Inductive BodyOutcome :=
| BodyRejected (e : JsError)
| BodyJson (catalog : list Exercise).

Inductive FetchOutcome :=
| FetchRejected (e : JsError)
| Responded (ok : bool) (body : BodyOutcome).

Definition getBaseUrl (st : State) : jsstring :=
  let href := location_href st in
  match lastIndexOf 47 href with
  | Some lastSlash => take (lastSlash + 1) href
  | None => href ++ [47]
  end.

Definition load_failed_message : jsstring :=
  js "Failed to load exercises. Please refresh the page, or open the site from a local server (e.g. live server).".

Definition loadExercises (outcome : FetchOutcome) : M value :=
  st <- get ;;
  let base := getBaseUrl st in
  let url := base ++ js "data/exercises.json" in
  try_catch
    (modify (emit (Fetch url)) ;;;
     match outcome with
     | FetchRejected e => throw e
     | Responded ok body =>
         if negb ok then throw (ErrorMsg "Failed to load exercises")
         else match body with
              | BodyRejected e => throw e
              | BodyJson catalog => modify (set_exercises catalog)
              end
     end)
    (fun error =>
       modify (emit (ConsoleError "Error loading exercises:")) ;;;
       showError load_failed_message) ;;;
  ret Undefined.





Definition loadBookmarks : M value :=
  st <- get ;;
  match localStorage st !! "moveoBookmarks" with
  | Some stored =>
      if truthy stored then
        match parse stored with
        | Some v => modify (set_bookmarkedExercises v)
        | None =>
            modify (emit (ConsoleError "Error parsing bookmarks:")) ;;;
            modify (set_bookmarkedExercises (JArr []))
        end ;;;
        ret Undefined
      else ret Undefined
  | None => ret Undefined
  end.

Definition saveBookmarks : M value :=
  st <- get ;;
  modify (set_localStorage
            (<["moveoBookmarks" := stringify (bookmarkedExercises st)]>
               (localStorage st))) ;;;
  ret Undefined.

(** ** app.js: rendering *)

Definition attr (name : string) (v : jsstring) : string * jsstring := (name, v).

(** [getCategoryIcon(category)]: [icons[category] || '\u2b50'], the icon of
    one of the four categories and the star for another one.  The
    category is taken to be none of the names that every object inherits
    ([toString], [constructor] and the like), for which [icons[category]]
    is that member and not an icon. *)
Definition getCategoryIcon (category : jsstring) : jsstring :=
  if bool_decide (category = js "strength") then [55357; 56490]
  else if bool_decide (category = js "cardio") then [10084; 65039]
  else if bool_decide (category = js "flexibility") then [55358; 56792]
  else if bool_decide (category = js "balance") then [9878; 65039]
  else [11088].

(** Truthiness of an optional string field: present and not empty. *)
Definition truthy_field (f : option jsstring) : option jsstring :=
  match f with
  | Some s => if truthy s then Some s else None
  | None => None
  end.

(** The bookmark button shared by the card and the detail header. *)
Definition bookmark_button (onclick : jsstring) (exercise : Exercise)
    (isBookmarked : bool) : html :=
  Elem "button"
    [attr "class" (js "bookmark-btn " ++ (if isBookmarked then js "bookmarked" else []));
     attr "onclick" onclick;
     attr "aria-label" ((if isBookmarked then js "Remove" else js "Add") ++
                        js " " ++ name exercise ++ js " to bookmarks");
     attr "aria-pressed" (if isBookmarked then js "true" else js "false")]
    [Elem "svg" [attr "aria-hidden" (js "true"); attr "viewBox" (js "0 0 24 24")]
       [Elem "path" [attr "d" (js "M17 3H7c-1.1 0-2 .9-2 2v16l7-3 7 3V5c0-1.1-.9-2-2-2z")] []];
     Text (if isBookmarked then js "Bookmarked" else js "Bookmark")].

Definition meta_markup (label : jsstring) (exercise : Exercise) : html :=
  Elem "div" [attr "class" (js "exercise-meta")]
    [Elem "span" [] [Text label];
     Elem "span" [attr "class" (js "difficulty-badge " ++ difficulty exercise)]
       [Text (difficulty exercise)];
     Elem "span" [] [Text (getCategoryIcon (category exercise) ++ js " " ++
                           category exercise)]].

Definition createExerciseCard (exercise : Exercise) : M html :=
  st <- get ;;
  isBookmarked <- lift (includes (bookmarkedExercises st) (id exercise)) ;;
  ret (Elem "article"
         [attr "class" (js "exercise-card"); attr "tabindex" (js "0");
          attr "role" (js "button");
          attr "aria-label" (js "View " ++ name exercise ++ js " exercise")]
         [Elem "div" [attr "class" (js "exercise-thumbnail")]
            [match truthy_field (previewVideo exercise) with
             | Some src =>
                 Elem "video" [attr "src" src; attr "muted" []; attr "loop" [];
                               attr "playsinline" []; attr "aria-hidden" (js "true")] []
             | None =>
                 Elem "div" [attr "class" (js "placeholder-icon");
                             attr "aria-hidden" (js "true")]
                   [Text (getCategoryIcon (category exercise))]
             end];
          Elem "div" [attr "class" (js "exercise-info")]
            [Elem "h3" [] [Text (name exercise)];
             Elem "p" []
               [Text (take 100 (description exercise) ++
                      (if (100 <? length (description exercise))%nat
                       then js "..." else []))];
             meta_markup ([9201; 65039] ++ js " " ++ dec_of_Z (duration exercise) ++
                          js " min") exercise;
             bookmark_button (js "event.stopPropagation(); toggleBookmark('" ++
                              id exercise ++ js "')") exercise isBookmarked]]).

(** [card.setAttribute('data-href', href)] on a rendered card. *)
Definition with_data_href (href : jsstring) (card : html) : html :=
  match card with
  | Elem tag attrs children => Elem tag (attrs ++ [attr "data-href" href]) children
  | Text s => Text s
  end.

(** The [forEach] over the rendered cards: card [index] belongs to
    [exercises[index]] and gets its link. *)
Fixpoint link_cards (index : nat) (l : list Exercise) : M unit :=
  match l with
  | [] => ret tt
  | exercise :: rest =>
      st <- get ;;
      enc <- lift (encodeURIComponent (id exercise)) ;;
      let href := getBaseUrl st ++ js "exercise.html?id=" ++ enc in
      match page_element "exercisesGrid" st with
      | Some grid =>
          modify (set_innerHTML "exercisesGrid"
                    (alter (with_data_href href) index (innerHTML grid)))
      | None => ret tt
      end ;;;
      link_cards (S index) rest
  end.

Definition renderExerciseGallery : M value :=
  st <- get ;;
  match page_element "exercisesGrid" st with
  | None => ret Undefined
  | Some _ =>
      match exercises st with
      | [] =>
          modify (set_innerHTML "exercisesGrid"
                    [Elem "p" [attr "class" (js "no-exercises")]
                       [Text (js "No exercises available. Please check back soon!")]]) ;;;
          ret Undefined
      | _ :: _ =>
          cards <- mapM createExerciseCard (exercises st) ;;
          modify (set_innerHTML "exercisesGrid" cards) ;;;
          link_cards 0 (exercises st) ;;;
          ret Undefined
      end
  end.

(** The three optional sections of the tips overlay: each is the empty
    string of the template when its field is falsy. *)
Definition commonMistakes_section (exercise : Exercise) : list html :=
  match commonMistakes exercise with
  | Some mistakes =>
      [Elem "h3" [attr "style" (js "margin-top: 2rem;")]
         [Text (js "Common Mistakes to Avoid")];
       Elem "ul" [attr "class" (js "tips-list"); attr "style" (js "list-style-type: disc;")]
         (map (fun mistake =>
                 Elem "li" [attr "style" (js "color: var(--error);")] [Text mistake])
              mistakes)]
  | None => []
  end.

Definition progression_section (exercise : Exercise) : list html :=
  match progression exercise with
  | Some steps =>
      [Elem "h3" [attr "style" (js "margin-top: 2rem;")] [Text (js "Progression Tips")];
       Elem "ul" [attr "class" (js "tips-list")]
         (map (fun step => Elem "li" [] [Text step]) steps)]
  | None => []
  end.

Definition rhythm_section (exercise : Exercise) : list html :=
  match truthy_field (rhythm exercise) with
  | Some note =>
      [Elem "div"
         [attr "style" (js "margin-top: 2rem; padding: 1rem; background: var(--light); border-radius: 8px;")]
         [Elem "strong" [] [Text ([55357; 56481] ++ js " Rhythm & Timing:")];
          Text (js " " ++ note)]]
  | None => []
  end.

Definition control_button (i : string) (active : bool) (onclick label : jsstring)
    (icon : jsstring) (caption : jsstring) : html :=
  Elem "button"
    [attr "id" (js i);
     attr "class" (js "control-btn " ++ (if active then js "active" else []));
     attr "onclick" onclick;
     attr "aria-label" label]
    [Elem "svg" [attr "aria-hidden" (js "true"); attr "viewBox" (js "0 0 24 24")]
       [Elem "path" [attr "d" icon] []];
     Text caption].

Definition pause_icon : jsstring := js "M6 4h4v16H6V4zm8 0h4v16h-4V4z".
Definition play_icon : jsstring := js "M8 5v14l11-7z".

(** The template literal of [renderExerciseDetail], for the value that
    [backMarkup] evaluates to. *)
Definition detail_markup (exercise : Exercise) (isBookmarked : bool)
    (st : State) (backMarkup : jsstring) : list html :=
  [Elem "div" [attr "class" (js "exercise-detail")]
     [Elem "header" []
        [Elem "h1" [] [Text (name exercise)];
         bookmark_button (js "toggleBookmark('" ++ id exercise ++ js "')")
                         exercise isBookmarked];
      Elem "div" [attr "class" (js "exercise-animation-container")]
        [Elem "div"
           [attr "class" (js "animation-display"); attr "id" (js "animationDisplay");
            attr "role" (js "img");
            attr "aria-label" (js "Animation of " ++ name exercise ++ js " exercise")]
           [match truthy_field (previewVideo exercise) with
            | Some src =>
                Elem "video"
                  [attr "id" (js "exerciseVideo"); attr "src" src; attr "muted" [];
                   attr "loop" []; attr "playsinline" [];
                   attr "aria-label" (js "Video demonstration of " ++ name exercise)] []
            | None =>
                Elem "div" [attr "class" (js "placeholder-animation");
                            attr "aria-hidden" (js "true")]
                  [Text (getCategoryIcon (category exercise))]
            end];
         Elem "div"
           [attr "class" (js "animation-controls"); attr "role" (js "group");
            attr "aria-label" (js "Animation controls")]
           [control_button "playPauseBtn" (isPlaying st) (js "togglePlayPause()")
              ((if isPlaying st then js "Pause" else js "Play") ++ js " animation")
              (if isPlaying st then pause_icon else play_icon)
              (if isPlaying st then js "Pause" else js "Play");
            control_button "slowMotionBtn" (Qeq_bool (animationSpeed st) (1 # 2)%Q)
              (js "toggleSlowMotion()") (js "Toggle slow motion")
              (js "M10 8v8l6-4-6-4zm11-5H3v18h18V3zm-2 16H5V5h14v14z")
              (js "Slow Motion");
            control_button "highlightMusclesBtn" (showMuscleHighlight st)
              (js "toggleMuscleHighlight()") (js "Toggle muscle highlight")
              (js "M12 2C6.48 2 2 6.48 2 12s4.48 10 10 10 10-4.48 10-10S17.52 2 12 2zm-2 15l-5-5 1.41-1.41L10 14.17l7.59-7.59L19 8l-9 9z")
              (js "Highlight Muscles")]];
      Elem "div" [attr "class" (js "exercise-info")]
        [Elem "p" [] [Text (description exercise)];
         meta_markup ([9201; 65039] ++ js " Duration: " ++
                      dec_of_Z (duration exercise) ++ js " minutes") exercise;
         Elem "div" [attr "class" (js "muscle-groups")]
           [Elem "h3" [] [Text (js "Target Muscles")];
            Elem "div" [attr "id" (js "muscleTags")]
              (map (fun muscle =>
                      Elem "span"
                        [attr "class" (js "muscle-highlight " ++
                                       (if showMuscleHighlight st then js "active" else []))]
                        [Text muscle])
                   (muscleGroups exercise))];
         Elem "button"
           [attr "class" (js "btn-primary"); attr "onclick" (js "toggleTipsOverlay()");
            attr "aria-expanded" (js "false"); attr "aria-controls" (js "tipsOverlay")]
           [Text (js "Show Form Tips")]];
      Elem "div"
        [attr "id" (js "tipsOverlay"); attr "class" (js "tips-overlay hidden");
         attr "role" (js "region"); attr "aria-labelledby" (js "tipsHeading")]
        ([Elem "h3" [attr "id" (js "tipsHeading")] [Text (js "Form Tips")];
          Elem "ul" [attr "class" (js "tips-list")]
            (map (fun tip => Elem "li" [] [Text tip]) (tips exercise))] ++
         commonMistakes_section exercise ++
         progression_section exercise ++
         rhythm_section exercise)];
   Text backMarkup].

(** [renderExerciseDetail(exercise)].  The function has the one parameter;
    [backMarkup] and [options] are free names in its body and are looked
    up in the global scope when the evaluation reaches them: a
    ReferenceError when the name is bound nowhere. *)
Definition renderExerciseDetail (exercise : Exercise) : M value :=
  st <- get ;;
  match page_element "exerciseDetailContent" st with
  | None => ret Undefined
  | Some _ =>
      isBookmarked <- lift (includes (bookmarkedExercises st) (id exercise)) ;;
      backMarkup <- match global_backMarkup st with
                    | Some text => ret text
                    | None => throw (ReferenceError "backMarkup")
                    end ;;
      modify (set_innerHTML "exerciseDetailContent"
                (detail_markup exercise isBookmarked st backMarkup)) ;;;
      st' <- get ;;
      match element_exists "exerciseVideo" st', truthy_field (previewVideo exercise) with
      | true, Some preview =>
          src <- match global_options st' with
                 | Some (Some baseUrl) => ret (baseUrl ++ preview)
                 | Some None => ret preview
                 | None => throw (ReferenceError "options")
                 end ;;
          modify (emit (VideoSrc src)) ;;;
          modify (emit (VideoRate (animationSpeed st'))) ;;;
          (if isPlaying st' then modify (emit VideoPlay) else ret tt) ;;;
          ret Undefined
      | _, _ => ret Undefined
      end
  end.

(** ** app.js: the detail view *)

Definition viewExercise (exerciseId : jsstring) : M value :=
  st <- get ;;
  match find_by_id (exercises st) exerciseId with
  | None =>
      showError (js "Exercise not found") ;;;
      ret Undefined
  | Some exercise =>
      modify (set_currentExercise (Some exercise)) ;;;
      modify (emit (PushState (Some exerciseId) (js "?exercise=" ++ exerciseId))) ;;;
      set_hidden "gallery" true ;;;
      set_hidden "exerciseDetail" false ;;;
      renderExerciseDetail exercise ;;;
      modify (emit ScrollToTop) ;;;
      announceToScreenReader (js "Viewing " ++ name exercise ++ js " exercise") ;;;
      ret Undefined
  end.

(** [togglePlayPause()].  [play_ok] tells whether the promise of
    [video.play()] is fulfilled; its [catch] handler runs after the rest
    of the function. *)
Definition togglePlayPause (play_ok : bool) : M value :=
  st <- get ;;
  let playing := negb (isPlaying st) in
  modify (set_isPlaying playing) ;;;
  let video := element_exists "exerciseVideo" st in
  (if video then modify (emit (if playing then VideoPlay else VideoPause))
   else ret tt) ;;;
  (if element_exists "playPauseBtn" st then
     modify (emit (ToggleClass "playPauseBtn" "active" playing)) ;;;
     modify (emit (SetContent "playPauseBtn"
                     [Elem "svg" [attr "aria-hidden" (js "true");
                                  attr "viewBox" (js "0 0 24 24")]
                        [Elem "path" [attr "d" (if playing then pause_icon else play_icon)] []];
                      Text (if playing then js "Pause" else js "Play")])) ;;;
     modify (emit (SetAttribute "playPauseBtn" "aria-label"
                     ((if playing then js "Pause" else js "Play") ++ js " animation")))
   else ret tt) ;;;
  announceToScreenReader (js "Animation " ++
                          (if playing then js "playing" else js "paused")) ;;;
  (if video && playing && negb play_ok then
     modify (emit (ConsoleError "Video play error:")) ;;;
     modify (set_isPlaying false)
   else ret tt) ;;;
  ret Undefined.

Definition toggleSlowMotion : M value :=
  st <- get ;;
  let speed := (if Qeq_bool (animationSpeed st) 1 then 1 # 2 else 1)%Q in
  let slow := Qeq_bool speed (1 # 2)%Q in
  modify (set_animationSpeed speed) ;;;
  (if element_exists "exerciseVideo" st then modify (emit (VideoRate speed))
   else ret tt) ;;;
  (if element_exists "slowMotionBtn" st then
     modify (emit (ToggleClass "slowMotionBtn" "active" slow)) ;;;
     modify (emit (SetAttribute "slowMotionBtn" "aria-label"
                     (js "Slow motion " ++ (if slow then js "on" else js "off"))))
   else ret tt) ;;;
  announceToScreenReader (js "Slow motion " ++
                          (if slow then js "enabled" else js "disabled")) ;;;
  ret Undefined.

Definition toggleMuscleHighlight : M value :=
  st <- get ;;
  let highlight := negb (showMuscleHighlight st) in
  modify (set_showMuscleHighlight highlight) ;;;
  (if element_exists "highlightMusclesBtn" st then
     modify (emit (ToggleClass "highlightMusclesBtn" "active" highlight)) ;;;
     modify (emit (SetAttribute "highlightMusclesBtn" "aria-label"
                     (js "Muscle highlight " ++ (if highlight then js "on" else js "off"))))
   else ret tt) ;;;
  modify (emit (ToggleClass ".muscle-highlight" "active" highlight)) ;;;
  announceToScreenReader (js "Muscle highlight " ++
                          (if highlight then js "enabled" else js "disabled")) ;;;
  ret Undefined.

(** [toggleBookmark(exerciseId)].  The body has no [return]: a call that
    completes gives [undefined].  On a value that is not an array the
    first method call that is missing throws before anything is changed
    ([indexOf] on null, a number, a boolean or an object; [splice] or
    [push] on a string). *)
Definition toggleBookmark (exerciseId : jsstring) : M value :=
  st <- get ;;
  match bookmarkedExercises st with
  | JArr arr =>
      let index := indexOf arr exerciseId in
      (if (index >? -1)%Z then
         modify (set_bookmarkedExercises (JArr (splice1 arr (Z.to_nat index)))) ;;;
         announceToScreenReader (js "Exercise removed from bookmarks")
       else
         modify (set_bookmarkedExercises (JArr (arr ++ [JStr exerciseId]))) ;;;
         announceToScreenReader (js "Exercise added to bookmarks")) ;;;
      saveBookmarks ;;;
      st' <- get ;;
      match find_by_id (exercises st') exerciseId with
      | Some exercise =>
          match currentExercise st' with
          | Some current =>
              if bool_decide (id current = exerciseId)
              then renderExerciseDetail exercise
              else renderExerciseGallery
          | None => renderExerciseGallery
          end
      | None => ret Undefined
      end ;;;
      ret Undefined
  | _ => throw (TypeError "bookmarkedExercises is not an array")
  end.

Definition backToGallery : M value :=
  set_hidden "gallery" false ;;;
  set_hidden "exerciseDetail" true ;;;
  modify (emit (PushState None [47])) ;;;
  announceToScreenReader (js "Returned to exercise gallery") ;;;
  ret Undefined.

(** The [popstate] listener, for [event.state.exerciseId] when the state
    has a truthy one. *)
Definition on_popstate (exerciseId : option jsstring) : M value :=
  match truthy_field exerciseId with
  | Some i => viewExercise i
  | None => backToGallery
  end.

(** ** app.js: the daily exercise *)

(** A calendar date, as [new Date()] gives the current one; [getDate] is
    its day of the month. *)
Record Date := {
  year : Z;
  month : nat;
  getDate : nat
}.

Definition getDailyExercise (today : Date) (st : State) : option Exercise :=
  match length (exercises st) with
  | O => None
  | _ =>
      let dayIndex := (getDate today mod length (exercises st))%nat in
      exercises st !! dayIndex
  end.

Definition setDailyExercise (today : Date) : M value :=
  st <- get ;;
  match page_element "dailyExerciseContent" st, getDailyExercise today st with
  | Some _, Some dailyExercise =>
      enc <- lift (encodeURIComponent (id dailyExercise)) ;;
      let exerciseUrl := getBaseUrl st ++ js "exercise.html?id=" ++ enc in
      modify (set_innerHTML "dailyExerciseContent"
                [Elem "h2" [] [Text (name dailyExercise)];
                 Elem "p" [] [Text (description dailyExercise)];
                 meta_markup ([9201; 65039] ++ js " " ++
                              dec_of_Z (duration dailyExercise) ++ js " min")
                             dailyExercise;
                 Elem "a" [attr "href" exerciseUrl; attr "class" (js "btn-primary btn-link")]
                   [Text (js "Try It Now")]]) ;;;
      ret Undefined
  | _, _ => ret Undefined
  end.

(** ** app.js: the entry points of the pages *)

Definition back_link : html :=
  Elem "a" [attr "href" (js "index.html"); attr "class" (js "btn-secondary")]
    [Text ([8592] ++ js " Back to Gallery")].

(** What the exercise page shows for an identifier that is not in the
    catalog. *)
Definition not_found_markup : list html :=
  [Elem "p" [attr "class" (js "no-exercises")] [Text (js "Exercise not found.")];
   back_link].

(** [initExercisePage()], for the [id] parameter of the page address. *)
Definition initExercisePage (param_id : option jsstring) (outcome : FetchOutcome)
  : M value :=
  st <- get ;;
  match page_element "exercisePageContent" st with
  | None => ret Undefined
  | Some _ =>
      match truthy_field param_id with
      | None =>
          modify (set_innerHTML "exercisePageContent"
                    [Elem "p" [attr "class" (js "no-exercises")]
                       [Text (js "No exercise selected.")];
                     back_link]) ;;;
          ret Undefined
      | Some wanted =>
          loadExercises outcome ;;;
          st' <- get ;;
          match find_by_id (exercises st') wanted with
          | None =>
              modify (set_innerHTML "exercisePageContent" not_found_markup) ;;;
              ret Undefined
          | Some exercise =>
              loadBookmarks ;;;
              renderExerciseDetail exercise ;;;
              ret Undefined
          end
      end
  end.

(** [initializeApp()] of the home page.  [setupEventListeners] only
    registers handlers. *)
Definition initializeApp (today : Date) (outcome : FetchOutcome) : M value :=
  loadExercises outcome ;;;
  loadBookmarks ;;;
  setDailyExercise today ;;;
  renderExerciseGallery ;;;
  announceToScreenReader (js "Moveo loaded. Use navigation to explore exercises.") ;;;
  ret Undefined.

(** ** The Supabase client, as far as the code calls it *)

(** How an awaited call of the client ends. *)
Inductive Async (A : Type) :=
| Fulfilled (a : A)
| Rejected (e : JsError).
Arguments Fulfilled {A} a.
Arguments Rejected {A} e.

(** The user object of a session: [id], [email], [user_metadata.name]. *)
Record User := {
  user_id : jsstring;
  user_email : option jsstring;
  user_metadata : option (option jsstring)
}.

(** [{ data: { session }, error }] of [auth.getSession()], with the
    [user] of the session. *)
Record SessionReply := {
  session : option (option User);
  session_error : option JsError
}.

(** [{ data: { user }, error }] of [auth.getUser()]. *)
Record UserReply := {
  reply_user : option User;
  reply_error : option JsError
}.

(** A row of [user_saved_exercises]. *)
Record Row := {
  row_user_id : jsstring;
  row_exercise_id : jsstring
}.

(** [{ data, error }] of [from(table).insert(row).select().single()]. *)
Record InsertReply := {
  insert_data : option Row;
  insert_error : option JsError
}.

Record SupabaseClient := {
  auth_getSession : Async SessionReply;
  auth_getUser : Async UserReply;
  from_insert_select_single : string -> Row -> Async InsertReply
}.

(** [getSupabase()]: the client made from [window.supabase], [null] when
    the library has not been loaded. *)
Definition getSupabase (window_supabase : option SupabaseClient)
  : option SupabaseClient :=
  window_supabase.

(** What [getCurrentUser] returns for a session. *)
Record SessionUser := {
  su_id : jsstring;
  su_email : option jsstring;
  su_name : jsstring
}.

(** [u.user_metadata?.name || u.email?.split('@')[0] || 'User'] *)
Definition display_name (u : User) : jsstring :=
  match truthy_field (match user_metadata u with
                      | Some meta_name => meta_name
                      | None => None
                      end) with
  | Some n => n
  | None =>
      match truthy_field (match user_email u with
                          | Some e => Some (before_first 64 e)
                          | None => None
                          end) with
      | Some n => n
      | None => js "User"
      end
  end.

(** [session?.user] *)
Definition session_user (reply : SessionReply) : option User :=
  match session reply with
  | Some user => user
  | None => None
  end.

Definition getCurrentUser (window_supabase : option SupabaseClient)
  : Completion (option SessionUser) :=
  match getSupabase window_supabase with
  | None => Return None
  | Some supabase =>
      match auth_getSession supabase with
      | Rejected e => Throw e
      | Fulfilled reply =>
          match session_error reply, session_user reply with
          | None, Some u =>
              Return (Some {| su_id := user_id u;
                              su_email := user_email u;
                              su_name := display_name u |})
          | _, _ => Return None
          end
      end
  end.

(** ** saveExercise (the React helper) *)

Module SaveExercise.

(** The requests sent to the service, in order. *)
Inductive RemoteCall :=
| AuthGetUser
| Insert (table : string) (row : Row).

(** [{ data, error }] as [saveExercise] returns it. *)
Record Result := {
  data : option Row;
  error : option JsError
}.

(** [saveExercise(supabase, exerciseId)] with the requests it has sent.
    A missing argument is [None]. *)
Definition saveExercise (supabase : option SupabaseClient)
    (exerciseId : option jsstring) : Completion Result * list RemoteCall :=
  match supabase with
  | None =>
      (Return {| data := None;
                 error := Some (ErrorMsg "Supabase client is required") |}, [])
  | Some client =>
      match truthy_field exerciseId with
      | None =>
          (Return {| data := None;
                     error := Some (ErrorMsg "Exercise id is required") |}, [])
      | Some exercise_id =>
          match auth_getUser client with
          | Rejected e => (Throw e, [AuthGetUser])
          | Fulfilled reply =>
              match reply_error reply, reply_user reply with
              | Some sessionError, _ =>
                  (Return {| data := None; error := Some sessionError |},
                   [AuthGetUser])
              | None, None =>
                  (Return {| data := None;
                             error := Some (ErrorMsg "You must be logged in to save an exercise") |},
                   [AuthGetUser])
              | None, Some user =>
                  let row := {| row_user_id := user_id user;
                                row_exercise_id := exercise_id |} in
                  let calls := [AuthGetUser; Insert "user_saved_exercises" row] in
                  match from_insert_select_single client "user_saved_exercises" row with
                  | Rejected e => (Throw e, calls)
                  | Fulfilled inserted =>
                      match insert_error inserted with
                      | Some e => (Return {| data := None; error := Some e |}, calls)
                      | None =>
                          (Return {| data := insert_data inserted; error := None |},
                           calls)
                      end
                  end
              end
          end
      end
  end.

End SaveExercise.

(** ** Notions the statements below are written with *)

(** The state a handler leaves behind, whichever way it completes. *)
Definition handle {A} (m : M A) (st : State) : State := snd (m st).

(** [st'] differs from [st] at most in the page and in the log of
    effects. *)
Record same_model (st st' : State) : Prop := {
  sm_exercises : exercises st' = exercises st;
  sm_bookmarks : bookmarkedExercises st' = bookmarkedExercises st;
  sm_current : currentExercise st' = currentExercise st;
  sm_speed : animationSpeed st' = animationSpeed st;
  sm_playing : isPlaying st' = isPlaying st;
  sm_highlight : showMuscleHighlight st' = showMuscleHighlight st;
  sm_storage : localStorage st' = localStorage st;
  sm_href : location_href st' = location_href st;
  sm_backMarkup : global_backMarkup st' = global_backMarkup st;
  sm_options : global_options st' = global_options st
}.

(** Every run of [m] relates the state before to the state after. *)
Definition keeps {A} (R : State -> State -> Prop) (m : M A) : Prop :=
  forall st, R st (handle m st).

(** One more character in front of a parsed string body. *)
Definition consume (c : N) (r : option (jsstring * jsstring))
  : option (jsstring * jsstring) :=
  match r with
  | Some (body, after) => Some (c :: body, after)
  | None => None
  end.

(** The bookmark set after one toggle of [x], in the words of the
    specification: [x] leaves the set when it is a member and joins it, as
    the last one, when it is not. *)
Fixpoint remove_first (x : jsstring) (ids : list jsstring) : list jsstring :=
  match ids with
  | [] => []
  | y :: rest => if bool_decide (y = x) then rest else y :: remove_first x rest
  end.

Definition toggle_ids (x : jsstring) (ids : list jsstring) : list jsstring :=
  if bool_decide (x ∈ ids) then remove_first x ids else ids ++ [x].

(** The content of the bookmark slot of the storage. *)
Definition persisted (st : State) : option jsstring :=
  localStorage st !! "moveoBookmarks".

(** What the persisted representation deserializes to. *)
Definition load_persisted (st : State) : option json :=
  match persisted st with
  | Some text => parse text
  | None => None
  end.

(** The state of [toggleBookmark] right after the mutation and
    [saveBookmarks()], before the view is rendered again. *)
Definition toggled_state (arr' : list json) (message : jsstring) (st : State)
  : State :=
  set_localStorage (<["moveoBookmarks" := stringify (JArr arr')]> (localStorage st))
    (emit (Announce message) (set_bookmarkedExercises (JArr arr') st)).

(** The last part of [toggleBookmark]: the view that shows the exercise
    is rendered again. *)
Definition update_ui (exerciseId : jsstring) : M value :=
  st' <- get ;;
  match find_by_id (exercises st') exerciseId with
  | Some exercise =>
      match currentExercise st' with
      | Some current =>
          if bool_decide (id current = exerciseId)
          then renderExerciseDetail exercise
          else renderExerciseGallery
      | None => renderExerciseGallery
      end
  | None => ret Undefined
  end.

(** The catalog that a fetch delivers: the response came, was ok and its
    body parsed. *)
Definition fetched_catalog (outcome : FetchOutcome) : option (list Exercise) :=
  match outcome with
  | Responded true (BodyJson catalog) => Some catalog
  | _ => None
  end.

(** The cases in which nothing may be saved: an argument is missing, or
    the session lookup reports an error or no user. *)
Definition cannot_save (supabase : option SupabaseClient)
    (exerciseId : option jsstring) : Prop :=
  supabase = None \/
  truthy_field exerciseId = None \/
  exists client reply,
    supabase = Some client /\ auth_getUser client = Fulfilled reply /\
    (reply_error reply <> None \/ reply_user reply = None).

Definition is_insert (call : SaveExercise.RemoteCall) : bool :=
  match call with
  | SaveExercise.Insert _ _ => true
  | SaveExercise.AuthGetUser => false
  end.

(** ** Sample data *)

(** A record with the required fields only. *)
Definition sample_exercise (i : string) : Exercise :=
  {| id := js i;
     name := js "Bodyweight Squat";
     description := js "Stand tall, sit back and down, then drive up through the heels.";
     duration := 5;
     difficulty := js "beginner";
     category := js "strength";
     muscleGroups := [js "Quadriceps"; js "Glutes"];
     tips := [js "Keep your chest up"];
     commonMistakes := None;
     progression := None;
     rhythm := None;
     previewVideo := None |}.

Definition sample_catalog : list Exercise :=
  [sample_exercise "a"; sample_exercise "b"; sample_exercise "c"].

Definition empty_element (is_hidden : bool) : Element :=
  {| hidden := is_hidden; innerHTML := [] |}.

(** The elements of the home page that the script reaches by id. *)
Definition home_page : gmap string Element :=
  list_to_map
    [("gallery"%string, empty_element false);
     ("exerciseDetail"%string, empty_element true);
     ("exerciseDetailContent"%string, empty_element false);
     ("exercisesGrid"%string, empty_element false);
     ("dailyExerciseContent"%string, empty_element false)].

Definition home_href : jsstring := js "http://localhost:8000/index.html".

Definition some_day : Date := {| year := 2025; month := 3; getDate := 14 |}.

(** The home page after [initializeApp] with the sample catalog and an
    empty storage. *)
Definition home_loaded : State :=
  handle (initializeApp some_day (Responded true (BodyJson sample_catalog)))
         (initial_state home_page home_href ∅).

(** A client whose session lookup is rejected. *)
Definition rejecting_client : SupabaseClient :=
  {| auth_getSession := Rejected (ErrorMsg "Failed to fetch");
     auth_getUser := Rejected (ErrorMsg "Failed to fetch");
     from_insert_select_single := fun _ _ => Rejected (ErrorMsg "Failed to fetch") |}.

(** A signed-in user and the client that answers with it. *)
Definition sample_user : User :=
  {| user_id := js "7f1c";
     user_email := Some (js "ada@example.org");
     user_metadata := Some None |}.

Definition signed_in_client : SupabaseClient :=
  {| auth_getSession :=
       Fulfilled {| session := Some (Some sample_user); session_error := None |};
     auth_getUser :=
       Fulfilled {| reply_user := Some sample_user; reply_error := None |};
     from_insert_select_single :=
       fun _ row => Fulfilled {| insert_data := Some row; insert_error := None |} |}.

(** The same state on a page where something else has bound the global
    name [backMarkup]. *)
Definition bind_backMarkup (text : jsstring) (st : State) : State :=
  {| exercises := exercises st; bookmarkedExercises := bookmarkedExercises st;
     currentExercise := currentExercise st; animationSpeed := animationSpeed st;
     isPlaying := isPlaying st; showMuscleHighlight := showMuscleHighlight st;
     localStorage := localStorage st; document := document st;
     location_href := location_href st;
     global_backMarkup := Some text;
     global_options := global_options st; effects := effects st |}.

(** Opening [a], pressing play, slow motion and highlight, then opening
    [b]: five handlers run one after the other. *)
Definition browse_a_then_b (st : State) : State :=
  handle (viewExercise (js "b"))
    (handle toggleMuscleHighlight
       (handle toggleSlowMotion
          (handle (togglePlayPause true)
             (handle (viewExercise (js "a")) st)))).

(** ** useSaveExercise (the React hook) *)

Module UseSaveExercise.

(** The two state variables of the hook. *)
Record HookState := {
  isLoading : bool;
  error : option JsError
}.

(** [useState(false)] and [useState(null)]. *)
Definition initial : HookState := {| isLoading := false; error := None |}.

(** One call of [saveExerciseForUser]: what the promise settles with, the
    state set before the request is awaited ([None] when the guard
    returns first), the state when the call is over, and the requests
    sent. *)
Record Run := {
  settled : Completion bool;
  while_waiting : option HookState;
  afterwards : HookState;
  requests : list SaveExercise.RemoteCall
}.

Definition saveExerciseForUser (supabase : option SupabaseClient)
    (exerciseId : option jsstring) (h : HookState) : Run :=
  match supabase, truthy_field exerciseId with
  | Some _, Some _ =>
      (* setIsLoading(true); setError(null); *)
      let waiting := {| isLoading := true; error := None |} in
      let '(result, calls) := SaveExercise.saveExercise supabase exerciseId in
      match result with
      | Return r =>
          match SaveExercise.error r with
          | Some err =>
              (* setError(err); return false; finally setIsLoading(false) *)
              {| settled := Return false; while_waiting := Some waiting;
                 afterwards := {| isLoading := false; error := Some err |};
                 requests := calls |}
          | None =>
              (* return !!data; finally setIsLoading(false) *)
              {| settled := Return (match SaveExercise.data r with
                                    | Some _ => true
                                    | None => false
                                    end);
                 while_waiting := Some waiting;
                 afterwards := {| isLoading := false; error := None |};
                 requests := calls |}
          end
      | Throw e =>
          (* the rejection passes through finally *)
          {| settled := Throw e; while_waiting := Some waiting;
             afterwards := {| isLoading := false; error := None |};
             requests := calls |}
      end
  | _, _ =>
      {| settled := Return false; while_waiting := None; afterwards := h;
         requests := [] |}
  end.

End UseSaveExercise.

(** ** app.js: the account page *)

(** [s.trim()]: the white space and line terminators of JavaScript are
    taken off both ends. *)
Definition is_js_space (c : N) : bool :=
  existsb (N.eqb c)
    [9; 10; 11; 12; 13; 32; 160; 5760; 8232; 8233; 8239; 8287; 12288; 65279] ||
  ((8192 <=? c) && (c <=? 8202)).

Fixpoint trim_start (s : jsstring) : jsstring :=
  match s with
  | c :: rest => if is_js_space c then trim_start rest else s
  | [] => []
  end.

Definition trim (s : jsstring) : jsstring :=
  rev (trim_start (rev (trim_start s))).

(** [error.message] of an error of the auth service. *)
Record AuthError := {
  message : jsstring
}.

(** [{ data: { user }, error }] of [auth.signInWithPassword]. *)
Record SignInReply := {
  signin_user : option User;
  signin_error : option AuthError
}.

(** [{ data: { user, session }, error }] of [auth.signUp]; of the session
    only its presence is read. *)
Record SignUpReply := {
  signup_user : option User;
  signup_session : bool;
  signup_error : option AuthError
}.

(** The client with the calls of the account forms: credentials in,
    reply out. *)
Record AuthClient := {
  base_client : SupabaseClient;
  auth_signInWithPassword : jsstring -> jsstring -> Async SignInReply;
  auth_signUp : jsstring -> jsstring -> jsstring -> Async SignUpReply;
  auth_signOut : Async unit
}.

(** The requests the account page sends to the auth service. *)
Inductive AuthRequest :=
| GetSession
| SignInWithPassword (email password : jsstring)
| SignUp (email password name : jsstring)
| SignOut.

(** The account page: the state of the script, the requests sent so far,
    and how many reloads of the catalog started by
    [renderSavedExercisesList] have not come back yet. *)
Record Account := {
  app_state : State;
  sent : list AuthRequest;
  reloads_pending : nat
}.

Definition MA (A : Type) : Type := Account -> Completion A * Account.

Definition retA {A} (a : A) : MA A := fun acc => (Return a, acc).

Definition throwA {A} (e : JsError) : MA A := fun acc => (Throw e, acc).

Definition bindA {A B} (m : MA A) (k : A -> MA B) : MA B :=
  fun acc =>
    match m acc with
    | (Return a, acc') => k a acc'
    | (Throw e, acc') => (Throw e, acc')
    end.

Notation "x <~ m ;; k" := (bindA m (fun x => k))
  (at level 100, m at next level, right associativity).
Notation "m ~;; k" := (bindA m (fun _ => k))
  (at level 100, right associativity).

(** A computation of the script, run on the account page. *)
Definition on_page {A} (m : M A) : MA A :=
  fun acc =>
    let '(c, st') := m (app_state acc) in
    (c, {| app_state := st'; sent := sent acc; reloads_pending := reloads_pending acc |}).

Definition getA : MA Account := fun acc => (Return acc, acc).

Definition modifyA (f : Account -> Account) : MA unit :=
  fun acc => (Return tt, f acc).

Definition send (r : AuthRequest) : MA unit :=
  fun acc =>
    (Return tt, {| app_state := app_state acc; sent := sent acc ++ [r];
                   reloads_pending := reloads_pending acc |}).

Definition set_reloads_pending (n : nat) (acc : Account) : Account :=
  {| app_state := app_state acc; sent := sent acc; reloads_pending := n |}.

(** [document.getElementById(i)?.classList.add('hidden')] or [remove]:
    nothing happens when the element is missing. *)
Definition set_hidden_if_present (i : string) (h : bool) : M unit :=
  st <- get ;;
  match document st !! i with
  | Some el =>
      modify (set_document
                (<[i := {| hidden := h; innerHTML := innerHTML el |}]> (document st)))
  | None => ret tt
  end.

Definition showAuthForm : M unit := set_hidden_if_present "accountAuthSection" false.
Definition hideAuthForm : M unit := set_hidden_if_present "accountAuthSection" true.
Definition hideAccountDashboard : M unit :=
  set_hidden_if_present "accountDashboardSection" true.

(** [el.textContent = text] for the page element [i]: a single text node,
    none for the empty string. *)
Definition set_textContent (i : string) (text : jsstring) (st : State) : State :=
  set_innerHTML i (if truthy text then [Text text] else []) st.

(** [setAuthMessage(msg, isError)].  Assigning [className] replaces every
    class of the element, [hidden] too. *)
Definition setAuthMessage (msg : jsstring) (isError : bool) : M unit :=
  st <- get ;;
  match document st !! "authMessage" with
  | None => ret tt
  | Some _ =>
      modify (set_document
                (<["authMessage" :=
                     {| hidden := false;
                        innerHTML := if truthy msg then [Text msg] else [] |}]>
                   (document st))) ;;;
      modify (emit (SetAttribute "authMessage" "class"
                      (js "auth-message" ++
                       (if isError then js " error" else js " success"))))
  end.

(** [bookmarkedExercises.length === 0]: the length of an array or of a
    string; a TypeError on null; on an object its member [length], if it
    has one; undefined, and so not 0, on anything else. *)
Fixpoint member (key : jsstring) (members : list (jsstring * json)) : option json :=
  match members with
  | [] => None
  | (k, v) :: rest =>
      match member key rest with
      | Some later => Some later
      | None => if bool_decide (k = key) then Some v else None
      end
  end.

Definition length_is_zero (bookmarks : json) : Completion bool :=
  match bookmarks with
  | JArr arr => Return (match arr with [] => true | _ => false end)
  | JStr s => Return (negb (truthy s))
  | JNull => Throw (TypeError "bookmarkedExercises.length")
  | JObj members =>
      Return (match member (js "length") members with
              | Some (JNum _ 0 _) => true
              | _ => false
              end)
  | _ => Return false
  end.

(** One item of the list of saved exercises. *)
Definition saved_item (base enc : jsstring) (ex : Exercise) : html :=
  Elem "article" [attr "class" (js "saved-exercise-item"); attr "role" (js "listitem")]
    [Elem "a" [attr "href" (base ++ js "exercise.html?id=" ++ enc);
               attr "class" (js "saved-exercise-link")]
       [Elem "span" [attr "class" (js "saved-exercise-name")] [Text (name ex)];
        Elem "span" [attr "class" (js "saved-exercise-meta")]
          [Text (difficulty ex ++ js " " ++ [183] ++ js " " ++
                 dec_of_Z (duration ex) ++ js " min")]];
     Elem "button"
       [attr "type" (js "button"); attr "class" (js "btn-remove-saved");
        attr "aria-label" (js "Remove " ++ name ex ++ js " from saved");
        attr "onclick" (js "removeSavedOnAccountPage('" ++ id ex ++ js "')")]
       [Text (js "Remove")]].

(** The callback of [bookmarkedExercises.map]: the item of the exercise
    with that identifier, the empty string (no markup) when the catalog
    has none.  An element that is no string equals no identifier. *)
Definition saved_item_for (base : jsstring) (catalog : list Exercise)
    (bookmark : json) : Completion (list html) :=
  match match bookmark with
        | JStr i => find_by_id catalog i
        | _ => None
        end with
  | None => Return []
  | Some ex =>
      match encodeURIComponent (id ex) with
      | Return enc => Return [saved_item base enc ex]
      | Throw e => Throw e
      end
  end.

Fixpoint saved_items (base : jsstring) (catalog : list Exercise)
    (bookmarks : list json) : Completion (list html) :=
  match bookmarks with
  | [] => Return []
  | b :: rest =>
      match saved_item_for base catalog b with
      | Throw e => Throw e
      | Return item =>
          match saved_items base catalog rest with
          | Throw e => Throw e
          | Return items => Return (item ++ items)
          end
      end
  end.

(** [renderSavedExercisesList()].  With bookmarks and an empty catalog it
    starts [loadExercises()] and returns; the reload is counted as
    pending and [reload_completes] stands for its [then]. *)
Definition renderSavedExercisesList : MA value :=
  acc <~ getA ;;
  let st := app_state acc in
  match page_element "savedExercisesList" st with
  | None => retA Undefined
  | Some _ =>
      empty <~ on_page (lift (length_is_zero (bookmarkedExercises st))) ;;
      if empty then
        on_page (modify (set_innerHTML "savedExercisesList" [])) ~;;
        on_page (set_hidden_if_present "noSavedExercises" false) ~;;
        retA Undefined
      else
        on_page (set_hidden_if_present "noSavedExercises" true) ~;;
        match exercises st with
        | [] =>
            on_page (modify (set_innerHTML "savedExercisesList"
                               [Elem "p" [attr "class" (js "loading-message")]
                                  [Text (js "Loading saved exercises...")]])) ~;;
            modifyA (fun a => set_reloads_pending (S (reloads_pending a)) a) ~;;
            retA Undefined
        | _ :: _ =>
            items <~ on_page (lift (match bookmarkedExercises st with
                                    | JArr arr =>
                                        saved_items (getBaseUrl st) (exercises st) arr
                                    | _ => Throw (TypeError "bookmarkedExercises.map")
                                    end)) ;;
            on_page (modify (set_innerHTML "savedExercisesList" items)) ~;;
            retA Undefined
        end
  end.


(** [removeSavedOnAccountPage(exerciseId)].  On a string, [indexOf] is the
    search for a substring and [splice] is missing; on anything else that
    is no array, [indexOf] itself is missing. *)
Definition removeSavedOnAccountPage (exerciseId : jsstring) : MA value :=
  acc <~ getA ;;
  match bookmarkedExercises (app_state acc) with
  | JArr arr =>
      let index := indexOf arr exerciseId in
      if (index >? -1)%Z then
        on_page (modify (set_bookmarkedExercises
                           (JArr (splice1 arr (Z.to_nat index))))) ~;;
        on_page saveBookmarks ~;;
        renderSavedExercisesList ~;;
        retA Undefined
      else retA Undefined
  | JStr s =>
      if str_includes exerciseId s
      then throwA (TypeError "bookmarkedExercises.splice")
      else retA Undefined
  | _ => throwA (TypeError "bookmarkedExercises.indexOf")
  end.

(** [showAccountDashboard(user)]: the name element is reached without
    [?.], a TypeError when it is missing. *)
Definition showAccountDashboard (user : SessionUser) : MA value :=
  on_page (set_hidden_if_present "accountDashboardSection" false) ~;;
  acc <~ getA ;;
  match page_element "accountUserName" (app_state acc) with
  | None => throwA (TypeError "textContent of null")
  | Some _ =>
      on_page (modify (set_textContent "accountUserName"
                         (if truthy (su_name user) then su_name user
                          else match su_email user with
                               | Some email => email
                               | None => []
                               end))) ~;;
      renderSavedExercisesList ~;;
      retA Undefined
  end.

(** [error.message || fallback] *)
Definition message_or (error : AuthError) (fallback : jsstring) : jsstring :=
  if truthy (message error) then message error else fallback.

(** [handleSignIn(e)], for the values of the two inputs of the form
    ([None]: the input is missing from the page). *)
Definition handleSignIn (window_supabase : option AuthClient)
    (email_value password_value : option jsstring) : MA value :=
  match truthy_field (option_map trim email_value), truthy_field password_value with
  | Some email, Some password =>
      match window_supabase with
      | None =>
          on_page (setAuthMessage
                     (js "Auth is not available. Please refresh the page.") true) ~;;
          retA Undefined
      | Some supabase =>
          on_page (setAuthMessage (js "Signing in...") false) ~;;
          send (SignInWithPassword email password) ~;;
          match auth_signInWithPassword supabase email password with
          | Rejected e => throwA e
          | Fulfilled reply =>
              match signin_error reply with
              | Some error =>
                  on_page (setAuthMessage
                             (message_or error (js "Invalid email or password."))
                             true) ~;;
                  retA Undefined
              | None =>
                  on_page (setAuthMessage [] false) ~;;
                  on_page hideAuthForm ~;;
                  match signin_user reply with
                  | None => throwA (TypeError "user.id")
                  | Some user =>
                      showAccountDashboard
                        {| su_id := user_id user; su_email := user_email user;
                           su_name := display_name user |}
                  end
              end
          end
      end
  | _, _ =>
      on_page (setAuthMessage (js "Please enter email and password.") true) ~;;
      retA Undefined
  end.

(** [user.user_metadata?.name || name || user.email?.split('@')[0] || 'User'] *)
Definition signup_display_name (user : User) (name : jsstring) : jsstring :=
  match truthy_field (match user_metadata user with
                      | Some meta_name => meta_name
                      | None => None
                      end) with
  | Some n => n
  | None =>
      if truthy name then name
      else match truthy_field (option_map (before_first 64) (user_email user)) with
           | Some n => n
           | None => js "User"
           end
  end.

(** [handleSignUp(e)], for the values of the three inputs of the form. *)
Definition handleSignUp (window_supabase : option AuthClient)
    (name_value email_value password_value : option jsstring) : MA value :=
  match truthy_field (option_map trim name_value),
        truthy_field (option_map trim email_value),
        truthy_field password_value with
  | Some name, Some email, Some password =>
      if (length password <? 6)%nat then
        on_page (setAuthMessage (js "Password must be at least 6 characters.") true) ~;;
        retA Undefined
      else
        match window_supabase with
        | None =>
            on_page (setAuthMessage
                       (js "Auth is not available. Please refresh the page.") true) ~;;
            retA Undefined
        | Some supabase =>
            on_page (setAuthMessage (js "Creating account...") false) ~;;
            send (SignUp email password name) ~;;
            match auth_signUp supabase email password name with
            | Rejected e => throwA e
            | Fulfilled reply =>
                match signup_error reply with
                | Some error =>
                    on_page (setAuthMessage
                               (message_or error (js "Could not create account."))
                               true) ~;;
                    retA Undefined
                | None =>
                    match signup_user reply, signup_session reply with
                    | Some _, false =>
                        on_page (setAuthMessage
                                   (js "Check your email to confirm your account, then sign in.")
                                   false) ~;;
                        retA Undefined
                    | without_session, _ =>
                        on_page (setAuthMessage [] false) ~;;
                        on_page hideAuthForm ~;;
                        match without_session with
                        | None => throwA (TypeError "user.id")
                        | Some user =>
                            showAccountDashboard
                              {| su_id := user_id user; su_email := user_email user;
                                 su_name := signup_display_name user name |}
                        end
                    end
                end
            end
        end
  | _, _, _ =>
      on_page (setAuthMessage (js "Please fill in all fields.") true) ~;;
      retA Undefined
  end.

Definition handleSignOut (window_supabase : option AuthClient) : MA value :=
  match window_supabase with
  | Some supabase =>
      send SignOut ~;;
      match auth_signOut supabase with
      | Rejected e => throwA e
      | Fulfilled _ => retA tt
      end
  | None => retA tt
  end ~;;
  on_page showAuthForm ~;;
  on_page hideAccountDashboard ~;;
  retA Undefined.

(** [await getCurrentUser()] on the account page: when there is a client,
    [supabase.auth.getSession()] is a request to the auth service. *)
Definition current_user (window_supabase : option AuthClient)
  : MA (option SessionUser) :=
  match getSupabase (option_map base_client window_supabase) with
  | Some _ => send GetSession
  | None => retA tt
  end ~;;
  on_page (lift (getCurrentUser (option_map base_client window_supabase))).

(** [initAccountPage()].  [setupAuthTabs] and the three
    [addEventListener] calls only register handlers. *)
Definition initAccountPage (window_supabase : option AuthClient)
    (outcome : FetchOutcome) : MA value :=
  on_page loadBookmarks ~;;
  currentUser <~ current_user window_supabase ;;
  match currentUser with
  | Some user =>
      on_page (loadExercises outcome) ~;;
      showAccountDashboard user ~;;
      on_page hideAuthForm
  | None =>
      on_page showAuthForm ~;;
      on_page hideAccountDashboard
  end ~;;
  retA Undefined.

(** The account page when the script has been loaded. *)
Definition initial_account (page : gmap string Element) (href : jsstring)
    (storage : gmap string jsstring) : Account :=
  {| app_state := initial_state page href storage; sent := []; reloads_pending := 0 |}.

(** ** app.js: the list page *)

(** [initExercisesPage()]: the cards get click handlers that lead to
    the exercise page; computing a link can throw. *)
Definition initExercisesPage (outcome : FetchOutcome) : M value :=
  loadExercises outcome ;;;
  loadBookmarks ;;;
  st <- get ;;
  match page_element "exercisesPageGrid" st with
  | None => ret Undefined
  | Some _ =>
      match exercises st with
      | [] =>
          modify (set_innerHTML "exercisesPageGrid"
                    [Elem "p" [attr "class" (js "no-exercises");
                               attr "style" (js "color: rgba(255,255,255,0.9);")]
                       [Text (js "No exercises available.")]]) ;;;
          ret Undefined
      | _ :: _ =>
          cards <- mapM createExerciseCard (exercises st) ;;
          modify (set_innerHTML "exercisesPageGrid" cards) ;;;
          mapM (fun exercise => lift (encodeURIComponent (id exercise))) (exercises st) ;;;
          ret Undefined
      end
  end.

(** ** Notions for the account page and the other pages *)

(** Every run of [m] on the account page relates the page before to the
    page after. *)
Definition keepsA {A} (R : Account -> Account -> Prop) (m : MA A) : Prop :=
  forall acc, R acc (snd (m acc)).

(** The requests are the same after as before. *)
Definition same_sent (acc acc' : Account) : Prop := sent acc' = sent acc.

(** What is left of [handleSignUp] after the request has been sent. *)
Definition after_signUp (reply : Async SignUpReply) (name : jsstring) : MA value :=
  match reply with
  | Rejected e => throwA e
  | Fulfilled reply =>
      match signup_error reply with
      | Some error =>
          on_page (setAuthMessage (message_or error (js "Could not create account."))
                                  true) ~;;
          retA Undefined
      | None =>
          match signup_user reply, signup_session reply with
          | Some _, false =>
              on_page (setAuthMessage
                         (js "Check your email to confirm your account, then sign in.")
                         false) ~;;
              retA Undefined
          | without_session, _ =>
              on_page (setAuthMessage [] false) ~;;
              on_page hideAuthForm ~;;
              match without_session with
              | None => throwA (TypeError "user.id")
              | Some user =>
                  showAccountDashboard
                    {| su_id := user_id user; su_email := user_email user;
                       su_name := signup_display_name user name |}
              end
          end
      end
  end.

(** The page element [i] is the same after as before. *)
Definition same_element (i : string) (st st' : State) : Prop :=
  document st' !! i = document st !! i.

(** Whether the page element [i] carries the class [hidden]. *)
Definition is_hidden (i : string) (st : State) : option bool :=
  hidden <$> document st !! i.

(** The relation on the account page. *)
Definition same_elementA (i : string) (acc acc' : Account) : Prop :=
  same_element i (app_state acc) (app_state acc').

(** What is left of [handleSignIn] after the request has been sent. *)
Definition after_signIn (reply : Async SignInReply) : MA value :=
  match reply with
  | Rejected e => throwA e
  | Fulfilled reply =>
      match signin_error reply with
      | Some error =>
          on_page (setAuthMessage (message_or error (js "Invalid email or password."))
                                  true) ~;;
          retA Undefined
      | None =>
          on_page (setAuthMessage [] false) ~;;
          on_page hideAuthForm ~;;
          match signin_user reply with
          | None => throwA (TypeError "user.id")
          | Some user =>
              showAccountDashboard
                {| su_id := user_id user; su_email := user_email user;
                   su_name := display_name user |}
          end
      end
  end.

(** The account page after [m] has run on it. *)
Definition then_page {A} (m : M A) (acc : Account) : Account :=
  {| app_state := handle m (app_state acc); sent := sent acc;
     reloads_pending := reloads_pending acc |}.

(** The account page after one more request. *)
Definition then_sent (r : AuthRequest) (acc : Account) : Account :=
  {| app_state := app_state acc; sent := sent acc ++ [r];
     reloads_pending := reloads_pending acc |}.

(** The account page after [getCurrentUser] has asked for the session:
    one more request when there is a client. *)
Definition then_asked (window_supabase : option AuthClient) (acc : Account) : Account :=
  match window_supabase with
  | Some _ => then_sent GetSession acc
  | None => acc
  end.

(** The text that [showAccountDashboard] puts into the name element:
    [user.name || user.email]. *)
Definition shown_name (user : SessionUser) : jsstring :=
  if truthy (su_name user) then su_name user
  else match su_email user with
       | Some email => email
       | None => []
       end.

(** The script's variables and the storage on the account page. *)
Definition same_modelA (acc acc' : Account) : Prop :=
  same_model (app_state acc) (app_state acc').

(** The item of [ex] in the saved list. *)
Definition item_of (base : jsstring) (ex : Exercise) (item : html) : Prop :=
  exists enc, encodeURIComponent (id ex) = Return enc /\ item = saved_item base enc ex.

(** The identifier of every exercise can be put into a link. *)
Definition linkable (catalog : list Exercise) : Prop :=
  Forall (fun ex => exists enc, encodeURIComponent (id ex) = Return enc) catalog.





(** What the saved list shows while the catalog is awaited. *)
Definition loading_message : list html :=
  [Elem "p" [attr "class" (js "loading-message")]
     [Text (js "Loading saved exercises...")]].

(** What stays true while the saved list waits for the catalog. *)
Record waiting (bookmarks : json) (pending : nat) (acc : Account) : Prop := {
  w_bookmarks : bookmarkedExercises (app_state acc) = bookmarks;
  w_catalog : exercises (app_state acc) = [];
  w_pending : reloads_pending acc = S pending;
  w_list : innerHTML <$> page_element "savedExercisesList" (app_state acc) =
           Some loading_message
}.

(** What happens on the home page once it is loaded: the history moves,
    an exercise is opened, a control of the detail view or a bookmark
    button is used, the visitor goes back to the gallery. *)
Inductive PageEvent :=
| Popstate (exerciseId : option jsstring)
| ViewExercise (exerciseId : jsstring)
| PlayPause (play_ok : bool)
| SlowMotion
| MuscleHighlight
| Bookmark (exerciseId : jsstring)
| BackToGallery.

Definition on_event (event : PageEvent) : M value :=
  match event with
  | Popstate exerciseId => on_popstate exerciseId
  | ViewExercise exerciseId => viewExercise exerciseId
  | PlayPause play_ok => togglePlayPause play_ok
  | SlowMotion => toggleSlowMotion
  | MuscleHighlight => toggleMuscleHighlight
  | Bookmark exerciseId => toggleBookmark exerciseId
  | BackToGallery => backToGallery
  end.

(** The state after the events, each handled to its end, thrown or not. *)
Definition after_events (events : list PageEvent) (st : State) : State :=
  foldl (fun st event => handle (on_event event) st) st events.

(** How often an event of a kind occurs. *)
Definition is_slow_motion (event : PageEvent) : bool :=
  match event with
  | SlowMotion => true
  | _ => false
  end.

Definition is_muscle_highlight (event : PageEvent) : bool :=
  match event with
  | MuscleHighlight => true
  | _ => false
  end.

Definition times (which : PageEvent -> bool) (events : list PageEvent) : nat :=
  length (filter (fun event => which event = true) events).

(** The bookmarks are distinct identifiers and the storage holds them,
    or nothing yet while there are none. *)
Definition in_sync (st : State) : Prop :=
  exists ids,
    bookmarkedExercises st = JArr (map JStr ids) /\ NoDup ids /\
    (load_persisted st = Some (JArr (map JStr ids)) \/
     (persisted st = None /\ ids = [])).

(** Everything but the current exercise, the page and the log. *)
Record same_session (st st' : State) : Prop := {
  ss_exercises : exercises st' = exercises st;
  ss_bookmarks : bookmarkedExercises st' = bookmarkedExercises st;
  ss_speed : animationSpeed st' = animationSpeed st;
  ss_playing : isPlaying st' = isPlaying st;
  ss_highlight : showMuscleHighlight st' = showMuscleHighlight st;
  ss_storage : localStorage st' = localStorage st
}.

(** What [classList.toggle(class, on)] calls have left of [class] on
    [target]: the last of them decides. *)
Fixpoint last_toggle (target class : string) (log : list Effect) : option bool :=
  match log with
  | [] => None
  | e :: rest =>
      match last_toggle target class rest with
      | Some on => Some on
      | None =>
          match e with
          | ToggleClass t c on =>
              if String.eqb t target && String.eqb c class then Some on else None
          | _ => None
          end
      end
  end.

(** Whether [includes] can be called on the value: on arrays and on
    strings. *)
Definition has_includes (v : json) : bool :=
  match v with
  | JArr _ | JStr _ => true
  | _ => false
  end.



(** ** More sample data *)

(** An account page with the elements the script looks up, the form
    shown and the dashboard hidden. *)
Definition account_page : gmap string Element :=
  list_to_map
    [("accountAuthSection"%string, empty_element false);
     ("accountDashboardSection"%string, empty_element true);
     ("accountUserName"%string, empty_element false);
     ("authMessage"%string, empty_element true);
     ("savedExercisesList"%string, empty_element false);
     ("noSavedExercises"%string, empty_element true)].

Definition account_href : jsstring := js "http://localhost:8000/account.html".

(** A service that knows the sample user and opens a session at once. *)
Definition sample_auth_client : AuthClient :=
  {| base_client := signed_in_client;
     auth_signInWithPassword :=
       fun _ _ => Fulfilled {| signin_user := Some sample_user; signin_error := None |};
     auth_signUp :=
       fun _ _ _ => Fulfilled {| signup_user := Some sample_user; signup_session := true;
                                 signup_error := None |};
     auth_signOut := Fulfilled tt |}.

(** The account page of a visitor with nothing stored. *)
Definition fresh_account : Account := initial_account account_page account_href ∅.

(** A storage with two bookmarks, the second of an exercise that the
    sample catalog does not have. *)
Definition two_bookmarks : gmap string jsstring :=
  {[ "moveoBookmarks"%string := stringify (JArr [JStr (js "a"); JStr (js "gone")]) ]}.

(** The account page of the signed-in sample user with these bookmarks,
    once with the catalog loaded and once with the fetch failing. *)
Definition saved_account : Account :=
  snd (initAccountPage (Some sample_auth_client)
         (Responded true (BodyJson sample_catalog))
         (initial_account account_page account_href two_bookmarks)).




(** A user whose profile has a name, and a service that signs this user
    up with a session. *)
Definition named_user : User :=
  {| user_id := js "7f1c";
     user_email := Some (js "ada@example.org");
     user_metadata := Some (Some (js "Countess")) |}.

Definition named_auth_client : AuthClient :=
  {| base_client := signed_in_client;
     auth_signInWithPassword :=
       fun _ _ => Fulfilled {| signin_user := Some named_user; signin_error := None |};
     auth_signUp :=
       fun _ _ _ => Fulfilled {| signup_user := Some named_user; signup_session := true;
                                 signup_error := None |};
     auth_signOut := Fulfilled tt |}.

(** A storage in which the first bookmark has been stored twice, and the
    account page of the signed-in sample user with it. *)
Definition repeated_bookmarks : gmap string jsstring :=
  {[ "moveoBookmarks"%string :=
       stringify (JArr [JStr (js "a"); JStr (js "gone"); JStr (js "a")]) ]}.

Definition repeated_account : Account :=
  snd (initAccountPage (Some sample_auth_client)
         (Responded true (BodyJson sample_catalog))
         (initial_account account_page account_href repeated_bookmarks)).


(** A page that has the video and the play button. *)
Definition player_page : gmap string Element :=
  <["exerciseVideo" := empty_element false]>
    (<["playPauseBtn" := empty_element false]> home_page).


(** * Properties

    ** JSON: what [stringify] writes for an array of strings, [parse] reads back *)

Lemma hex_value_digit d : d < 16 -> hex_value (hex_digit d) = Some d.
Proof.
  intros H. unfold hex_value, hex_digit.
  destruct (N.ltb_spec d 10).
  - replace ((48 <=? 48 + d) && (48 + d <=? 57)) with true by (symmetry; apply andb_true_intro; split; apply N.leb_le; lia).
    f_equal. lia.
  - replace ((48 <=? 87 + d) && (87 + d <=? 57)) with false by (symmetry; apply andb_false_intro2; apply N.leb_gt; lia).
    replace ((97 <=? 87 + d) && (87 + d <=? 102)) with true by (symmetry; apply andb_true_intro; split; apply N.leb_le; lia).
    f_equal. lia.
Qed.

Lemma hex4_value c : c < 65536 ->
  4096 * (c / 4096 mod 16) + 256 * (c / 256 mod 16) + 16 * (c / 16 mod 16) + c mod 16 = c.
Proof.
  intros H.
  assert (H16 : c / 16 / 16 = c / 256) by (rewrite N.Div0.div_div; reflexivity).
  assert (H256 : c / 256 / 16 = c / 4096) by (rewrite N.Div0.div_div; reflexivity).
  assert (Hs : c / 4096 < 16) by (apply N.Div0.div_lt_upper_bound; lia).
  rewrite (N.mod_small (c / 4096) 16 Hs).
  pose proof (N.div_mod c 16 ltac:(lia)) as E0.
  pose proof (N.div_mod (c / 16) 16 ltac:(lia)) as E1.
  pose proof (N.div_mod (c / 256) 16 ltac:(lia)) as E2.
  rewrite H16 in E1. rewrite H256 in E2.
  generalize dependent (c mod 16). generalize dependent (c / 16 mod 16).
  generalize dependent (c / 256 mod 16).
  generalize dependent (c / 16). generalize dependent (c / 256).
  generalize dependent (c / 4096). intros. lia.
Qed.

Lemma parse_chars_plain c tail :
  32 <= c -> c <> 34 -> c <> 92 ->
  parse_chars (c :: tail) = consume c (parse_chars tail).
Proof.
  intros Hge H34 H92. cbn [parse_chars].
  destruct (N.eqb_spec c 34) as [|_]; [contradiction|].
  destruct (N.eqb_spec c 92) as [|_]; [contradiction|].
  destruct (N.ltb_spec c 32); [lia|]. reflexivity.
Qed.

Lemma parse_chars_escape c tail :
  c < 65536 ->
  parse_chars (unicode_escape c ++ tail) = consume c (parse_chars tail).
Proof.
  intros Hc. unfold unicode_escape.
  change (parse_chars ([92; 117; hex_digit (c / 4096 mod 16); hex_digit (c / 256 mod 16);
   hex_digit (c / 16 mod 16); hex_digit (c mod 16)] ++ tail))
    with (match hex_value (hex_digit (c / 4096 mod 16)),
                hex_value (hex_digit (c / 256 mod 16)),
                hex_value (hex_digit (c / 16 mod 16)),
                hex_value (hex_digit (c mod 16)) with
          | Some a, Some b, Some c', Some d =>
              match parse_chars tail with
              | Some (body, after) => Some (4096 * a + 256 * b + 16 * c' + d :: body, after)
              | None => None
              end
          | _, _, _, _ => None
          end).
  rewrite !hex_value_digit by (apply N.mod_lt; lia).
  rewrite hex4_value by assumption. reflexivity.
Qed.

Lemma parse_chars_unit c tail :
  is_high_surrogate c = false ->
  parse_chars (quote_unit c ++ tail) = consume c (parse_chars tail).
Proof.
  intros Hh. unfold quote_unit.
  destruct (N.eqb_spec c 8) as [->|?]; [reflexivity|].
  destruct (N.eqb_spec c 9) as [->|?]; [reflexivity|].
  destruct (N.eqb_spec c 10) as [->|?]; [reflexivity|].
  destruct (N.eqb_spec c 12) as [->|?]; [reflexivity|].
  destruct (N.eqb_spec c 13) as [->|?]; [reflexivity|].
  destruct (N.eqb_spec c 34) as [->|?]; [reflexivity|].
  destruct (N.eqb_spec c 92) as [->|?]; [reflexivity|].
  rewrite Hh, orb_false_r. unfold is_low_surrogate.
  destruct (N.ltb_spec c 32); cbn [orb].
  - apply parse_chars_escape. lia.
  - destruct (N.leb_spec 56320 c); cbn [andb].
    + destruct (N.leb_spec c 57343).
      * apply parse_chars_escape. lia.
      * apply parse_chars_plain; lia.
    + apply parse_chars_plain; lia.
Qed.

Lemma quote_chars_cons c rest :
  quote_chars (c :: rest) =
  if is_high_surrogate c then
    match rest with
    | d :: rest' =>
        if is_low_surrogate d then c :: d :: quote_chars rest'
        else unicode_escape c ++ quote_chars rest
    | [] => unicode_escape c
    end
  else quote_unit c ++ quote_chars rest.
Proof. reflexivity. Qed.

Lemma parse_chars_quote_chars s :
  (forall rest, parse_chars (quote_chars s ++ 34 :: rest) = Some (s, rest)) /\
  (forall c rest, parse_chars (quote_chars (c :: s) ++ 34 :: rest) = Some (c :: s, rest)).
Proof.
  induction s as [|d s [IH1 IH2]].
  - split; [reflexivity|].
    intros c rest. cbn [quote_chars].
    destruct (is_high_surrogate c) eqn:Hh.
    + rewrite parse_chars_escape; [reflexivity|].
      unfold is_high_surrogate in Hh. apply andb_prop in Hh as [_ Hh].
      apply N.leb_le in Hh. lia.
    + rewrite app_nil_r. rewrite parse_chars_unit by assumption. reflexivity.
  - split; [apply IH2|].
    intros c rest. rewrite quote_chars_cons.
    destruct (is_high_surrogate c) eqn:Hh.
    + unfold is_high_surrogate in Hh. apply andb_prop in Hh as [Hlo Hhi].
      apply N.leb_le in Hlo, Hhi.
      destruct (is_low_surrogate d) eqn:Hl.
      * unfold is_low_surrogate in Hl. apply andb_prop in Hl as [Hlo' Hhi'].
        apply N.leb_le in Hlo', Hhi'.
        cbn [app]. rewrite parse_chars_plain by lia.
        rewrite parse_chars_plain by lia. rewrite IH1. reflexivity.
      * rewrite <- app_assoc, parse_chars_escape by lia.
        rewrite (IH2 d rest). reflexivity.
    + rewrite <- app_assoc, parse_chars_unit by assumption.
      rewrite (IH2 d rest). reflexivity.
Qed.

Lemma parse_value_quote fuel rest :
  parse_value (S fuel) (34 :: rest) =
  match parse_chars rest with
  | Some (body, after) => Some (JStr body, after)
  | None => None
  end.
Proof. reflexivity. Qed.

Lemma parse_value_string fuel s rest :
  parse_value (S fuel) (quote s ++ rest) = Some (JStr s, rest).
Proof.
  unfold quote. cbn [app]. rewrite parse_value_quote, <- app_assoc.
  cbn [app]. rewrite (proj1 (parse_chars_quote_chars s)). reflexivity.
Qed.

Lemma parse_elems_step fuel s :
  parse_elems (S fuel) s =
  match parse_value fuel s with
  | None => None
  | Some (v, after) =>
      match skip_ws after with
      | 44 :: more =>
          match parse_elems fuel more with
          | Some (vs, after') => Some (v :: vs, after')
          | None => None
          end
      | 93 :: after' => Some ([v], after')
      | _ => None
      end
  end.
Proof. reflexivity. Qed.

Lemma parse_elems_strings l : forall x fuel rest,
  (length l + 2 <= fuel)%nat ->
  parse_elems fuel (join [44] (map quote (x :: l)) ++ 93 :: rest) =
  Some (map JStr (x :: l), rest).
Proof.
  induction l as [|y l IH]; intros x fuel rest Hfuel.
  - destruct fuel as [|[|fuel]]; [simpl in Hfuel; lia..|].
    rewrite parse_elems_step. cbn [map join].
    rewrite parse_value_string. reflexivity.
  - destruct fuel as [|[|fuel]]; [simpl in Hfuel; lia..|].
    rewrite parse_elems_step.
    change (join [44] (map quote (x :: y :: l)))
      with (quote x ++ [44] ++ join [44] (map quote (y :: l))).
    rewrite <- !app_assoc. rewrite parse_value_string.
    cbn [app skip_ws is_ws N.eqb Pos.eqb orb].
    rewrite IH by (simpl in Hfuel |- *; lia). reflexivity.
Qed.

Lemma length_join_quote (l : list jsstring) :
  (length l <= length (join [44%N] (map quote l)))%nat.
Proof.
  induction l as [|x [|y l] IH].
  - simpl; lia.
  - unfold quote. simpl. lia.
  - change (join [44] (map quote (x :: y :: l)))
      with (quote x ++ [44] ++ join [44] (map quote (y :: l))).
    rewrite !length_app. simpl in IH |- *. lia.
Qed.

Lemma stringify_ids ids :
  stringify (JArr (map JStr ids)) = 91 :: join [44] (map quote ids) ++ [93].
Proof.
  cbn [stringify]. rewrite map_map. reflexivity.
Qed.

Lemma parse_value_array fuel rest :
  parse_value (S fuel) (91 :: rest) =
  match skip_ws rest with
  | 93 :: after => Some (JArr [], after)
  | _ => match parse_elems fuel rest with
         | Some (elems, after) => Some (JArr elems, after)
         | None => None
         end
  end.
Proof. reflexivity. Qed.

Lemma parse_stringify_ids ids :
  parse (stringify (JArr (map JStr ids))) = Some (JArr (map JStr ids)).
Proof.
  rewrite stringify_ids. unfold parse.
  destruct ids as [|x l].
  - reflexivity.
  - set (text := 91 :: join [44] (map quote (x :: l)) ++ [93]).
    assert (Hlen : (length l + 2 <= 2 * length text + 1)%nat).
    { subst text. cbn [length]. rewrite length_app.
      pose proof (length_join_quote (x :: l)) as H. cbn [length] in H |- *. lia. }
    replace (2 * length text + 2)%nat with (S (2 * length text + 1)) by lia.
    subst text. rewrite parse_value_array.
    assert (Hhead : exists tail, join [44] (map quote (x :: l)) ++ [93] = 34 :: tail).
    { destruct l; cbn [map join]; unfold quote; cbn [app]; eauto. }
    destruct Hhead as [tail Htail].
    rewrite Htail at 1. cbn [skip_ws is_ws N.eqb Pos.eqb orb].
    rewrite parse_elems_strings by exact Hlen. reflexivity.
Qed.

(** ** What rendering leaves alone *)

Section Keeps.
Context (R : State -> State -> Prop).
Hypothesis R_refl : forall st, R st st.
Hypothesis R_trans : forall a b c, R a b -> R b c -> R a c.

Lemma keeps_ret {A} (a : A) : keeps R (ret a).
Proof. intros st. apply R_refl. Qed.

Lemma keeps_throw {A} (e : JsError) : keeps R (@throw A e).
Proof. intros st. apply R_refl. Qed.

Lemma keeps_lift {A} (c : Completion A) : keeps R (lift c).
Proof. intros st. apply R_refl. Qed.

Lemma keeps_get : keeps R get.
Proof. intros st. apply R_refl. Qed.

Lemma keeps_modify (f : State -> State) :
  (forall st, R st (f st)) -> keeps R (modify f).
Proof. intros H st. apply H. Qed.

Lemma keeps_bind {A B} (m : M A) (k : A -> M B) :
  keeps R m -> (forall a, keeps R (k a)) -> keeps R (bind m k).
Proof.
  intros Hm Hk st. unfold handle, bind.
  specialize (Hm st). unfold handle in Hm.
  destruct (m st) as [[a|e] st1]; cbn [snd] in *.
  - eapply R_trans; [exact Hm|]. apply Hk.
  - exact Hm.
Qed.

(** [get] hands the current state to the rest. *)
Lemma keeps_bind_get {B} (k : State -> M B) :
  (forall s, keeps R (k s)) -> keeps R (bind get k).
Proof. intros Hk. apply keeps_bind; [apply keeps_get | exact Hk]. Qed.

Lemma keeps_try_catch {A} (m : M A) (h : JsError -> M A) :
  keeps R m -> (forall e, keeps R (h e)) -> keeps R (try_catch m h).
Proof.
  intros Hm Hh st. unfold handle, try_catch.
  specialize (Hm st). unfold handle in Hm.
  destruct (m st) as [[a|e] st1]; cbn [snd] in *.
  - exact Hm.
  - eapply R_trans; [exact Hm|]. apply Hh.
Qed.

Lemma keeps_mapM {A B} (f : A -> M B) (l : list A) :
  (forall a, keeps R (f a)) -> keeps R (mapM f l).
Proof.
  intros Hf. induction l as [|a l IH]; cbn [mapM].
  - apply keeps_ret.
  - apply keeps_bind; [apply Hf|]. intros b.
    apply keeps_bind; [exact IH|]. intros bs. apply keeps_ret.
Qed.
End Keeps.

Lemma same_model_refl st : same_model st st.
Proof. by constructor. Qed.

Lemma same_model_trans a b c : same_model a b -> same_model b c -> same_model a c.
Proof. intros [] []; constructor; congruence. Qed.

Lemma same_model_emit e st : same_model st (emit e st).
Proof. by constructor. Qed.

Lemma same_model_set_document d st : same_model st (set_document d st).
Proof. by constructor. Qed.

Lemma same_model_set_innerHTML i c st : same_model st (set_innerHTML i c st).
Proof.
  unfold set_innerHTML. destruct (document st !! i); [|apply same_model_refl].
  apply same_model_set_document.
Qed.

Ltac keeps_step :=
  first
    [ apply keeps_ret; apply same_model_refl
    | apply keeps_get; apply same_model_refl
    | apply keeps_throw; apply same_model_refl
    | apply keeps_lift; apply same_model_refl
    | apply keeps_modify; intros ?;
      first [apply same_model_emit | apply same_model_set_innerHTML
            | apply same_model_set_document]
    | apply keeps_bind; [apply same_model_trans | | intros ?]
    | apply keeps_mapM; [apply same_model_refl | apply same_model_trans | intros ?]
    | match goal with
      | |- keeps _ (match ?x with _ => _ end) => destruct x
      | |- keeps _ (if ?x then _ else _) => destruct x
      end ].

Lemma keeps_createExerciseCard ex : keeps same_model (createExerciseCard ex).
Proof. unfold createExerciseCard. repeat keeps_step. Qed.

Lemma keeps_link_cards l : forall index, keeps same_model (link_cards index l).
Proof.
  induction l as [|ex l IH]; intros index; cbn [link_cards].
  - repeat keeps_step.
  - apply keeps_bind; [apply same_model_trans | repeat keeps_step |].
    intros st. apply keeps_bind; [apply same_model_trans | repeat keeps_step |].
    intros enc. apply keeps_bind; [apply same_model_trans | repeat keeps_step |].
    intros _. apply IH.
Qed.

Lemma keeps_renderExerciseGallery : keeps same_model renderExerciseGallery.
Proof.
  unfold renderExerciseGallery.
  repeat first [apply keeps_createExerciseCard | apply keeps_link_cards | keeps_step].
Qed.

Lemma keeps_renderExerciseDetail ex : keeps same_model (renderExerciseDetail ex).
Proof. unfold renderExerciseDetail. repeat keeps_step. Qed.

(** ** Arrays of identifiers *)

Lemma indexOf_lower arr x : (-1 <= indexOf arr x)%Z.
Proof.
  induction arr as [|a arr IH]; cbn [indexOf]; [lia|].
  destruct (strict_eq_str a x); [lia|].
  destruct (Z.eqb_spec (indexOf arr x) (-1)); lia.
Qed.

Lemma indexOf_strings ids x :
  (indexOf (map JStr ids) x >? -1)%Z = bool_decide (x ∈ ids).
Proof.
  induction ids as [|y ids IH]; cbn [map indexOf strict_eq_str].
  - symmetry. apply bool_decide_eq_false. apply not_elem_of_nil.
  - destruct (decide (y = x)) as [->|Hne].
    + rewrite bool_decide_eq_true_2 by reflexivity.
      symmetry. rewrite bool_decide_eq_true. apply elem_of_cons. by left.
    + rewrite bool_decide_eq_false_2 by assumption.
      pose proof (indexOf_lower (map JStr ids) x) as Hlow.
      destruct (Z.eqb_spec (indexOf (map JStr ids) x) (-1)) as [E|E].
      * rewrite E in IH. symmetry in IH. apply bool_decide_eq_false in IH.
        symmetry. rewrite bool_decide_eq_false, elem_of_cons.
        intros [?|?]; [congruence | contradiction].
      * assert (H : (indexOf (map JStr ids) x >? -1)%Z = true) by (apply Z.gtb_lt; lia).
        rewrite H in IH. symmetry in IH. apply bool_decide_eq_true in IH.
        transitivity true; [apply Z.gtb_lt; lia|].
        symmetry. rewrite bool_decide_eq_true, elem_of_cons. by right.
Qed.

Lemma splice1_strings ids x :
  x ∈ ids ->
  splice1 (map JStr ids) (Z.to_nat (indexOf (map JStr ids) x)) =
  map JStr (remove_first x ids).
Proof.
  induction ids as [|y ids IH]; intros Hin.
  - by apply elem_of_nil in Hin.
  - cbn [map indexOf strict_eq_str remove_first].
    destruct (decide (y = x)) as [->|Hne].
    + rewrite !bool_decide_eq_true_2 by reflexivity. reflexivity.
    + rewrite !bool_decide_eq_false_2 by assumption.
      apply elem_of_cons in Hin as [?|Hin]; [congruence|].
      assert (Hpos : (indexOf (map JStr ids) x >? -1)%Z = true)
        by (rewrite indexOf_strings; by apply bool_decide_eq_true).
      apply Z.gtb_lt in Hpos.
      destruct (Z.eqb_spec (indexOf (map JStr ids) x) (-1)); [lia|].
      replace (Z.to_nat (1 + indexOf (map JStr ids) x))
        with (S (Z.to_nat (indexOf (map JStr ids) x))) by lia.
      cbn [splice1 map]. by rewrite IH.
Qed.

Lemma toggled_array ids x :
  (if (indexOf (map JStr ids) x >? -1)%Z
   then splice1 (map JStr ids) (Z.to_nat (indexOf (map JStr ids) x))
   else map JStr ids ++ [JStr x]) = map JStr (toggle_ids x ids).
Proof.
  rewrite indexOf_strings. unfold toggle_ids.
  destruct (decide (x ∈ ids)) as [Hin|Hout].
  - rewrite !bool_decide_eq_true_2 by assumption. by apply splice1_strings.
  - rewrite !bool_decide_eq_false_2 by assumption. by rewrite map_app.
Qed.

Lemma elem_of_remove_first x y ids :
  NoDup ids -> y ∈ remove_first x ids <-> y ∈ ids /\ y <> x.
Proof.
  induction 1 as [|z ids Hz Hnd IH]; cbn [remove_first].
  - split; [intros H; by apply elem_of_nil in H | intros [H _]; by apply elem_of_nil in H].
  - destruct (decide (z = x)) as [->|Hne].
    + rewrite bool_decide_eq_true_2 by reflexivity. rewrite elem_of_cons.
      split.
      * intros Hy. split; [by right|]. intros ->. contradiction.
      * intros [[->|Hy] Hyx]; [contradiction | assumption].
    + rewrite bool_decide_eq_false_2 by assumption. rewrite !elem_of_cons, IH.
      split.
      * intros [->|[Hy Hyx]]; split; auto.
      * intros [[->|Hy] Hyx]; auto.
Qed.

Lemma NoDup_remove_first x ids : NoDup ids -> NoDup (remove_first x ids).
Proof.
  induction 1 as [|z ids Hz Hnd IH]; cbn [remove_first]; [constructor|].
  destruct (bool_decide (z = x)); [assumption|].
  constructor; [|assumption].
  rewrite elem_of_remove_first by assumption. tauto.
Qed.

Lemma elem_of_toggle_ids x y ids :
  NoDup ids ->
  y ∈ toggle_ids x ids <-> (y <> x /\ y ∈ ids) \/ (y = x /\ x ∉ ids).
Proof.
  intros Hnd. unfold toggle_ids.
  destruct (decide (x ∈ ids)) as [Hin|Hout].
  - rewrite bool_decide_eq_true_2 by assumption.
    rewrite elem_of_remove_first by assumption. tauto.
  - rewrite bool_decide_eq_false_2 by assumption.
    rewrite elem_of_app, list_elem_of_singleton.
    split.
    + intros [Hy| ->]; [left; split; [intros ->; contradiction | assumption] | right; auto].
    + intros [[_ Hy]|[-> _]]; auto.
Qed.

Lemma NoDup_toggle_ids x ids : NoDup ids -> NoDup (toggle_ids x ids).
Proof.
  intros Hnd. unfold toggle_ids.
  destruct (decide (x ∈ ids)) as [Hin|Hout].
  - rewrite bool_decide_eq_true_2 by assumption. by apply NoDup_remove_first.
  - rewrite bool_decide_eq_false_2 by assumption.
    apply NoDup_app. split; [assumption|]. split.
    + intros y Hy Hx. apply list_elem_of_singleton in Hx as ->. contradiction.
    + apply NoDup_singleton.
Qed.

(** ** toggleBookmark *)

Lemma keeps_update_ui x : keeps same_model (update_ui x).
Proof.
  unfold update_ui.
  repeat first [apply keeps_renderExerciseDetail
               | apply keeps_renderExerciseGallery | keeps_step].
Qed.

Lemma toggleBookmark_unfold st arr x :
  bookmarkedExercises st = JArr arr ->
  toggleBookmark x st =
  (update_ui x ;;; ret Undefined)
    (if (indexOf arr x >? -1)%Z
     then toggled_state (splice1 arr (Z.to_nat (indexOf arr x)))
            (js "Exercise removed from bookmarks") st
     else toggled_state (arr ++ [JStr x]) (js "Exercise added to bookmarks") st).
Proof.
  intros Harr. unfold toggleBookmark.
  unfold bind at 1, get at 1. rewrite Harr.
  destruct (indexOf arr x >? -1)%Z; reflexivity.
Qed.

Lemma toggleBookmark_array st arr x :
  bookmarkedExercises st = JArr arr ->
  let arr' := if (indexOf arr x >? -1)%Z
              then splice1 arr (Z.to_nat (indexOf arr x))
              else arr ++ [JStr x] in
  bookmarkedExercises (handle (toggleBookmark x) st) = JArr arr' /\
  localStorage (handle (toggleBookmark x) st) =
    <["moveoBookmarks" := stringify (JArr arr')]> (localStorage st) /\
  (fst (toggleBookmark x st) = Return Undefined \/
   exists e, fst (toggleBookmark x st) = Throw e).
Proof.
  intros Harr arr'. unfold handle.
  rewrite (toggleBookmark_unfold st arr x Harr).
  set (mid := if (indexOf arr x >? -1)%Z then _ else _).
  assert (Hmid : bookmarkedExercises mid = JArr arr' /\
                 localStorage mid =
                 <["moveoBookmarks" := stringify (JArr arr')]> (localStorage st)).
  { subst mid arr'. destruct (indexOf arr x >? -1)%Z; split; reflexivity. }
  pose proof (keeps_update_ui x mid) as Hk. unfold handle in Hk.
  unfold bind, ret. destruct (update_ui x mid) as [[v|e] st2]; cbn [fst snd] in *;
    destruct Hk, Hmid; (split; [congruence|]); (split; [congruence|]); eauto.
Qed.

(** ** find *)

Lemma find_by_id_Some catalog wanted ex :
  find_by_id catalog wanted = Some ex -> ex ∈ catalog /\ id ex = wanted.
Proof.
  induction catalog as [|e catalog IH]; cbn [find_by_id]; [discriminate|].
  destruct (decide (id e = wanted)) as [Heq|Hne].
  - rewrite bool_decide_eq_true_2 by assumption. intros [= <-].
    split; [apply elem_of_cons; by left | assumption].
  - rewrite bool_decide_eq_false_2 by assumption. intros H.
    destruct (IH H) as [Hin Hid]. split; [apply elem_of_cons; by right | assumption].
Qed.

Lemma find_by_id_absent catalog wanted :
  wanted ∉ map id catalog -> find_by_id catalog wanted = None.
Proof.
  induction catalog as [|e catalog IH]; cbn [find_by_id map]; [reflexivity|].
  intros Hout. apply not_elem_of_cons in Hout as [Hne Hout].
  rewrite bool_decide_eq_false_2 by congruence. by apply IH.
Qed.

Lemma find_by_id_present catalog wanted :
  wanted ∈ map id catalog -> exists ex, find_by_id catalog wanted = Some ex.
Proof.
  induction catalog as [|e catalog IH]; cbn [find_by_id map]; intros Hin.
  - by apply elem_of_nil in Hin.
  - destruct (decide (id e = wanted)) as [Heq|Hne].
    + rewrite bool_decide_eq_true_2 by assumption. eauto.
    + rewrite bool_decide_eq_false_2 by assumption.
      apply elem_of_cons in Hin as [?|Hin]; [congruence | by apply IH].
Qed.

Lemma find_by_id_unique catalog ex :
  NoDup (map id catalog) -> ex ∈ catalog -> find_by_id catalog (id ex) = Some ex.
Proof.
  induction catalog as [|e catalog IH]; intros Hnd Hin.
  - by apply elem_of_nil in Hin.
  - cbn [map] in Hnd. apply NoDup_cons in Hnd as [Hfresh Hnd].
    cbn [find_by_id]. apply elem_of_cons in Hin as [->|Hin].
    + by rewrite bool_decide_eq_true_2.
    + rewrite bool_decide_eq_false_2; [by apply IH|].
      intros Heq. apply Hfresh. rewrite Heq.
      apply list_elem_of_fmap. eauto.
Qed.

Lemma same_model_set_hidden i h : keeps same_model (set_hidden i h).
Proof. unfold set_hidden. repeat keeps_step. Qed.

Lemma viewExercise_found st wanted ex :
  find_by_id (exercises st) wanted = Some ex ->
  same_model (set_currentExercise (Some ex) st) (handle (viewExercise wanted) st).
Proof.
  intros Hfind. unfold handle, viewExercise.
  unfold bind at 1, get at 1. rewrite Hfind.
  unfold bind at 1, modify at 1.
  set (rest := bind _ _).
  assert (Hrest : keeps same_model rest).
  { subst rest. unfold announceToScreenReader.
    repeat first [apply same_model_set_hidden
                 | apply keeps_renderExerciseDetail | keeps_step]. }
  apply Hrest.
Qed.

Lemma viewExercise_not_found st wanted :
  find_by_id (exercises st) wanted = None ->
  viewExercise wanted st =
  (Return Undefined, emit (ShowError (js "Exercise not found")) st).
Proof.
  intros Hfind. unfold viewExercise. unfold bind at 1, get at 1.
  rewrite Hfind. reflexivity.
Qed.

Lemma truthy_nonempty (s : jsstring) : s <> [] -> truthy s = true.
Proof. destruct s; [contradiction | reflexivity]. Qed.

Lemma loadExercises_returns outcome st :
  loadExercises outcome st = (Return Undefined, handle (loadExercises outcome) st).
Proof. destruct outcome as [e|[|] [e|catalog]]; reflexivity. Qed.

(** The exercise page with an identifier that the loaded catalog does not
    have: the not-found fragment is shown and nothing is thrown. *)
Lemma initExercisePage_not_found st container wanted outcome :
  page_element "exercisePageContent" st = Some container ->
  wanted <> [] ->
  find_by_id (exercises (handle (loadExercises outcome) st)) wanted = None ->
  initExercisePage (Some wanted) outcome st =
  (Return Undefined,
   set_innerHTML "exercisePageContent" not_found_markup
     (handle (loadExercises outcome) st)).
Proof.
  intros Hc Hne Hfind. unfold initExercisePage.
  unfold bind at 1, get at 1. rewrite Hc.
  cbn [truthy_field]. rewrite (truthy_nonempty _ Hne).
  unfold bind at 1. rewrite loadExercises_returns.
  unfold bind at 1, get at 1. rewrite Hfind. reflexivity.
Qed.

(** C1.  Looking up an exercise by identifier, [exercises.find(ex => ex.id
    === wanted)]: when the identifiers of the catalog are distinct and a
    record with the wanted identifier is in the catalog, the lookup gives
    exactly that record; for an identifier that no record of the catalog
    has, it gives nothing; whatever it gives is a record of the catalog
    with the wanted identifier, and it gives one whenever some record
    has that identifier.  [viewExercise] makes the record
    found the current exercise, and on an absent identifier it takes its
    not-found branch: the error is shown and nothing else changes.
    [initExercisePage], once the catalog is loaded, shows the not-found
    fragment for an absent identifier. *)
Theorem find_by_id_correct (catalog : list Exercise) (wanted : jsstring) :
  (forall ex, NoDup (map id catalog) -> ex ∈ catalog -> id ex = wanted ->
     find_by_id catalog wanted = Some ex) /\
  (wanted ∉ map id catalog -> find_by_id catalog wanted = None) /\
  (forall ex, find_by_id catalog wanted = Some ex -> ex ∈ catalog /\ id ex = wanted) /\
  (wanted ∈ map id catalog -> exists ex, find_by_id catalog wanted = Some ex) /\
  (forall st ex, exercises st = catalog -> NoDup (map id catalog) ->
     ex ∈ catalog -> id ex = wanted ->
     currentExercise (handle (viewExercise wanted) st) = Some ex) /\
  (forall st, exercises st = catalog -> wanted ∉ map id catalog ->
     viewExercise wanted st =
     (Return Undefined, emit (ShowError (js "Exercise not found")) st)) /\
  (forall st container outcome,
     page_element "exercisePageContent" st = Some container ->
     wanted <> [] ->
     exercises (handle (loadExercises outcome) st) = catalog ->
     wanted ∉ map id catalog ->
     initExercisePage (Some wanted) outcome st =
     (Return Undefined,
      set_innerHTML "exercisePageContent" not_found_markup
        (handle (loadExercises outcome) st))).
Proof.
  split; [|split; [|split; [|split; [|split; [|split]]]]].
  - intros ex Hnd Hin <-. by apply find_by_id_unique.
  - apply find_by_id_absent.
  - apply find_by_id_Some.
  - apply find_by_id_present.
  - intros st ex <- Hnd Hin <-.
    pose proof (viewExercise_found st (id ex) ex (find_by_id_unique _ _ Hnd Hin)) as H.
    by destruct H.
  - intros st <- Hout. apply viewExercise_not_found. by apply find_by_id_absent.
  - intros st container outcome Hc Hne <- Hout.
    eapply initExercisePage_not_found; [exact Hc | exact Hne |].
    by apply find_by_id_absent.
Qed.

(** ** getDailyExercise *)

(** C4.  The daily exercise is the element of the catalog at index
    day-of-month modulo the length of the catalog; with a catalog that
    is not empty it is an element of the catalog, with an empty one it is
    none; and it depends on nothing but the catalog and the day of the
    month. *)
Theorem getDailyExercise_selection (today : Date) (st : State) :
  getDailyExercise today st =
    match exercises st with
    | [] => None
    | _ :: _ => exercises st !! (getDate today mod length (exercises st))%nat
    end /\
  (exercises st <> [] ->
     exists ex, getDailyExercise today st = Some ex /\ ex ∈ exercises st) /\
  (exercises st = [] -> getDailyExercise today st = None) /\
  (forall today' st', exercises st' = exercises st -> getDate today' = getDate today ->
     getDailyExercise today' st' = getDailyExercise today st).
Proof.
  unfold getDailyExercise.
  split; [|split; [|split]].
  - destruct (exercises st); reflexivity.
  - intros Hne. destruct (exercises st) as [|e l] eqn:E; [contradiction|].
    assert (Hlt : (getDate today mod length (e :: l) < length (e :: l))%nat)
      by (apply Nat.mod_upper_bound; discriminate).
    destruct (lookup_lt_is_Some_2 (e :: l) _ Hlt) as [ex Hex].
    exists ex. cbn [length] in *. split; [exact Hex|].
    eapply list_elem_of_lookup_2. exact Hex.
  - intros ->. reflexivity.
  - intros today' st' -> ->. reflexivity.
Qed.

(** ** loadExercises *)



(** ** getCurrentUser and saveExercise *)

Lemma truthy_field_Some f s : truthy_field f = Some s <-> f = Some s /\ s <> [].
Proof.
  unfold truthy_field. destruct f as [[|c t]|]; cbn [truthy]; split.
  all: try discriminate.
  all: try (intros [[=] ?]; subst; congruence).
  all: intros [= <-]; split; [reflexivity | discriminate].
Qed.

Lemma before_first_split sep s :
  exists rest, s = before_first sep s ++ rest /\
               (sep ∉ before_first sep s) /\
               (rest = [] \/ exists rest', rest = sep :: rest').
Proof.
  induction s as [|a s (rest & Heq & Hout & Hrest)]; cbn [before_first].
  - exists []. split; [reflexivity|]. split; [apply not_elem_of_nil | by left].
  - destruct (N.eqb_spec a sep) as [->|Hne].
    + exists (sep :: s). split; [reflexivity|].
      split; [apply not_elem_of_nil | right; eauto].
    + exists rest. split; [cbn [app]; congruence|].
      split; [|exact Hrest].
      apply not_elem_of_cons. split; [congruence | exact Hout].
Qed.

(** The display name is the name of the profile metadata when that is a
    non-empty string, else the part of the email before its first [@]
    when that is non-empty, else the word User. *)
Lemma display_name_derivation u :
  let meta_name := match user_metadata u with
                   | Some n => truthy_field n
                   | None => None
                   end in
  let local_part := match user_email u with
                    | Some e => truthy_field (Some (before_first 64 e))
                    | None => None
                    end in
  display_name u =
  match meta_name, local_part with
  | Some n, _ => n
  | None, Some l => l
  | None, None => js "User"
  end.
Proof.
  unfold display_name.
  destruct (user_metadata u) as [[n|]|], (user_email u) as [e|]; reflexivity.
Qed.

(** Where the display name comes from: the name of the profile metadata
    when that is a non-empty string; else the local part of the email,
    what stands before its first at sign, when that is non-empty. *)
Lemma display_name_sources u :
  (forall n, user_metadata u = Some (Some n) -> n <> [] -> display_name u = n) /\
  (forall e, truthy_field (match user_metadata u with
                           | Some n => n
                           | None => None
                           end) = None ->
     user_email u = Some e -> before_first 64 e <> [] ->
     display_name u = before_first 64 e /\
     exists rest, e = display_name u ++ rest /\ (64 ∉ display_name u) /\
                  (rest = [] \/ exists rest', rest = 64 :: rest')).
Proof.
  unfold display_name. split.
  - intros n -> Hn. cbn [truthy_field]. by rewrite (truthy_nonempty _ Hn).
  - intros e -> -> Hlocal. cbn [truthy_field].
    rewrite (truthy_nonempty _ Hlocal). split; [reflexivity|].
    apply before_first_split.
Qed.

(** C7, amended.  When the session lookup is fulfilled, whatever its
    reply, [getCurrentUser] does not throw: with no error and a user in
    the session it returns that user's id, email and display name, the
    name taken from the profile metadata or else from the local part of
    the email; with an error or without a session user it returns null.
    Without a client it returns null. *)
Theorem getCurrentUser_fulfilled (client : SupabaseClient) (reply : SessionReply) :
  auth_getSession client = Fulfilled reply ->
  (forall u, session_error reply = None -> session_user reply = Some u ->
     getCurrentUser (Some client) =
     Return (Some {| su_id := user_id u; su_email := user_email u;
                     su_name := display_name u |})) /\
  (session_error reply <> None \/ session_user reply = None ->
     getCurrentUser (Some client) = Return None) /\
  (exists r, getCurrentUser (Some client) = Return r) /\
  getCurrentUser None = Return None /\
  (forall u, session_user reply = Some u ->
     (forall n, user_metadata u = Some (Some n) -> n <> [] -> display_name u = n) /\
     (forall e, truthy_field (match user_metadata u with
                              | Some n => n
                              | None => None
                              end) = None ->
        user_email u = Some e -> before_first 64 e <> [] ->
        display_name u = before_first 64 e /\
        exists rest, e = display_name u ++ rest /\ (64 ∉ display_name u) /\
                     (rest = [] \/ exists rest', rest = 64 :: rest'))).
Proof.
  intros Hreply. unfold getCurrentUser, getSupabase. rewrite Hreply.
  split; [|split; [|split; [|split; [reflexivity|intros u _; apply display_name_sources]]]].
  - intros u -> ->. reflexivity.
  - intros [Herr|Hnone].
    + destruct (session_error reply); [reflexivity | contradiction].
    + rewrite Hnone. destruct (session_error reply); reflexivity.
  - destruct (session_error reply), (session_user reply); eauto.
Qed.

Import SaveExercise.

(** C10.  [saveExercise]: when the client is missing, or the identifier is
    missing or empty, or the session lookup reports an error or no user,
    the result has null data and an error and no insert was sent.  An
    insert is sent only with a client, a non-empty identifier and a user
    from a session lookup without error, and then it goes to
    [user_saved_exercises] with that user and that identifier. *)
Theorem saveExercise_guards (supabase : option SupabaseClient)
    (exerciseId : option jsstring) :
  (cannot_save supabase exerciseId ->
     (exists e, fst (saveExercise supabase exerciseId) =
                Return {| data := None; error := Some e |}) /\
     existsb is_insert (snd (saveExercise supabase exerciseId)) = false) /\
  (forall table row,
     Insert table row ∈ snd (saveExercise supabase exerciseId) ->
     exists client exercise_id reply user,
       supabase = Some client /\
       exerciseId = Some exercise_id /\ exercise_id <> [] /\
       auth_getUser client = Fulfilled reply /\
       reply_error reply = None /\ reply_user reply = Some user /\
       table = "user_saved_exercises"%string /\
       row = {| row_user_id := user_id user; row_exercise_id := exercise_id |}) /\
  (forall client exercise_id reply user,
     supabase = Some client -> truthy_field exerciseId = Some exercise_id ->
     auth_getUser client = Fulfilled reply ->
     reply_error reply = None -> reply_user reply = Some user ->
     snd (saveExercise supabase exerciseId) =
     [AuthGetUser;
      Insert "user_saved_exercises"
        {| row_user_id := user_id user; row_exercise_id := exercise_id |}]).
Proof.
  split; [|split].
  - intros [->|[Hid|(client & reply & -> & Hreply & Hbad)]].
    + cbn. eauto.
    + unfold saveExercise. destruct supabase; rewrite ?Hid; cbn; eauto.
    + unfold saveExercise. destruct (truthy_field exerciseId); [|cbn; eauto].
      rewrite Hreply. destruct Hbad as [Herr|Hnone].
      * destruct (reply_error reply); [cbn; eauto | contradiction].
      * rewrite Hnone. destruct (reply_error reply); cbn; eauto.
  - intros table row. unfold saveExercise.
    destruct supabase as [client|]; [|intros H; by apply elem_of_nil in H].
    destruct (truthy_field exerciseId) as [exercise_id|] eqn:Hid;
      [|intros H; by apply elem_of_nil in H].
    apply truthy_field_Some in Hid as [-> Hne].
    destruct (auth_getUser client) as [reply|e] eqn:Hreply.
    2: { cbn. intros H. apply list_elem_of_singleton in H. discriminate. }
    destruct (reply_error reply) eqn:Herr.
    { cbn. intros H. apply list_elem_of_singleton in H. discriminate. }
    destruct (reply_user reply) as [user|] eqn:Huser.
    2: { cbn. intros H. apply list_elem_of_singleton in H. discriminate. }
    intros Hin.
    assert (Hcalls : Insert table row ∈
              [AuthGetUser;
               Insert "user_saved_exercises"
                 {| row_user_id := user_id user; row_exercise_id := exercise_id |}]).
    { destruct (from_insert_select_single client _ _) as [inserted|e];
        [destruct (insert_error inserted)|]; exact Hin. }
    apply elem_of_cons in Hcalls as [?|Hcalls]; [discriminate|].
    apply list_elem_of_singleton in Hcalls. injection Hcalls as -> ->.
    exists client, exercise_id, reply, user. auto 10.
  - intros client exercise_id reply user -> Hid Hreply Herr Huser.
    unfold saveExercise. rewrite Hid, Hreply, Herr, Huser.
    destruct (from_insert_select_single client _ _) as [inserted|e];
      [destruct (insert_error inserted)|]; reflexivity.
Qed.

(** ** loadBookmarks *)

Lemma loadBookmarks_unfold st :
  loadBookmarks st =
  (Return Undefined,
   match persisted st with
   | Some stored =>
       if truthy stored then
         match parse stored with
         | Some v => set_bookmarkedExercises v st
         | None =>
             set_bookmarkedExercises (JArr [])
               (emit (ConsoleError "Error parsing bookmarks:") st)
         end
       else st
   | None => st
   end).
Proof.
  unfold loadBookmarks, persisted. unfold bind at 1, get at 1.
  destruct (localStorage st !! "moveoBookmarks") as [stored|]; [|reflexivity].
  destruct (truthy stored); [|reflexivity].
  destruct (parse stored); reflexivity.
Qed.

(** C3, amended.  [loadBookmarks] never throws.  With the slot absent or
    holding the empty string it leaves the bookmark set as it is, which is
    the empty set when the page has just been loaded.  With content that
    JSON.parse rejects it sets the empty set.  Content that JSON.parse
    accepts becomes the value in memory as it is. *)
Theorem loadBookmarks_degrades (st : State) :
  let st' := handle loadBookmarks st in
  fst (loadBookmarks st) = Return Undefined /\
  (persisted st = None \/ persisted st = Some [] ->
     bookmarkedExercises st' = bookmarkedExercises st) /\
  (forall text, persisted st = Some text -> text <> [] -> parse text = None ->
     bookmarkedExercises st' = JArr []) /\
  (forall text v, persisted st = Some text -> text <> [] -> parse text = Some v ->
     bookmarkedExercises st' = v) /\
  (forall page href storage,
     st = initial_state page href storage ->
     persisted st = None \/ persisted st = Some [] ->
     bookmarkedExercises st' = JArr []).
Proof.
  intros st'. subst st'. unfold handle. rewrite loadBookmarks_unfold. cbn [fst snd].
  assert (Hkeep : persisted st = None \/ persisted st = Some [] ->
                  bookmarkedExercises
                    match persisted st with
                    | Some stored =>
                        if truthy stored then
                          match parse stored with
                          | Some v => set_bookmarkedExercises v st
                          | None =>
                              set_bookmarkedExercises (JArr [])
                                (emit (ConsoleError "Error parsing bookmarks:") st)
                          end
                        else st
                    | None => st
                    end = bookmarkedExercises st).
  { intros [-> | ->]; reflexivity. }
  split; [reflexivity|]. split; [exact Hkeep|]. split; [|split].
  - intros text -> Hne ->. rewrite (truthy_nonempty _ Hne). reflexivity.
  - intros text v -> Hne ->. rewrite (truthy_nonempty _ Hne). reflexivity.
  - intros page href storage Hst Habsent. rewrite (Hkeep Habsent).
    rewrite Hst. reflexivity.
Qed.

(** ** Toggling twice, the detail view *)

Lemma remove_first_app_fresh x ids : x ∉ ids -> remove_first x (ids ++ [x]) = ids.
Proof.
  induction ids as [|y ids IH]; intros Hout; cbn [app remove_first].
  - by rewrite bool_decide_eq_true_2.
  - apply not_elem_of_cons in Hout as [Hne Hout].
    rewrite bool_decide_eq_false_2 by congruence. by rewrite IH.
Qed.

Lemma toggle_ids_twice x ids :
  NoDup ids ->
  (forall y, y ∈ toggle_ids x (toggle_ids x ids) <-> y ∈ ids) /\
  (x ∉ ids -> toggle_ids x (toggle_ids x ids) = ids).
Proof.
  intros Hnd. split.
  - intros y. rewrite elem_of_toggle_ids by (by apply NoDup_toggle_ids).
    rewrite !elem_of_toggle_ids by assumption.
    destruct (decide (y = x)) as [->|Hne]; destruct (decide (x ∈ ids)); tauto.
  - intros Hout. unfold toggle_ids at 2. rewrite bool_decide_eq_false_2 by assumption.
    unfold toggle_ids. rewrite bool_decide_eq_true_2.
    + by apply remove_first_app_fresh.
    + apply elem_of_app. right. by apply list_elem_of_singleton.
Qed.

(** One toggle on a list of identifiers: the array that results, and the
    slot holds its serialization. *)
Lemma toggleBookmark_ids st ids x :
  bookmarkedExercises st = JArr (map JStr ids) ->
  bookmarkedExercises (handle (toggleBookmark x) st) = JArr (map JStr (toggle_ids x ids)) /\
  persisted (handle (toggleBookmark x) st) =
    Some (stringify (JArr (map JStr (toggle_ids x ids)))) /\
  (fst (toggleBookmark x st) = Return Undefined \/
   exists e, fst (toggleBookmark x st) = Throw e).
Proof.
  intros Harr.
  destruct (toggleBookmark_array st (map JStr ids) x Harr) as (Hb & Hs & Hc).
  rewrite toggled_array in Hb, Hs.
  split; [exact Hb|]. split; [|exact Hc].
  unfold persisted. rewrite Hs. apply lookup_insert_eq.
Qed.

(** C2.  For a bookmark set (an array of distinct identifiers) and an
    identifier [x]: after [toggleBookmark(x)] twice the identifiers
    bookmarked are those from before (the same array when [x] was not
    bookmarked), and after each of the two toggles the text in the
    storage slot parses to exactly the array in memory. *)
Theorem toggleBookmark_twice (st : State) (ids : list jsstring) (x : jsstring) :
  bookmarkedExercises st = JArr (map JStr ids) ->
  NoDup ids ->
  let st1 := handle (toggleBookmark x) st in
  let st2 := handle (toggleBookmark x) st1 in
  exists ids1 ids2,
    bookmarkedExercises st1 = JArr (map JStr ids1) /\
    bookmarkedExercises st2 = JArr (map JStr ids2) /\
    (forall y, y ∈ ids2 <-> y ∈ ids) /\
    (x ∉ ids -> ids2 = ids) /\
    load_persisted st1 = Some (bookmarkedExercises st1) /\
    load_persisted st2 = Some (bookmarkedExercises st2).
Proof.
  intros Harr Hnd st1 st2.
  destruct (toggleBookmark_ids st ids x Harr) as (Hb1 & Hs1 & _).
  fold st1 in Hb1, Hs1.
  destruct (toggleBookmark_ids st1 (toggle_ids x ids) x Hb1) as (Hb2 & Hs2 & _).
  fold st2 in Hb2, Hs2.
  destruct (toggle_ids_twice x ids Hnd) as [Hmem Hsame].
  exists (toggle_ids x ids), (toggle_ids x (toggle_ids x ids)).
  split; [exact Hb1|]. split; [exact Hb2|]. split; [exact Hmem|]. split; [exact Hsame|].
  unfold load_persisted. rewrite Hs1, Hs2, Hb1, Hb2.
  split; apply parse_stringify_ids.
Qed.

(** C9, amended.  [viewExercise] leaves [isPlaying], [animationSpeed] and
    [showMuscleHighlight] as they were, also when it opens another
    exercise than the current one; it makes the record found the current
    exercise. *)
Theorem viewExercise_keeps_flags (st : State) (exerciseId : jsstring) :
  let st' := handle (viewExercise exerciseId) st in
  isPlaying st' = isPlaying st /\
  animationSpeed st' = animationSpeed st /\
  showMuscleHighlight st' = showMuscleHighlight st /\
  (forall exercise, find_by_id (exercises st) exerciseId = Some exercise ->
     currentExercise st' = Some exercise).
Proof.
  intros st'. subst st'.
  destruct (find_by_id (exercises st) exerciseId) as [exercise|] eqn:Hfind.
  - destruct (viewExercise_found st exerciseId exercise Hfind).
    repeat split; try assumption. intros ? [= <-]. assumption.
  - unfold handle. rewrite (viewExercise_not_found st exerciseId Hfind).
    repeat split. discriminate.
Qed.

(** The detail view without its optional sections. *)
Lemma optional_sections_omitted exercise :
  commonMistakes exercise = None -> progression exercise = None ->
  rhythm exercise = None ->
  commonMistakes_section exercise = [] /\
  progression_section exercise = [] /\
  rhythm_section exercise = [].
Proof.
  intros H1 H2 H3.
  unfold commonMistakes_section, progression_section, rhythm_section.
  rewrite H1, H2, H3. auto.
Qed.

(** With nothing bound to [backMarkup], rendering into an existing
    container throws and writes nothing. *)
Lemma renderExerciseDetail_unbound st exercise container isBookmarked :
  page_element "exerciseDetailContent" st = Some container ->
  includes (bookmarkedExercises st) (id exercise) = Return isBookmarked ->
  global_backMarkup st = None ->
  renderExerciseDetail exercise st = (Throw (ReferenceError "backMarkup"), st).
Proof.
  intros Hc Hi Hb. unfold renderExerciseDetail.
  unfold bind at 1, get at 1. rewrite Hc.
  unfold bind at 1, lift. rewrite Hi.
  unfold bind at 1. rewrite Hb. reflexivity.
Qed.

(** Were [backMarkup] bound, an exercise without the optional fields
    would be rendered with the three sections left out. *)
Theorem renderExerciseDetail_bound st exercise container isBookmarked backMarkup :
  page_element "exerciseDetailContent" st = Some container ->
  includes (bookmarkedExercises st) (id exercise) = Return isBookmarked ->
  global_backMarkup st = Some backMarkup ->
  commonMistakes exercise = None -> progression exercise = None ->
  rhythm exercise = None -> previewVideo exercise = None ->
  renderExerciseDetail exercise st =
  (Return Undefined,
   set_innerHTML "exerciseDetailContent"
     (detail_markup exercise isBookmarked st backMarkup) st) /\
  commonMistakes_section exercise ++ progression_section exercise ++
  rhythm_section exercise = [].
Proof.
  intros Hc Hi Hb H1 H2 H3 H4. split.
  - unfold renderExerciseDetail.
    unfold bind at 1, get at 1. rewrite Hc.
    unfold bind at 1, lift. rewrite Hi.
    unfold bind at 1. rewrite Hb. unfold ret at 1.
    unfold bind at 1, modify at 1. unfold bind at 1, get at 1.
    rewrite H4. cbn [truthy_field].
    destruct (element_exists _ _); reflexivity.
  - destruct (optional_sections_omitted exercise H1 H2 H3) as (-> & -> & ->).
    reflexivity.
Qed.

(** ** Further properties of the bookmark store and the detail view *)

(** JSON.parse gives back every array of strings that JSON.stringify has
    written. *)
Theorem json_roundtrip_ids (ids : list jsstring) :
  parse (stringify (JArr (map JStr ids))) = Some (JArr (map JStr ids)).
Proof. apply parse_stringify_ids. Qed.

(** Toggling keeps the identifiers distinct and the order of those that
    stay; a new identifier goes to the end. *)
Theorem toggleBookmark_keeps_distinct (st : State) (ids : list jsstring)
    (x : jsstring) :
  bookmarkedExercises st = JArr (map JStr ids) ->
  NoDup ids ->
  exists ids',
    bookmarkedExercises (handle (toggleBookmark x) st) = JArr (map JStr ids') /\
    NoDup ids' /\
    (x ∈ ids -> ids' = remove_first x ids) /\
    (x ∉ ids -> ids' = ids ++ [x]).
Proof.
  intros Harr Hnd.
  destruct (toggleBookmark_ids st ids x Harr) as (Hb & _ & _).
  exists (toggle_ids x ids). split; [exact Hb|].
  split; [by apply NoDup_toggle_ids|].
  unfold toggle_ids. split; intros H.
  - by rewrite bool_decide_eq_true_2.
  - by rewrite bool_decide_eq_false_2.
Qed.

(** What a toggle has saved, the next page load reads back: on a page
    just loaded with the storage the toggle left, [loadBookmarks] gives
    the bookmark set the toggle had in memory. *)
Theorem loadBookmarks_after_toggle (st : State) (ids : list jsstring)
    (x : jsstring) (page : gmap string Element) (href : jsstring) :
  bookmarkedExercises st = JArr (map JStr ids) ->
  let st' := handle (toggleBookmark x) st in
  bookmarkedExercises
    (handle loadBookmarks (initial_state page href (localStorage st'))) =
  bookmarkedExercises st'.
Proof.
  intros Harr st'.
  destruct (toggleBookmark_ids st ids x Harr) as (Hb & Hs & _).
  fold st' in Hb, Hs.
  unfold handle at 1. rewrite loadBookmarks_unfold. cbn [snd].
  unfold persisted in *. cbn [localStorage initial_state]. rewrite Hs.
  rewrite parse_stringify_ids, Hb.
  destruct (truthy _) eqn:Ht; [reflexivity|].
  rewrite stringify_ids in Ht. discriminate.
Qed.

(** ** The claims at concrete inputs *)

Lemma find_by_id_correct_witness :
  find_by_id sample_catalog (js "b") = Some (sample_exercise "b") /\
  find_by_id sample_catalog (js "z") = None.
Proof.
  split.
  - apply (proj1 (find_by_id_correct sample_catalog (js "b"))).
    + apply (bool_decide_unpack _). vm_compute. exact I.
    + apply list_elem_of_further, list_elem_of_here.
    + reflexivity.
  - apply (proj1 (proj2 (find_by_id_correct sample_catalog (js "z")))).
    apply (bool_decide_unpack _). vm_compute. exact I.
Defined.

Lemma toggleBookmark_twice_witness :
  let st1 := handle (toggleBookmark (js "b")) home_loaded in
  let st2 := handle (toggleBookmark (js "b")) st1 in
  exists ids1 ids2,
    bookmarkedExercises st1 = JArr (map JStr ids1) /\
    bookmarkedExercises st2 = JArr (map JStr ids2) /\
    (forall y, y ∈ ids2 <-> y ∈ []) /\
    (js "b" ∉ [] -> ids2 = []) /\
    load_persisted st1 = Some (bookmarkedExercises st1) /\
    load_persisted st2 = Some (bookmarkedExercises st2).
Proof.
  apply (toggleBookmark_twice home_loaded [] (js "b")).
  - vm_compute. reflexivity.
  - apply NoDup_nil_2.
Defined.

(** The example of the specification: with the catalog a, b, c and no
    bookmarks, the first toggle of b gives the set of b alone and the
    second gives the empty set; the slot holds the serialized array each
    time. *)
Lemma toggle_b_example :
  let st1 := handle (toggleBookmark (js "b")) home_loaded in
  let st2 := handle (toggleBookmark (js "b")) st1 in
  bookmarkedExercises st1 = JArr [JStr (js "b")] /\
  persisted st1 = Some [91; 34; 98; 34; 93] /\
  bookmarkedExercises st2 = JArr [] /\
  persisted st2 = Some [91; 93].
Proof. vm_compute. auto. Qed.



(** C3 as stated fails: the slot holds text that is no serialized array of
    identifiers, an empty object or null; [loadBookmarks] takes the
    parsed value as the bookmark set, which is then not the empty set,
    and on null the next toggle throws. *)
Lemma loadBookmarks_wrong_shape :
  let with_object :=
    initial_state home_page home_href {[ "moveoBookmarks"%string := js "{}" ]} in
  let with_null :=
    initial_state home_page home_href {[ "moveoBookmarks"%string := js "null" ]} in
  bookmarkedExercises (handle loadBookmarks with_object) = JObj [] /\
  JObj [] <> JArr [] /\
  bookmarkedExercises (handle loadBookmarks with_null) = JNull /\
  JNull <> JArr [] /\
  fst (toggleBookmark (js "a") (handle loadBookmarks with_null)) =
    Throw (TypeError "bookmarkedExercises is not an array").
Proof.
  repeat split; try discriminate; vm_compute; reflexivity.
Qed.

(** The sample user has no name in the metadata: the display name is the
    part of the email before the at sign. *)
Lemma getCurrentUser_fulfilled_witness :
  auth_getSession signed_in_client =
    Fulfilled {| session := Some (Some sample_user); session_error := None |} /\
  getCurrentUser (Some signed_in_client) =
    Return (Some {| su_id := js "7f1c"; su_email := Some (js "ada@example.org");
                    su_name := js "ada" |}).
Proof.
  split; [reflexivity|].
  apply (proj1 (getCurrentUser_fulfilled signed_in_client
                  {| session := Some (Some sample_user); session_error := None |}
                  eq_refl) sample_user eq_refl eq_refl).
Defined.

(** C7 as stated fails: when the session lookup itself is rejected,
    nothing catches the rejection and [getCurrentUser] throws. *)
Lemma getCurrentUser_rejected :
  getCurrentUser (Some rejecting_client) = Throw (ErrorMsg "Failed to fetch").
Proof. reflexivity. Qed.

(** C8.  An exercise without optional fields, rendered on the loaded home
    page: the template ends in [backMarkup], a name with no declaration,
    so [renderExerciseDetail] throws a ReferenceError and the container
    gets no markup; [viewExercise] fails the same way and leaves the
    container empty. *)
Theorem renderExerciseDetail_throws :
  commonMistakes (sample_exercise "a") = None /\
  progression (sample_exercise "a") = None /\
  rhythm (sample_exercise "a") = None /\
  previewVideo (sample_exercise "a") = None /\
  renderExerciseDetail (sample_exercise "a") home_loaded =
    (Throw (ReferenceError "backMarkup"), home_loaded) /\
  fst (viewExercise (js "a") home_loaded) = Throw (ReferenceError "backMarkup") /\
  page_element "exerciseDetailContent" (handle (viewExercise (js "a")) home_loaded) =
    Some (empty_element false).
Proof.
  split; [reflexivity|]. split; [reflexivity|]. split; [reflexivity|].
  split; [reflexivity|]. split; [|split].
  - apply (renderExerciseDetail_unbound home_loaded (sample_exercise "a")
             (empty_element false) false); vm_compute; reflexivity.
  - vm_compute. reflexivity.
  - vm_compute. reflexivity.
Qed.

(** C9 as stated fails: after play, slow motion and highlight on exercise
    a, opening exercise b leaves the three flags set, on the page as the
    script finds it and also on a page where the detail view can be
    rendered. *)
Lemma viewExercise_flags_carried_over :
  let st := browse_a_then_b home_loaded in
  let st' := browse_a_then_b (bind_backMarkup (js "<button>Back</button>") home_loaded) in
  currentExercise st = Some (sample_exercise "b") /\
  isPlaying st = true /\ animationSpeed st = (1 # 2)%Q /\
  showMuscleHighlight st = true /\
  currentExercise st' = Some (sample_exercise "b") /\
  isPlaying st' = true /\ animationSpeed st' = (1 # 2)%Q /\
  showMuscleHighlight st' = true /\
  (innerHTML <$> page_element "exerciseDetailContent" st') =
    Some (detail_markup (sample_exercise "b") false st' (js "<button>Back</button>")).
Proof. vm_compute. repeat split; reflexivity. Qed.

Lemma toggleBookmark_keeps_distinct_witness :
  exists ids',
    bookmarkedExercises (handle (toggleBookmark (js "b")) home_loaded) =
      JArr (map JStr ids') /\
    NoDup ids' /\
    (js "b" ∈ [] -> ids' = remove_first (js "b") []) /\
    (js "b" ∉ [] -> ids' = [] ++ [js "b"]).
Proof.
  apply (toggleBookmark_keeps_distinct home_loaded [] (js "b")).
  - vm_compute. reflexivity.
  - apply NoDup_nil_2.
Defined.

Lemma loadBookmarks_after_toggle_witness :
  let st' := handle (toggleBookmark (js "b")) home_loaded in
  bookmarkedExercises
    (handle loadBookmarks (initial_state home_page home_href (localStorage st'))) =
  bookmarkedExercises st'.
Proof.
  apply (loadBookmarks_after_toggle home_loaded [] (js "b") home_page home_href).
  vm_compute. reflexivity.
Defined.

Lemma renderExerciseDetail_bound_witness :
  let st := bind_backMarkup (js "<button>Back</button>") home_loaded in
  renderExerciseDetail (sample_exercise "a") st =
  (Return Undefined,
   set_innerHTML "exerciseDetailContent"
     (detail_markup (sample_exercise "a") false st (js "<button>Back</button>")) st) /\
  commonMistakes_section (sample_exercise "a") ++
  progression_section (sample_exercise "a") ++
  rhythm_section (sample_exercise "a") = [].
Proof.
  apply (renderExerciseDetail_bound
           (bind_backMarkup (js "<button>Back</button>") home_loaded)
           (sample_exercise "a") (empty_element false) false
           (js "<button>Back</button>")); vm_compute; reflexivity.
Defined.

(** * Properties of the hook, the account page and the other pages

    ** saveExercise and the hook *)

(** A result of [saveExercise] never carries both data and an error; data
    is what the insert answered, and it is there only when the insert was
    sent for the signed-in user and answered without error. *)
Theorem saveExercise_result_shape (supabase : option SupabaseClient)
    (exerciseId : option jsstring) (r : Result) :
  fst (saveExercise supabase exerciseId) = Return r ->
  (data r = None \/ error r = None) /\
  (error r = None ->
     exists client exercise_id reply user inserted,
       supabase = Some client /\ truthy_field exerciseId = Some exercise_id /\
       auth_getUser client = Fulfilled reply /\ reply_user reply = Some user /\
       from_insert_select_single client "user_saved_exercises"
         {| row_user_id := user_id user; row_exercise_id := exercise_id |} =
         Fulfilled inserted /\
       insert_error inserted = None /\ data r = insert_data inserted).
Proof.
  unfold saveExercise.
  destruct supabase as [client|]; [|intros [= <-]; split; [by left | discriminate]].
  destruct (truthy_field exerciseId) as [exercise_id|];
    [|intros [= <-]; split; [by left | discriminate]].
  destruct (auth_getUser client) as [reply|e] eqn:Hreply; [|discriminate].
  destruct (reply_error reply) eqn:Herr;
    [intros [= <-]; split; [by left | discriminate]|].
  destruct (reply_user reply) as [user|] eqn:Huser;
    [|intros [= <-]; split; [by left | discriminate]].
  destruct (from_insert_select_single client _ _) as [inserted|e] eqn:Hins;
    [|discriminate].
  destruct (insert_error inserted) eqn:Hie; intros [= <-]; cbn [data error].
  - split; [by left | discriminate].
  - split; [by right|]. intros _.
    exists client, exercise_id, reply, user, inserted. auto 10.
Qed.

Import UseSaveExercise.

(** The hook's [saveExerciseForUser]: without a client or an identifier
    it resolves to false and touches neither the state nor the service.
    Otherwise the loading flag is set while the request is awaited and is
    cleared again whichever way the request ends, a rejection included;
    the promise resolves to true exactly when [saveExercise] gave data
    and no error; an error of the result ends up in the error state. *)
Theorem saveExerciseForUser_settles (supabase : option SupabaseClient)
    (exerciseId : option jsstring) (h : HookState) :
  let run := saveExerciseForUser supabase exerciseId h in
  (supabase = None \/ truthy_field exerciseId = None ->
     settled run = Return false /\ while_waiting run = None /\
     afterwards run = h /\ requests run = []) /\
  (supabase <> None /\ truthy_field exerciseId <> None ->
     while_waiting run = Some {| isLoading := true; error := None |} /\
     isLoading (afterwards run) = false /\
     requests run = snd (saveExercise supabase exerciseId) /\
     (settled run = Return true <->
        exists row, fst (saveExercise supabase exerciseId) =
                    Return {| data := Some row; SaveExercise.error := None |}) /\
     (forall r e, fst (saveExercise supabase exerciseId) = Return r ->
        SaveExercise.error r = Some e ->
        settled run = Return false /\ error (afterwards run) = Some e) /\
     (forall e, fst (saveExercise supabase exerciseId) = Throw e ->
        settled run = Throw e /\ error (afterwards run) = None)).
Proof.
  intros run. subst run. unfold saveExerciseForUser. split.
  - intros [-> | ->]; [auto|]. destruct supabase; auto.
  - intros [Hs Hi].
    destruct supabase as [client|]; [|contradiction].
    destruct (truthy_field exerciseId) as [exercise_id|] eqn:Hid; [|contradiction].
    destruct (saveExercise (Some client) exerciseId) as [[r|e] calls] eqn:Hsave;
      cbn [fst snd].
    + destruct r as [d [err|]];
        cbn [SaveExercise.error SaveExercise.data settled while_waiting
             afterwards requests isLoading error].
      * split; [reflexivity|]. split; [reflexivity|]. split; [reflexivity|].
        split; [|split].
        -- split; [discriminate | intros [row [=]]].
        -- intros r' e' [= <-]. cbn [SaveExercise.error]. intros [= <-]. auto.
        -- discriminate.
      * split; [reflexivity|]. split; [reflexivity|]. split; [reflexivity|].
        split; [|split].
        -- destruct d as [row|]; split; eauto; try discriminate.
           intros [row' [=]].
        -- intros r' e' [= <-]. discriminate.
        -- discriminate.
    + cbn [settled while_waiting afterwards requests isLoading error].
      split; [reflexivity|]. split; [reflexivity|]. split; [reflexivity|].
      split; [|split].
      * split; [discriminate | intros [row [=]]].
      * discriminate.
      * intros e' [= <-]. auto.
Qed.

(** ** getCurrentUser *)

Lemma display_name_nonempty (u : User) : display_name u <> [].
Proof.
  unfold display_name.
  destruct (truthy_field _) as [n|] eqn:H1.
  - apply truthy_field_Some in H1. tauto.
  - destruct (truthy_field (match user_email u with
                            | Some e => Some (before_first 64 e)
                            | None => None
                            end)) as [n|] eqn:H2.
    + apply truthy_field_Some in H2. tauto.
    + discriminate.
Qed.

(** The user that [getCurrentUser] returns always has a display name that
    is not empty, and its id and email are those of the session's user
    of a reply without error. *)
Theorem getCurrentUser_user (window_supabase : option SupabaseClient)
    (su : SessionUser) :
  getCurrentUser window_supabase = Return (Some su) ->
  su_name su <> [] /\
  exists client reply u,
    window_supabase = Some client /\ auth_getSession client = Fulfilled reply /\
    session_error reply = None /\ session reply = Some (Some u) /\
    su_id su = user_id u /\ su_email su = user_email u.
Proof.
  unfold getCurrentUser, getSupabase.
  destruct window_supabase as [client|]; [|discriminate].
  destruct (auth_getSession client) as [reply|e] eqn:Hreply; [|discriminate].
  destruct (session_error reply) eqn:Herr; [discriminate|].
  unfold session_user.
  destruct (session reply) as [[u|]|] eqn:Hs; try discriminate.
  intros [= <-]. cbn [su_name su_id su_email].
  split; [apply display_name_nonempty|].
  exists client, reply, u. auto 10.
Qed.

(** ** The account page *)

Lemma on_page_run {A} (m : M A) acc :
  on_page m acc =
  (fst (m (app_state acc)),
   {| app_state := snd (m (app_state acc)); sent := sent acc;
      reloads_pending := reloads_pending acc |}).
Proof. unfold on_page. by destruct (m (app_state acc)). Qed.

Lemma set_hidden_if_present_run i h st :
  set_hidden_if_present i h st =
  (Return tt,
   match document st !! i with
   | Some el =>
       set_document (<[i := {| hidden := h; innerHTML := innerHTML el |}]> (document st)) st
   | None => st
   end).
Proof.
  unfold set_hidden_if_present. unfold bind at 1, get at 1.
  by destruct (document st !! i).
Qed.

Lemma setAuthMessage_run msg isError st :
  setAuthMessage msg isError st =
  (Return tt,
   match document st !! "authMessage" with
   | Some _ =>
       emit (SetAttribute "authMessage" "class"
               (js "auth-message" ++ (if isError then js " error" else js " success")))
         (set_document
            (<["authMessage" :=
                 {| hidden := false; innerHTML := if truthy msg then [Text msg] else [] |}]>
               (document st)) st)
   | None => st
   end).
Proof.
  unfold setAuthMessage. unfold bind at 1, get at 1.
  by destruct (document st !! "authMessage").
Qed.

(** A step of the page that always returns. *)
Lemma bindA_returns {B} (m : M unit) (k : MA B) acc :
  (forall st, fst (m st) = Return tt) ->
  (on_page m ~;; k) acc = k (snd (on_page m acc)).
Proof.
  intros Hm. unfold bindA. rewrite on_page_run, Hm. reflexivity.
Qed.

Lemma setAuthMessage_returns msg isError st :
  fst (setAuthMessage msg isError st) = Return tt.
Proof. by rewrite setAuthMessage_run. Qed.

Lemma set_hidden_if_present_returns i h st :
  fst (set_hidden_if_present i h st) = Return tt.
Proof. by rewrite set_hidden_if_present_run. Qed.

Section KeepsA.

Context (R : Account -> Account -> Prop).

Hypothesis R_refl : forall acc, R acc acc.

Hypothesis R_trans : forall a b c, R a b -> R b c -> R a c.

Lemma keepsA_ret {A} (a : A) : keepsA R (retA a).
Proof. intros acc. apply R_refl. Qed.

Lemma keepsA_throw {A} (e : JsError) : keepsA R (@throwA A e).
Proof. intros acc. apply R_refl. Qed.

Lemma keepsA_get : keepsA R getA.
Proof. intros acc. apply R_refl. Qed.

Lemma keepsA_bind {A B} (m : MA A) (k : A -> MA B) :
  keepsA R m -> (forall a, keepsA R (k a)) -> keepsA R (bindA m k).
Proof.
  intros Hm Hk acc. unfold bindA. specialize (Hm acc).
  destruct (m acc) as [[a|e] acc1]; cbn [snd] in *.
  - eapply R_trans; [exact Hm|]. apply Hk.
  - exact Hm.
Qed.

End KeepsA.

Lemma same_sent_on_page {A} (m : M A) : keepsA same_sent (on_page m).
Proof. intros acc. by rewrite on_page_run. Qed.

Lemma same_sent_modify_reloads f :
  keepsA same_sent (modifyA (fun a => set_reloads_pending (f a) a)).
Proof. by intros acc. Qed.

Ltac sent_step :=
  first
    [ apply keepsA_ret; by intros ?
    | apply keepsA_throw; by intros ?
    | apply keepsA_get; by intros ?
    | apply same_sent_on_page
    | apply same_sent_modify_reloads
    | apply keepsA_bind;
      [by intros ? ? ? ? ?; unfold same_sent in *; congruence | | intros ?]
    | match goal with
      | |- keepsA _ (match ?x with _ => _ end) => destruct x
      | |- keepsA _ (if ?x then _ else _) => destruct x
      end ].

Lemma same_sent_renderSavedExercisesList : keepsA same_sent renderSavedExercisesList.
Proof. unfold renderSavedExercisesList. repeat sent_step. Qed.

Lemma same_sent_showAccountDashboard user : keepsA same_sent (showAccountDashboard user).
Proof.
  unfold showAccountDashboard.
  repeat first [apply same_sent_renderSavedExercisesList | sent_step].
Qed.

Lemma send_run r acc :
  send r acc = (Return tt, {| app_state := app_state acc; sent := sent acc ++ [r];
                              reloads_pending := reloads_pending acc |}).
Proof. reflexivity. Qed.

Lemma same_sent_after_signUp reply name : keepsA same_sent (after_signUp reply name).
Proof.
  unfold after_signUp.
  repeat first [apply same_sent_showAccountDashboard | sent_step].
Qed.

Lemma same_element_refl i st : same_element i st st.
Proof. reflexivity. Qed.

Lemma same_element_trans i a b c :
  same_element i a b -> same_element i b c -> same_element i a c.
Proof. unfold same_element. congruence. Qed.

Lemma same_element_of_model i st st' :
  document st' = document st -> same_element i st st'.
Proof. unfold same_element. by intros ->. Qed.

Lemma same_element_set_innerHTML i j content st :
  i <> j -> same_element i st (set_innerHTML j content st).
Proof.
  intros Hne. unfold same_element, set_innerHTML.
  destruct (document st !! j); [|reflexivity].
  cbn [document set_document]. by rewrite lookup_insert_ne.
Qed.

Lemma same_element_set_hidden i j h :
  i <> j -> keeps (same_element i) (set_hidden_if_present j h).
Proof.
  intros Hne st. unfold handle. rewrite set_hidden_if_present_run. cbn [snd].
  unfold same_element. destruct (document st !! j); [|reflexivity].
  cbn [document set_document]. by rewrite lookup_insert_ne.
Qed.

Lemma same_element_setAuthMessage i msg isError :
  i <> "authMessage"%string -> keeps (same_element i) (setAuthMessage msg isError).
Proof.
  intros Hne st. unfold handle. rewrite setAuthMessage_run. cbn [snd].
  unfold same_element. destruct (document st !! "authMessage"); [|reflexivity].
  cbn [document set_document emit]. by rewrite lookup_insert_ne.
Qed.

Lemma same_element_loadExercises i outcome : keeps (same_element i) (loadExercises outcome).
Proof.
  intros st. apply same_element_of_model.
  destruct outcome as [e|[|] [e|catalog]]; reflexivity.
Qed.

Lemma same_element_loadBookmarks i : keeps (same_element i) loadBookmarks.
Proof.
  intros st. apply same_element_of_model. unfold handle.
  rewrite loadBookmarks_unfold. cbn [snd].
  destruct (persisted st) as [stored|]; [|reflexivity].
  destruct (truthy stored); [|reflexivity]. destruct (parse stored); reflexivity.
Qed.

Lemma same_element_saveBookmarks i : keeps (same_element i) saveBookmarks.
Proof. intros st. by apply same_element_of_model. Qed.

Lemma same_elementA_on_page {A} i (m : M A) :
  keeps (same_element i) m -> keepsA (same_elementA i) (on_page m).
Proof. intros Hm acc. unfold same_elementA. rewrite on_page_run. apply Hm. Qed.

Lemma same_elementA_trans i a b c :
  same_elementA i a b -> same_elementA i b c -> same_elementA i a c.
Proof. apply same_element_trans. Qed.

Ltac element_step :=
  first
    [ apply keepsA_ret; by intros ?
    | apply keepsA_throw; by intros ?
    | apply keepsA_get; by intros ?
    | by intros ?
    | apply same_elementA_on_page;
      first [ apply same_element_set_hidden; discriminate
            | apply same_element_setAuthMessage; discriminate
            | apply same_element_loadExercises
            | apply same_element_loadBookmarks
            | apply same_element_saveBookmarks
            | apply keeps_lift; apply same_element_refl
            | apply keeps_modify; intros ?;
              first [ apply same_element_set_innerHTML; discriminate
                    | by apply same_element_of_model ] ]
    | apply keepsA_bind; [apply same_elementA_trans | | intros ?]
    | match goal with
      | |- keepsA _ (match ?x with _ => _ end) => destruct x
      | |- keepsA _ (if ?x then _ else _) => destruct x
      end ].

(** [renderSavedExercisesList] writes to the list and to the no-saved
    notice, to nothing else of the page. *)
Lemma same_element_renderSavedExercisesList i :
  i <> "savedExercisesList"%string -> i <> "noSavedExercises"%string ->
  keepsA (same_elementA i) renderSavedExercisesList.
Proof.
  intros H1 H2. unfold renderSavedExercisesList, set_textContent.
  repeat first
    [ apply same_elementA_on_page;
      first [ apply same_element_set_hidden; congruence
            | apply keeps_modify; intros ?; apply same_element_set_innerHTML; congruence ]
    | element_step ].
Qed.

Lemma sent_handleSignUp w name_value email_value password_value acc :
  sent (snd (handleSignUp w name_value email_value password_value acc)) =
  sent acc ++
  match w, truthy_field (option_map trim name_value),
        truthy_field (option_map trim email_value), truthy_field password_value with
  | Some _, Some name, Some email, Some password =>
      if (length password <? 6)%nat then [] else [SignUp email password name]
  | _, _, _, _ => []
  end.
Proof.
  unfold handleSignUp.
  destruct (truthy_field (option_map trim name_value)) as [name|].
  2: { rewrite bindA_returns by apply setAuthMessage_returns.
       rewrite on_page_run. cbn. destruct w; by rewrite app_nil_r. }
  destruct (truthy_field (option_map trim email_value)) as [email|].
  2: { rewrite bindA_returns by apply setAuthMessage_returns.
       rewrite on_page_run. cbn. destruct w; by rewrite app_nil_r. }
  destruct (truthy_field password_value) as [password|].
  2: { rewrite bindA_returns by apply setAuthMessage_returns.
       rewrite on_page_run. cbn. destruct w; by rewrite app_nil_r. }
  destruct (length password <? 6)%nat.
  { rewrite bindA_returns by apply setAuthMessage_returns.
    rewrite on_page_run. cbn. destruct w; by rewrite app_nil_r. }
  destruct w as [supabase|].
  2: { rewrite bindA_returns by apply setAuthMessage_returns.
       rewrite on_page_run. cbn. by rewrite app_nil_r. }
  rewrite bindA_returns by apply setAuthMessage_returns.
  unfold bindA at 1. rewrite send_run.
  pose proof (same_sent_after_signUp (auth_signUp supabase email password name) name
                {| app_state := app_state (snd (on_page (setAuthMessage (js "Creating account...") false) acc));
                   sent := sent (snd (on_page (setAuthMessage (js "Creating account...") false) acc)) ++
                           [SignUp email password name];
                   reloads_pending := reloads_pending (snd (on_page (setAuthMessage (js "Creating account...") false) acc)) |})
    as H.
  unfold after_signUp, same_sent in H. rewrite H. cbn [sent].
  by rewrite on_page_run.
Qed.

(** Sign-up checks on the page before it asks the service.  With a name
    or an email that is blank once trimmed, or an empty password, it
    shows that all fields must be filled; with a password shorter than
    six code units it shows that the password is too short; in both
    cases nothing is sent and nothing else changes.  A request goes out
    only for a name and an email that are not blank and a password of
    six code units or more, with the name and the email trimmed and the
    password as typed. *)
Theorem handleSignUp_checks_first (w : option AuthClient)
    (name_value email_value password_value : option jsstring) (acc : Account) :
  let shows (text : jsstring) :=
    (Return Undefined,
     {| app_state := handle (setAuthMessage text true) (app_state acc);
        sent := sent acc; reloads_pending := reloads_pending acc |}) in
  (truthy_field (option_map trim name_value) = None \/
   truthy_field (option_map trim email_value) = None \/
   truthy_field password_value = None ->
   handleSignUp w name_value email_value password_value acc =
   shows (js "Please fill in all fields.")) /\
  (forall password,
     truthy_field (option_map trim name_value) <> None ->
     truthy_field (option_map trim email_value) <> None ->
     password_value = Some password -> (0 < length password < 6)%nat ->
     handleSignUp w name_value email_value password_value acc =
     shows (js "Password must be at least 6 characters.")) /\
  (forall request,
     request ∈ sent (snd (handleSignUp w name_value email_value password_value acc)) ->
     request ∈ sent acc \/
     exists name email password,
       request = SignUp (trim email) password (trim name) /\
       name_value = Some name /\ email_value = Some email /\
       password_value = Some password /\
       trim name <> [] /\ trim email <> [] /\ (6 <= length password)%nat /\
       w <> None).
Proof.
  intros shows. subst shows. split; [|split].
  - intros H. unfold handleSignUp.
    assert (Hshow : (on_page (setAuthMessage (js "Please fill in all fields.") true) ~;;
                     retA Undefined) acc =
                    (Return Undefined,
                     {| app_state := handle (setAuthMessage (js "Please fill in all fields.") true)
                                       (app_state acc);
                        sent := sent acc; reloads_pending := reloads_pending acc |})).
    { rewrite bindA_returns by apply setAuthMessage_returns.
      by rewrite on_page_run. }
    destruct (truthy_field (option_map trim name_value)); [|exact Hshow].
    destruct (truthy_field (option_map trim email_value)); [|exact Hshow].
    destruct (truthy_field password_value); [|exact Hshow].
    destruct H as [H|[H|H]]; discriminate.
  - intros password Hn He -> [Hpos Hshort]. unfold handleSignUp.
    destruct (truthy_field (option_map trim name_value)); [|contradiction].
    destruct (truthy_field (option_map trim email_value)); [|contradiction].
    cbn [truthy_field]. rewrite truthy_nonempty by (destruct password; [cbn in Hpos; lia | discriminate]).
    destruct (Nat.ltb_spec (length password) 6); [|lia].
    rewrite bindA_returns by apply setAuthMessage_returns.
    by rewrite on_page_run.
  - intros request. rewrite sent_handleSignUp, elem_of_app.
    intros [Hin|Hin]; [by left|]. right.
    destruct w as [supabase|]; [|by apply elem_of_nil in Hin].
    destruct name_value as [name|]; cbn [option_map] in Hin;
      [|by apply elem_of_nil in Hin].
    destruct (truthy_field (Some (trim name))) as [name'|] eqn:Hname;
      [|by apply elem_of_nil in Hin].
    destruct email_value as [email|]; cbn [option_map] in Hin;
      [|by apply elem_of_nil in Hin].
    destruct (truthy_field (Some (trim email))) as [email'|] eqn:Hemail;
      [|by apply elem_of_nil in Hin].
    destruct (truthy_field password_value) as [password|] eqn:Hpw;
      [|by apply elem_of_nil in Hin].
    destruct (Nat.ltb_spec (length password) 6); [by apply elem_of_nil in Hin|].
    apply list_elem_of_singleton in Hin as ->.
    apply truthy_field_Some in Hname as [[= <-] Hn].
    apply truthy_field_Some in Hemail as [[= <-] He].
    apply truthy_field_Some in Hpw as [-> _].
    exists name, email, password. repeat split; auto; discriminate.
Qed.

Lemma same_sent_after_signIn reply : keepsA same_sent (after_signIn reply).
Proof.
  unfold after_signIn.
  repeat first [apply same_sent_showAccountDashboard | sent_step].
Qed.

Lemma handleSignIn_unfold w email_value password_value acc :
  handleSignIn w email_value password_value acc =
  match truthy_field (option_map trim email_value), truthy_field password_value with
  | Some email, Some password =>
      match w with
      | None =>
          (Return Undefined,
           then_page (setAuthMessage
                        (js "Auth is not available. Please refresh the page.") true) acc)
      | Some supabase =>
          after_signIn (auth_signInWithPassword supabase email password)
            (then_sent (SignInWithPassword email password)
               (then_page (setAuthMessage (js "Signing in...") false) acc))
      end
  | _, _ =>
      (Return Undefined,
       then_page (setAuthMessage (js "Please enter email and password.") true) acc)
  end.
Proof.
  unfold handleSignIn.
  destruct (truthy_field (option_map trim email_value)) as [email|].
  2: { rewrite bindA_returns by apply setAuthMessage_returns. by rewrite on_page_run. }
  destruct (truthy_field password_value) as [password|].
  2: { rewrite bindA_returns by apply setAuthMessage_returns. by rewrite on_page_run. }
  destruct w as [supabase|].
  2: { rewrite bindA_returns by apply setAuthMessage_returns. by rewrite on_page_run. }
  rewrite bindA_returns by apply setAuthMessage_returns.
  unfold bindA at 1. rewrite send_run, on_page_run. reflexivity.
Qed.

Lemma handleSignUp_unfold w name_value email_value password_value acc :
  handleSignUp w name_value email_value password_value acc =
  match truthy_field (option_map trim name_value),
        truthy_field (option_map trim email_value), truthy_field password_value with
  | Some name, Some email, Some password =>
      if (length password <? 6)%nat then
        (Return Undefined,
         then_page (setAuthMessage (js "Password must be at least 6 characters.") true)
                   acc)
      else
        match w with
        | None =>
            (Return Undefined,
             then_page (setAuthMessage
                          (js "Auth is not available. Please refresh the page.") true) acc)
        | Some supabase =>
            after_signUp (auth_signUp supabase email password name) name
              (then_sent (SignUp email password name)
                 (then_page (setAuthMessage (js "Creating account...") false) acc))
        end
  | _, _, _ =>
      (Return Undefined,
       then_page (setAuthMessage (js "Please fill in all fields.") true) acc)
  end.
Proof.
  unfold handleSignUp.
  destruct (truthy_field (option_map trim name_value)) as [name|].
  2: { rewrite bindA_returns by apply setAuthMessage_returns. by rewrite on_page_run. }
  destruct (truthy_field (option_map trim email_value)) as [email|].
  2: { rewrite bindA_returns by apply setAuthMessage_returns. by rewrite on_page_run. }
  destruct (truthy_field password_value) as [password|].
  2: { rewrite bindA_returns by apply setAuthMessage_returns. by rewrite on_page_run. }
  destruct (length password <? 6)%nat.
  { rewrite bindA_returns by apply setAuthMessage_returns. by rewrite on_page_run. }
  destruct w as [supabase|].
  2: { rewrite bindA_returns by apply setAuthMessage_returns. by rewrite on_page_run. }
  rewrite bindA_returns by apply setAuthMessage_returns.
  unfold bindA at 1. rewrite send_run, on_page_run. reflexivity.
Qed.

Lemma is_hidden_set_hidden i h st :
  is_hidden i (handle (set_hidden_if_present i h) st) = (fun _ => h) <$> is_hidden i st.
Proof.
  unfold handle, is_hidden. rewrite set_hidden_if_present_run. cbn [snd].
  destruct (document st !! i) as [el|] eqn:E; [|by rewrite E].
  cbn [document set_document]. by rewrite lookup_insert_eq.
Qed.

Lemma is_hidden_same_element i st st' :
  same_element i st st' -> is_hidden i st' = is_hidden i st.
Proof. unfold same_element, is_hidden. by intros ->. Qed.

Lemma showAccountDashboard_unfold user acc el :
  page_element "accountUserName" (app_state acc) = Some el ->
  showAccountDashboard user acc =
  (renderSavedExercisesList ~;; retA Undefined)
    (then_page (modify (set_textContent "accountUserName" (shown_name user)))
       (then_page (set_hidden_if_present "accountDashboardSection" false) acc)).
Proof.
  intros Hel. unfold showAccountDashboard.
  rewrite bindA_returns by apply set_hidden_if_present_returns.
  rewrite on_page_run. cbn [snd].
  unfold bindA at 1, getA at 1. cbn [app_state].
  assert (H2 : same_element "accountUserName" (app_state acc)
                 (handle (set_hidden_if_present "accountDashboardSection" false)
                         (app_state acc)))
    by (apply same_element_set_hidden; discriminate).
  unfold page_element in *. unfold handle in H2. rewrite H2, Hel.
  unfold bindA at 1. rewrite on_page_run. reflexivity.
Qed.

(** [showAccountDashboard] on a page with the name element: the dashboard
    section loses [hidden], the name element holds the name, the auth
    section is not touched. *)
Lemma showAccountDashboard_effect user acc el :
  page_element "accountUserName" (app_state acc) = Some el ->
  let acc' := snd (showAccountDashboard user acc) in
  is_hidden "accountDashboardSection" (app_state acc') =
    (fun _ => false) <$> is_hidden "accountDashboardSection" (app_state acc) /\
  innerHTML <$> page_element "accountUserName" (app_state acc') =
    Some (if truthy (shown_name user) then [Text (shown_name user)] else []) /\
  same_element "accountAuthSection" (app_state acc) (app_state acc').
Proof.
  intros Hel acc'. subst acc'. rewrite (showAccountDashboard_unfold user acc el Hel).
  set (st1 := handle (set_hidden_if_present "accountDashboardSection" false) (app_state acc)).
  assert (H1 : is_hidden "accountDashboardSection" st1 =
               (fun _ => false) <$> is_hidden "accountDashboardSection" (app_state acc))
    by apply is_hidden_set_hidden.
  assert (H2 : same_element "accountUserName" (app_state acc) st1)
    by (apply same_element_set_hidden; discriminate).
  assert (H3 : same_element "accountAuthSection" (app_state acc) st1)
    by (apply same_element_set_hidden; discriminate).
  set (st2 := set_textContent "accountUserName" (shown_name user) st1).
  assert (H4 : document st2 !! "accountUserName" =
               Some {| hidden := hidden el;
                       innerHTML := if truthy (shown_name user)
                                    then [Text (shown_name user)] else [] |}).
  { subst st2. unfold set_textContent, set_innerHTML. unfold page_element in Hel.
    rewrite H2, Hel. cbn [document set_document]. apply lookup_insert_eq. }
  assert (H5 : same_element "accountDashboardSection" st1 st2)
    by (apply same_element_set_innerHTML; discriminate).
  assert (H6 : same_element "accountAuthSection" st1 st2)
    by (apply same_element_set_innerHTML; discriminate).
  set (acc2 := then_page _ (then_page _ acc)).
  assert (Hacc2 : app_state acc2 = st2) by reflexivity.
  pose proof (same_element_renderSavedExercisesList "accountDashboardSection"
                ltac:(discriminate) ltac:(discriminate) acc2) as K1.
  pose proof (same_element_renderSavedExercisesList "accountUserName"
                ltac:(discriminate) ltac:(discriminate) acc2) as K2.
  pose proof (same_element_renderSavedExercisesList "accountAuthSection"
                ltac:(discriminate) ltac:(discriminate) acc2) as K3.
  unfold same_elementA in K1, K2, K3. rewrite Hacc2 in K1, K2, K3.
  unfold bindA, retA.
  destruct (renderSavedExercisesList acc2) as [[v|e] acc3]; cbn [snd] in *.
  all: split; [rewrite (is_hidden_same_element _ _ _ K1),
                 (is_hidden_same_element _ _ _ H5); exact H1|].
  all: split; [unfold same_element, page_element in *; rewrite K2, H4; reflexivity|].
  all: eapply same_element_trans; [exact H3|];
       eapply same_element_trans; [exact H6 | exact K3].
Qed.

(** Before [showAccountDashboard] is reached, nothing touches the
    dashboard section. *)
Lemma dashboard_after_signIn reply acc :
  is_hidden "accountDashboardSection" (app_state (snd (after_signIn reply acc))) <>
  is_hidden "accountDashboardSection" (app_state acc) ->
  exists r user, reply = Fulfilled r /\ signin_error r = None /\ signin_user r = Some user.
Proof.
  intros Hchanged. destruct reply as [r|e]; [|by destruct Hchanged].
  destruct (signin_error r) as [error|] eqn:Herr.
  - destruct Hchanged. unfold after_signIn. rewrite Herr.
    apply is_hidden_same_element.
    assert (K : keepsA (same_elementA "accountDashboardSection")
                  (on_page (setAuthMessage (message_or error (js "Invalid email or password.")) true) ~;;
                   retA Undefined)) by repeat element_step.
    apply K.
  - destruct (signin_user r) as [user|] eqn:Huser; [eauto|].
    destruct Hchanged. unfold after_signIn. rewrite Herr, Huser.
    apply is_hidden_same_element.
    assert (K : keepsA (same_elementA "accountDashboardSection")
                  (on_page (setAuthMessage [] false) ~;; on_page hideAuthForm ~;;
                   @throwA value (TypeError "user.id")))
      by (unfold hideAuthForm; repeat element_step).
    apply K.
Qed.

Lemma dashboard_after_signUp reply name acc :
  is_hidden "accountDashboardSection" (app_state (snd (after_signUp reply name acc))) <>
  is_hidden "accountDashboardSection" (app_state acc) ->
  exists r user, reply = Fulfilled r /\ signup_error r = None /\
                 signup_user r = Some user /\ signup_session r = true.
Proof.
  intros Hchanged. destruct reply as [r|e]; [|by destruct Hchanged].
  destruct (signup_error r) as [error|] eqn:Herr.
  - destruct Hchanged. unfold after_signUp. rewrite Herr.
    apply is_hidden_same_element.
    assert (K : keepsA (same_elementA "accountDashboardSection")
                  (on_page (setAuthMessage (message_or error (js "Could not create account.")) true) ~;;
                   retA Undefined)) by repeat element_step.
    apply K.
  - destruct (signup_user r) as [user|] eqn:Huser.
    + destruct (signup_session r) eqn:Hsession; [eauto 10|].
      destruct Hchanged. unfold after_signUp. rewrite Herr, Huser, Hsession.
      apply is_hidden_same_element.
      assert (K : keepsA (same_elementA "accountDashboardSection")
                    (on_page (setAuthMessage
                                (js "Check your email to confirm your account, then sign in.")
                                false) ~;; retA Undefined)) by repeat element_step.
      apply K.
    + destruct Hchanged. unfold after_signUp. rewrite Herr, Huser.
      apply is_hidden_same_element.
      assert (K : keepsA (same_elementA "accountDashboardSection")
                    (on_page (setAuthMessage [] false) ~;; on_page hideAuthForm ~;;
                     @throwA value (TypeError "user.id")))
        by (unfold hideAuthForm; repeat element_step).
      destruct (signup_session r); apply K.
Qed.

Lemma sent_handleSignIn w email_value password_value acc :
  sent (snd (handleSignIn w email_value password_value acc)) =
  sent acc ++
  match w, truthy_field (option_map trim email_value), truthy_field password_value with
  | Some _, Some email, Some password => [SignInWithPassword email password]
  | _, _, _ => []
  end.
Proof.
  rewrite handleSignIn_unfold.
  destruct (truthy_field (option_map trim email_value)) as [email|];
    [|cbn; destruct w; by rewrite app_nil_r].
  destruct (truthy_field password_value) as [password|];
    [|cbn; destruct w; by rewrite app_nil_r].
  destruct w as [supabase|]; [|cbn; by rewrite app_nil_r].
  pose proof (same_sent_after_signIn (auth_signInWithPassword supabase email password)
                (then_sent (SignInWithPassword email password)
                   (then_page (setAuthMessage (js "Signing in...") false) acc))) as H.
  unfold same_sent in H. rewrite H. reflexivity.
Qed.

(** Sign-in checks on the page before it asks the service: with an email
    that is blank once trimmed, or an empty password, it shows that both
    must be entered and nothing is sent.  A request goes out only for an
    email that is not blank and a password that is not empty, with the
    email trimmed and the password as typed. *)
Theorem handleSignIn_checks_first (w : option AuthClient)
    (email_value password_value : option jsstring) (acc : Account) :
  (truthy_field (option_map trim email_value) = None \/
   truthy_field password_value = None ->
   handleSignIn w email_value password_value acc =
   (Return Undefined,
    then_page (setAuthMessage (js "Please enter email and password.") true) acc)) /\
  (forall request,
     request ∈ sent (snd (handleSignIn w email_value password_value acc)) ->
     request ∈ sent acc \/
     exists email password,
       request = SignInWithPassword (trim email) password /\
       email_value = Some email /\ password_value = Some password /\
       trim email <> [] /\ password <> [] /\ w <> None).
Proof.
  split.
  - intros H. rewrite handleSignIn_unfold.
    destruct (truthy_field (option_map trim email_value)); [|reflexivity].
    destruct (truthy_field password_value); [|reflexivity].
    destruct H; discriminate.
  - intros request. rewrite sent_handleSignIn, elem_of_app.
    intros [Hin|Hin]; [by left|]. right.
    destruct w as [supabase|]; [|by apply elem_of_nil in Hin].
    destruct email_value as [email|]; cbn [option_map] in Hin;
      [|by apply elem_of_nil in Hin].
    destruct (truthy_field (Some (trim email))) as [email'|] eqn:Hemail;
      [|by apply elem_of_nil in Hin].
    destruct (truthy_field password_value) as [password|] eqn:Hpw;
      [|by apply elem_of_nil in Hin].
    apply list_elem_of_singleton in Hin as ->.
    apply truthy_field_Some in Hemail as [[= <-] He].
    apply truthy_field_Some in Hpw as [-> Hp].
    exists email, password. repeat split; auto; discriminate.
Qed.

(** The last steps of a sign-in or sign-up that succeeded, on a page with
    the name element: the form is hidden, the dashboard has lost
    [hidden], the name element shows the name. *)
Lemma dashboard_revealed shown acc asked el :
  (forall i, i <> "authMessage"%string ->
             same_element i (app_state acc) (app_state asked)) ->
  page_element "accountUserName" (app_state acc) = Some el ->
  let acc' := snd (showAccountDashboard shown
                     (then_page hideAuthForm
                        (then_page (setAuthMessage [] false) asked))) in
  is_hidden "accountAuthSection" (app_state acc') =
    (fun _ => true) <$> is_hidden "accountAuthSection" (app_state acc) /\
  is_hidden "accountDashboardSection" (app_state acc') =
    (fun _ => false) <$> is_hidden "accountDashboardSection" (app_state acc) /\
  innerHTML <$> page_element "accountUserName" (app_state acc') =
    Some (if truthy (shown_name shown) then [Text (shown_name shown)] else []).
Proof.
  intros E0 Hel.
  set (acc1 := then_page (setAuthMessage [] false) asked).
  set (acc2 := then_page hideAuthForm acc1).
  assert (E1 : forall i, i <> "authMessage"%string ->
                         same_element i (app_state acc) (app_state acc1)).
  { intros i Hi. eapply same_element_trans; [apply E0, Hi|].
    apply same_element_setAuthMessage, Hi. }
  assert (E2 : forall i, i <> "accountAuthSection"%string ->
                         same_element i (app_state acc1) (app_state acc2))
    by (intros i Hi; apply same_element_set_hidden, Hi).
  assert (Hel2 : page_element "accountUserName" (app_state acc2) = Some el).
  { unfold page_element in *.
    rewrite (E2 "accountUserName"), (E1 "accountUserName"); done. }
  destruct (showAccountDashboard_effect shown acc2 el Hel2) as (D1 & D2 & D3).
  intros acc'. subst acc'. split; [|split].
  - rewrite (is_hidden_same_element _ _ _ D3).
    unfold acc2 at 1. cbn [then_page app_state]. unfold hideAuthForm.
    rewrite is_hidden_set_hidden.
    by rewrite (is_hidden_same_element _ _ _ (E1 "accountAuthSection" ltac:(done))).
  - rewrite D1.
    rewrite (is_hidden_same_element _ _ _ (E2 "accountDashboardSection" ltac:(done))).
    by rewrite (is_hidden_same_element _ _ _ (E1 "accountDashboardSection" ltac:(done))).
  - exact D2.
Qed.

Lemma after_signIn_success reply user asked :
  signin_error reply = None -> signin_user reply = Some user ->
  after_signIn (Fulfilled reply) asked =
  showAccountDashboard
    {| su_id := user_id user; su_email := user_email user;
       su_name := display_name user |}
    (then_page hideAuthForm (then_page (setAuthMessage [] false) asked)).
Proof.
  intros Herr Huser. unfold after_signIn. rewrite Herr, Huser.
  rewrite bindA_returns by apply setAuthMessage_returns.
  rewrite bindA_returns by apply set_hidden_if_present_returns.
  by rewrite !on_page_run.
Qed.

Lemma after_signUp_success reply user name asked :
  signup_error reply = None -> signup_user reply = Some user ->
  signup_session reply = true ->
  after_signUp (Fulfilled reply) name asked =
  showAccountDashboard
    {| su_id := user_id user; su_email := user_email user;
       su_name := signup_display_name user name |}
    (then_page hideAuthForm (then_page (setAuthMessage [] false) asked)).
Proof.
  intros Herr Huser Hsession. unfold after_signUp. rewrite Herr, Huser, Hsession.
  rewrite bindA_returns by apply setAuthMessage_returns.
  rewrite bindA_returns by apply set_hidden_if_present_returns.
  by rewrite !on_page_run.
Qed.

Lemma same_element_asked i request msg acc :
  i <> "authMessage"%string ->
  same_element i (app_state acc)
    (app_state (then_sent request (then_page (setAuthMessage msg false) acc))).
Proof.
  intros Hi. cbn [then_sent then_page app_state].
  apply same_element_setAuthMessage, Hi.
Qed.

(** The name a new account is greeted with: the name of the metadata
    when that is a non-empty string, the name typed into the form
    otherwise. *)
Lemma signup_display_name_priority user name :
  name <> [] ->
  signup_display_name user name =
  match user_metadata user with
  | Some (Some metadata_name) => if truthy metadata_name then metadata_name else name
  | _ => name
  end.
Proof.
  intros Hname. unfold signup_display_name.
  destruct (user_metadata user) as [[m|]|]; cbn [truthy_field].
  - destruct (truthy m); [reflexivity|]. by rewrite (truthy_nonempty _ Hname).
  - by rewrite (truthy_nonempty _ Hname).
  - by rewrite (truthy_nonempty _ Hname).
Qed.

Lemma signup_display_name_nonempty user name :
  name <> [] -> signup_display_name user name <> [].
Proof.
  intros Hname. rewrite (signup_display_name_priority user name Hname).
  destruct (user_metadata user) as [[[|c m]|]|]; cbn [truthy]; try assumption.
  discriminate.
Qed.

(** What sign-in does with the reply.  An error in the reply is shown,
    its message or else the stock text, and the form stays as it is.
    The dashboard is revealed only by a reply without error that has a
    user; then, on a page with the name element, the form is hidden, the
    dashboard has lost [hidden] and the name element shows the display
    name of the user. *)
Theorem handleSignIn_outcomes (supabase : AuthClient) (email password : jsstring)
    (acc : Account) :
  trim email <> [] -> password <> [] ->
  let request := SignInWithPassword (trim email) password in
  let asked := then_sent request
                 (then_page (setAuthMessage (js "Signing in...") false) acc) in
  let acc' := snd (handleSignIn (Some supabase) (Some email) (Some password) acc) in
  (forall reply error,
     auth_signInWithPassword supabase (trim email) password = Fulfilled reply ->
     signin_error reply = Some error ->
     handleSignIn (Some supabase) (Some email) (Some password) acc =
     (Return Undefined,
      then_page (setAuthMessage
                   (if truthy (message error) then message error
                    else js "Invalid email or password.") true) asked)) /\
  (is_hidden "accountDashboardSection" (app_state acc') <>
   is_hidden "accountDashboardSection" (app_state acc) ->
   exists reply user,
     auth_signInWithPassword supabase (trim email) password = Fulfilled reply /\
     signin_error reply = None /\ signin_user reply = Some user) /\
  (forall reply user el,
     auth_signInWithPassword supabase (trim email) password = Fulfilled reply ->
     signin_error reply = None -> signin_user reply = Some user ->
     page_element "accountUserName" (app_state acc) = Some el ->
     is_hidden "accountAuthSection" (app_state acc') =
       (fun _ => true) <$> is_hidden "accountAuthSection" (app_state acc) /\
     is_hidden "accountDashboardSection" (app_state acc') =
       (fun _ => false) <$> is_hidden "accountDashboardSection" (app_state acc) /\
     innerHTML <$> page_element "accountUserName" (app_state acc') =
       Some [Text (display_name user)]).
Proof.
  intros Hemail Hpw request asked acc'. subst acc'.
  rewrite handleSignIn_unfold. cbn [option_map truthy_field].
  rewrite (truthy_nonempty _ Hemail), (truthy_nonempty _ Hpw).
  fold request. fold asked.
  split; [|split].
  - intros reply error -> Herr. unfold after_signIn. rewrite Herr.
    rewrite bindA_returns by apply setAuthMessage_returns.
    by rewrite on_page_run.
  - intros Hchanged. apply (dashboard_after_signIn _ asked).
    assert (Hasked : same_element "accountDashboardSection" (app_state acc)
                       (app_state asked)) by (by apply same_element_asked).
    by rewrite (is_hidden_same_element _ _ _ Hasked).
  - intros reply user el -> Herr Huser Hel.
    rewrite (after_signIn_success _ _ _ Herr Huser).
    pose proof (dashboard_revealed
                  {| su_id := user_id user; su_email := user_email user;
                     su_name := display_name user |} acc asked el
                  (fun i Hi => same_element_asked i request _ acc Hi) Hel) as D.
    cbn zeta in D. unfold shown_name in D. cbn [su_name] in D.
    repeat (rewrite (truthy_nonempty _ (display_name_nonempty user)) in D;
            cbn iota in D).
    exact D.
Qed.

(** What sign-up does with the reply.  An error in the reply is shown,
    its message or else the stock text.  A user without a session is
    told to confirm by email, not as an error, and neither the form nor
    the dashboard changes.  The dashboard is revealed only by a reply
    without error that has a user and a session; then, on a page with
    the name element, the form is hidden, the dashboard has lost
    [hidden], and the name shown is the name of the metadata when that
    is a non-empty string, and the trimmed name typed into the form
    otherwise. *)
Theorem handleSignUp_outcomes (supabase : AuthClient) (name email password : jsstring)
    (acc : Account) :
  trim name <> [] -> trim email <> [] -> (6 <= length password)%nat ->
  let request := SignUp (trim email) password (trim name) in
  let asked := then_sent request
                 (then_page (setAuthMessage (js "Creating account...") false) acc) in
  let run := handleSignUp (Some supabase) (Some name) (Some email) (Some password) acc in
  (forall reply error,
     auth_signUp supabase (trim email) password (trim name) = Fulfilled reply ->
     signup_error reply = Some error ->
     run = (Return Undefined,
            then_page (setAuthMessage
                         (if truthy (message error) then message error
                          else js "Could not create account.") true) asked)) /\
  (forall reply user,
     auth_signUp supabase (trim email) password (trim name) = Fulfilled reply ->
     signup_error reply = None -> signup_user reply = Some user ->
     signup_session reply = false ->
     run = (Return Undefined,
            then_page (setAuthMessage
                         (js "Check your email to confirm your account, then sign in.")
                         false) asked) /\
     same_element "accountAuthSection" (app_state acc) (app_state (snd run)) /\
     same_element "accountDashboardSection" (app_state acc) (app_state (snd run))) /\
  (is_hidden "accountDashboardSection" (app_state (snd run)) <>
   is_hidden "accountDashboardSection" (app_state acc) ->
   exists reply user,
     auth_signUp supabase (trim email) password (trim name) = Fulfilled reply /\
     signup_error reply = None /\ signup_user reply = Some user /\
     signup_session reply = true) /\
  (forall reply user el,
     auth_signUp supabase (trim email) password (trim name) = Fulfilled reply ->
     signup_error reply = None -> signup_user reply = Some user ->
     signup_session reply = true ->
     page_element "accountUserName" (app_state acc) = Some el ->
     let shown := match user_metadata user with
                  | Some (Some metadata_name) =>
                      if truthy metadata_name then metadata_name else trim name
                  | _ => trim name
                  end in
     is_hidden "accountAuthSection" (app_state (snd run)) =
       (fun _ => true) <$> is_hidden "accountAuthSection" (app_state acc) /\
     is_hidden "accountDashboardSection" (app_state (snd run)) =
       (fun _ => false) <$> is_hidden "accountDashboardSection" (app_state acc) /\
     innerHTML <$> page_element "accountUserName" (app_state (snd run)) =
       Some [Text shown]).
Proof.
  intros Hname Hemail Hlen request asked run. subst run.
  rewrite handleSignUp_unfold. cbn [option_map truthy_field].
  rewrite (truthy_nonempty _ Hname), (truthy_nonempty _ Hemail).
  assert (Hpw : password <> []) by (destruct password; [cbn in Hlen; lia | done]).
  rewrite (truthy_nonempty _ Hpw).
  destruct (Nat.ltb_spec (length password) 6) as [|_]; [lia|].
  fold request. fold asked.
  split; [|split; [|split]].
  - intros reply error -> Herr. unfold after_signUp. rewrite Herr.
    rewrite bindA_returns by apply setAuthMessage_returns.
    by rewrite on_page_run.
  - intros reply user -> Herr Huser Hsession.
    unfold after_signUp. rewrite Herr, Huser, Hsession.
    rewrite bindA_returns by apply setAuthMessage_returns.
    rewrite on_page_run. cbn [retA snd fst app_state].
    split; [reflexivity|].
    split; (eapply same_element_trans;
            [apply (same_element_asked _ request (js "Creating account...") acc); done
            |apply same_element_setAuthMessage; done]).
  - intros Hchanged. apply (dashboard_after_signUp _ (trim name) asked).
    assert (Hasked : same_element "accountDashboardSection" (app_state acc)
                       (app_state asked)) by (by apply same_element_asked).
    by rewrite (is_hidden_same_element _ _ _ Hasked).
  - intros reply user el -> Herr Huser Hsession Hel.
    rewrite (after_signUp_success _ _ _ _ Herr Huser Hsession).
    pose proof (dashboard_revealed
                  {| su_id := user_id user; su_email := user_email user;
                     su_name := signup_display_name user (trim name) |} acc asked el
                  (fun i Hi => same_element_asked i request _ acc Hi) Hel) as D.
    cbn zeta in D. unfold shown_name in D. cbn [su_name] in D.
    pose proof (signup_display_name_nonempty user (trim name) Hname) as Hne.
    repeat (rewrite (truthy_nonempty _ Hne) in D; cbn iota in D).
    rewrite (signup_display_name_priority user (trim name) Hname) in D |- *.
    exact D.
Qed.

Lemma handleSignOut_unfold w acc :
  handleSignOut w acc =
  match w with
  | Some supabase =>
      match auth_signOut supabase with
      | Rejected e => (Throw e, then_sent SignOut acc)
      | Fulfilled _ =>
          (Return Undefined,
           then_page hideAccountDashboard (then_page showAuthForm (then_sent SignOut acc)))
      end
  | None =>
      (Return Undefined, then_page hideAccountDashboard (then_page showAuthForm acc))
  end.
Proof.
  unfold handleSignOut. destruct w as [supabase|].
  - unfold bindA at 1. unfold bindA at 1. rewrite send_run.
    destruct (auth_signOut supabase) as [[]|e]; [|reflexivity].
    unfold retA at 1.
    rewrite bindA_returns by apply set_hidden_if_present_returns.
    rewrite bindA_returns by apply set_hidden_if_present_returns.
    by rewrite !on_page_run.
  - unfold bindA at 1. unfold retA at 1.
    rewrite bindA_returns by apply set_hidden_if_present_returns.
    rewrite bindA_returns by apply set_hidden_if_present_returns.
    by rewrite !on_page_run.
Qed.

Lemma same_model_set_hidden_if_present i h : keeps same_model (set_hidden_if_present i h).
Proof.
  intros st. unfold handle. rewrite set_hidden_if_present_run. cbn [snd].
  destruct (document st !! i); by constructor.
Qed.

(** The view of a visitor who is not signed in: [showAuthForm()] and
    then [hideAccountDashboard()]. *)
Lemma anonymous_views a :
  same_model (app_state a)
    (app_state (then_page hideAccountDashboard (then_page showAuthForm a))) /\
  is_hidden "accountAuthSection"
    (app_state (then_page hideAccountDashboard (then_page showAuthForm a))) =
    (fun _ => false) <$> is_hidden "accountAuthSection" (app_state a) /\
  is_hidden "accountDashboardSection"
    (app_state (then_page hideAccountDashboard (then_page showAuthForm a))) =
    (fun _ => true) <$> is_hidden "accountDashboardSection" (app_state a).
Proof.
  cbn [then_page app_state]. unfold hideAccountDashboard, showAuthForm.
  split; [|split].
  - eapply same_model_trans; apply same_model_set_hidden_if_present.
  - rewrite (is_hidden_same_element _ _ _
               (same_element_set_hidden "accountAuthSection" "accountDashboardSection"
                  true ltac:(done) _)).
    apply is_hidden_set_hidden.
  - rewrite is_hidden_set_hidden.
    by rewrite (is_hidden_same_element _ _ _
                  (same_element_set_hidden "accountDashboardSection"
                     "accountAuthSection" false ltac:(done) _)).
Qed.

(** Signing out.  Without a client, or when the service answers, the form
    is shown again and the dashboard hidden; the bookmarks, the catalog
    and the storage are what they were, so the saved exercises of the
    account that left stay in this browser.  When the request fails the
    handler throws and the page stays as it is, dashboard included. *)
Theorem handleSignOut_views (w : option AuthClient) (acc : Account) :
  let run := handleSignOut w acc in
  same_model (app_state acc) (app_state (snd run)) /\
  sent (snd run) = sent acc ++ match w with Some _ => [SignOut] | None => [] end /\
  match option_map auth_signOut w with
  | Some (Rejected e) =>
      fst run = Throw e /\ document (app_state (snd run)) = document (app_state acc)
  | _ =>
      fst run = Return Undefined /\
      is_hidden "accountAuthSection" (app_state (snd run)) =
        (fun _ => false) <$> is_hidden "accountAuthSection" (app_state acc) /\
      is_hidden "accountDashboardSection" (app_state (snd run)) =
        (fun _ => true) <$> is_hidden "accountDashboardSection" (app_state acc)
  end.
Proof.
  intros run. subst run. rewrite handleSignOut_unfold.
  destruct w as [supabase|]; cbn [option_map].
  - destruct (auth_signOut supabase) as [[]|e]; cbn [fst snd].
    + destruct (anonymous_views (then_sent SignOut acc)) as (H1 & H2 & H3). auto.
    + cbn [then_sent app_state sent]. repeat split; reflexivity.
  - cbn [fst snd]. destruct (anonymous_views acc) as (H1 & H2 & H3).
    cbn [then_page sent]. rewrite app_nil_r. auto.
Qed.

Lemma same_modelA_trans a b c : same_modelA a b -> same_modelA b c -> same_modelA a c.
Proof. apply same_model_trans. Qed.

Lemma same_modelA_on_page {A} (m : M A) :
  keeps same_model m -> keepsA same_modelA (on_page m).
Proof. intros Hm acc. unfold same_modelA. rewrite on_page_run. apply Hm. Qed.

Ltac model_step :=
  first
    [ apply keepsA_ret; intros ?; apply same_model_refl
    | apply keepsA_throw; intros ?; apply same_model_refl
    | apply keepsA_get; intros ?; apply same_model_refl
    | intros ?; apply same_model_refl
    | apply same_modelA_on_page;
      first [ apply same_model_set_hidden_if_present
            | apply keeps_lift; apply same_model_refl
            | apply keeps_modify; intros ?; apply same_model_set_innerHTML ]
    | apply keepsA_bind; [apply same_modelA_trans | | intros ?]
    | match goal with
      | |- keepsA _ (match ?x with _ => _ end) => destruct x
      | |- keepsA _ (if ?x then _ else _) => destruct x
      end ].

(** [renderSavedExercisesList] changes no variable of the script and
    nothing in the storage. *)
Lemma same_model_renderSavedExercisesList : keepsA same_modelA renderSavedExercisesList.
Proof. unfold renderSavedExercisesList. repeat model_step. Qed.

Lemma same_model_showAccountDashboard user : keepsA same_modelA (showAccountDashboard user).
Proof.
  unfold showAccountDashboard, set_textContent.
  repeat first [apply same_model_renderSavedExercisesList | model_step].
Qed.

(** Whatever the page, [showAccountDashboard] takes [hidden] off the
    dashboard section before anything that can throw. *)
Lemma showAccountDashboard_reveals user acc :
  is_hidden "accountDashboardSection" (app_state (snd (showAccountDashboard user acc))) =
  (fun _ => false) <$> is_hidden "accountDashboardSection" (app_state acc).
Proof.
  unfold showAccountDashboard.
  rewrite bindA_returns by apply set_hidden_if_present_returns.
  rewrite on_page_run. cbn [snd].
  match goal with
  | |- is_hidden _ (app_state (snd (?rest ?acc1))) = _ =>
      assert (K : keepsA (same_elementA "accountDashboardSection") rest)
  end.
  { unfold set_textContent.
    repeat first
      [ apply same_element_renderSavedExercisesList; discriminate
      | apply same_elementA_on_page; apply keeps_modify; intros ?;
        apply same_element_set_innerHTML; discriminate
      | element_step ]. }
  rewrite (is_hidden_same_element _ _ _ (K _)). cbn [app_state].
  apply is_hidden_set_hidden.
Qed.

Lemma same_element_showAccountDashboard i user :
  i <> "accountDashboardSection"%string -> i <> "accountUserName"%string ->
  i <> "savedExercisesList"%string -> i <> "noSavedExercises"%string ->
  keepsA (same_elementA i) (showAccountDashboard user).
Proof.
  intros H1 H2 H3 H4. unfold showAccountDashboard, set_textContent.
  repeat first
    [ apply same_element_renderSavedExercisesList; assumption
    | apply same_elementA_on_page;
      first [ apply same_element_set_hidden; congruence
            | apply keeps_modify; intros ?; apply same_element_set_innerHTML; congruence ]
    | element_step ].
Qed.

Lemma bindA_run {A B} (m : MA A) (k : A -> MA B) acc a acc1 :
  m acc = (Return a, acc1) -> bindA m k acc = k a acc1.
Proof. unfold bindA. by intros ->. Qed.

Lemma bindA_throws {A B} (m : MA A) (k : A -> MA B) acc e acc1 :
  m acc = (Throw e, acc1) -> bindA m k acc = (Throw e, acc1).
Proof. unfold bindA. by intros ->. Qed.

Lemma on_page_then {A} (m : M A) acc :
  on_page m acc = (fst (m (app_state acc)), then_page m acc).
Proof. apply on_page_run. Qed.

Lemma loadBookmarks_returns st : fst (loadBookmarks st) = Return Undefined.
Proof. by rewrite loadBookmarks_unfold. Qed.

Lemma current_user_run w acc :
  current_user w acc =
  match getCurrentUser (option_map base_client w) with
  | Return r => (Return r, then_asked w acc)
  | Throw e => (Throw e, then_asked w acc)
  end.
Proof.
  unfold current_user, getSupabase, then_asked.
  destruct w as [client|]; cbn [option_map].
  - unfold bindA, send, on_page, lift, then_sent. cbn [app_state sent reloads_pending].
    by destruct (getCurrentUser (Some (base_client client))) as [r|e].
  - unfold bindA, retA, on_page, lift. cbn. by destruct acc.
Qed.

Lemma initAccountPage_unfold w outcome acc :
  initAccountPage w outcome acc =
  match getCurrentUser (option_map base_client w) with
  | Throw e => (Throw e, then_asked w (then_page loadBookmarks acc))
  | Return None =>
      (Return Undefined,
       then_page hideAccountDashboard
         (then_page showAuthForm (then_asked w (then_page loadBookmarks acc))))
  | Return (Some user) =>
      (showAccountDashboard user ~;; on_page hideAuthForm ~;; retA Undefined)
        (then_page (loadExercises outcome) (then_asked w (then_page loadBookmarks acc)))
  end.
Proof.
  unfold initAccountPage.
  rewrite (bindA_run _ _ acc Undefined (then_page loadBookmarks acc))
    by (by rewrite on_page_then, loadBookmarks_returns).
  pose proof (current_user_run w (then_page loadBookmarks acc)) as Hasked.
  destruct (getCurrentUser _) as [[user|]|e].
  - rewrite (bindA_run _ _ _ (Some user) _ Hasked).
    unfold bindA at 1. unfold bindA at 1.
    rewrite on_page_then, loadExercises_returns. cbn [fst].
    unfold bindA.
    destruct (showAccountDashboard user _) as [[v|e] acc1]; [|reflexivity].
    by destruct (on_page hideAuthForm acc1) as [[[]|e] acc2].
  - rewrite (bindA_run _ _ _ None _ Hasked).
    unfold bindA, showAuthForm, hideAccountDashboard.
    rewrite !on_page_then, !set_hidden_if_present_returns.
    reflexivity.
  - rewrite (bindA_throws _ _ _ e _ Hasked).
    reflexivity.
Qed.

(** Opening the account page.  Without a session (no client, an error
    in the reply, no user) the form is shown and the dashboard hidden,
    and the catalog is not loaded.  With a session the dashboard has lost
    [hidden] whatever happens afterwards, and the form is hidden when the
    call completes.  When the session lookup is rejected the call throws
    and both sections stay as the page has them.  In every case the
    bookmarks are those [loadBookmarks] read, and the one request to the
    auth service is the session lookup, sent when there is a client. *)
Theorem initAccountPage_views (w : option AuthClient) (outcome : FetchOutcome)
    (acc : Account) :
  let run := initAccountPage w outcome acc in
  let auth st := is_hidden "accountAuthSection" st in
  let dashboard st := is_hidden "accountDashboardSection" st in
  bookmarkedExercises (app_state (snd run)) =
    bookmarkedExercises (handle loadBookmarks (app_state acc)) /\
  sent (snd run) =
    sent acc ++ match w with Some _ => [GetSession] | None => [] end /\
  match getCurrentUser (option_map base_client w) with
  | Throw e =>
      fst run = Throw e /\
      document (app_state (snd run)) = document (app_state acc) /\
      exercises (app_state (snd run)) = exercises (app_state acc)
  | Return None =>
      fst run = Return Undefined /\
      auth (app_state (snd run)) = (fun _ => false) <$> auth (app_state acc) /\
      dashboard (app_state (snd run)) = (fun _ => true) <$> dashboard (app_state acc) /\
      exercises (app_state (snd run)) = exercises (app_state acc) /\
      reloads_pending (snd run) = reloads_pending acc
  | Return (Some user) =>
      dashboard (app_state (snd run)) = (fun _ => false) <$> dashboard (app_state acc) /\
      exercises (app_state (snd run)) =
        exercises (handle (loadExercises outcome) (app_state acc)) /\
      (fst run = Return Undefined ->
       auth (app_state (snd run)) = (fun _ => true) <$> auth (app_state acc))
  end.
Proof.
  intros run auth dashboard. subst run auth dashboard. cbn beta.
  rewrite initAccountPage_unfold.
  set (acc0 := then_asked w (then_page loadBookmarks acc)).
  assert (A0 : app_state acc0 = handle loadBookmarks (app_state acc))
    by (by destruct w).
  assert (S0 : sent acc0 =
               sent acc ++ match w with Some _ => [GetSession] | None => [] end).
  { destruct w; cbn [acc0 then_asked then_sent then_page sent]; [done|].
    by rewrite app_nil_r. }
  assert (P0 : reloads_pending acc0 = reloads_pending acc) by (by destruct w).
  assert (B0 : bookmarkedExercises (app_state acc0) =
               bookmarkedExercises (handle loadBookmarks (app_state acc)))
    by (by rewrite A0).
  assert (D0 : document (app_state acc0) = document (app_state acc)).
  { rewrite A0. unfold handle. rewrite loadBookmarks_unfold. cbn [snd].
    destruct (persisted _) as [stored|]; [|reflexivity].
    destruct (truthy stored); [|reflexivity]. by destruct (parse stored). }
  assert (X0 : exercises (app_state acc0) = exercises (app_state acc)).
  { rewrite A0. unfold handle. rewrite loadBookmarks_unfold. cbn [snd].
    destruct (persisted _) as [stored|]; [|reflexivity].
    destruct (truthy stored); [|reflexivity]. by destruct (parse stored). }
  assert (E0 : forall i, is_hidden i (app_state acc0) = is_hidden i (app_state acc))
    by (intros i; unfold is_hidden; by rewrite D0).
  destruct (getCurrentUser _) as [[user|]|e]; cbn [fst snd].
  - set (acc1 := then_page (loadExercises outcome) acc0).
    pose proof (same_model_showAccountDashboard user acc1) as M1.
    pose proof (showAccountDashboard_reveals user acc1) as R1.
    assert (L1 : same_element "accountDashboardSection" (app_state acc0) (app_state acc1))
      by apply same_element_loadExercises.
    assert (L2 : same_element "accountAuthSection" (app_state acc0) (app_state acc1))
      by apply same_element_loadExercises.
    assert (B1 : bookmarkedExercises (app_state acc1) = bookmarkedExercises (app_state acc0)).
    { cbn [acc1 then_page app_state]. by destruct outcome as [e|[|] [e|catalog]]. }
    assert (X1 : exercises (app_state acc1) =
                 exercises (handle (loadExercises outcome) (app_state acc))).
    { cbn [acc1 then_page app_state]. destruct outcome as [e|[|] [e|catalog]]; try done. }
    assert (Hrun : (showAccountDashboard user ~;; on_page hideAuthForm ~;; retA Undefined)
                     acc1 =
                   match showAccountDashboard user acc1 with
                   | (Return _, acc2) => (Return Undefined, then_page hideAuthForm acc2)
                   | (Throw e, acc2) => (Throw e, acc2)
                   end).
    { unfold bindA. destruct (showAccountDashboard user acc1) as [[v|e] acc2]; [|done].
      unfold hideAuthForm.
      by rewrite on_page_then, set_hidden_if_present_returns. }
    rewrite Hrun. clear Hrun.
    destruct (showAccountDashboard user acc1) as [[v|e] acc2] eqn:Hshow; cbn [fst snd] in *.
    all: pose proof (same_sent_showAccountDashboard user acc1) as S1;
         unfold same_sent in S1; rewrite Hshow in S1; cbn [snd] in S1;
         change (sent acc1) with (sent acc0) in S1.
    all: unfold same_modelA in M1; destruct M1.
    + 
      pose proof (same_model_set_hidden_if_present "accountAuthSection" true
                    (app_state acc2)) as [].
      pose proof (same_element_showAccountDashboard "accountAuthSection" user
                    ltac:(done) ltac:(done) ltac:(done) ltac:(done) acc1) as K.
      unfold same_elementA in K. rewrite Hshow in K. cbn [snd] in K.
      cbn [then_page app_state sent]. unfold hideAuthForm.
      rewrite is_hidden_set_hidden.
      rewrite (is_hidden_same_element _ _ _
                 (same_element_set_hidden "accountDashboardSection" "accountAuthSection"
                    true ltac:(done) (app_state acc2))).
      rewrite R1, (is_hidden_same_element _ _ _ K).
      rewrite (is_hidden_same_element _ _ _ L1), (is_hidden_same_element _ _ _ L2), !E0.
      repeat split; congruence.
    + rewrite R1, (is_hidden_same_element _ _ _ L1), !E0.
      repeat split; try congruence.
  - destruct (anonymous_views acc0) as (H1 & H2 & H3).
    rewrite H2, H3, !E0. destruct H1. cbn [then_page sent reloads_pending].
    repeat split; congruence.
  - repeat split; auto.
Qed.

(** ** The list of saved exercises *)

Lemma saved_items_strings base catalog ids :
  linkable catalog ->
  exists items,
    saved_items base catalog (map JStr ids) = Return items /\
    Forall2 (item_of base) (omap (find_by_id catalog) ids) items.
Proof.
  intros Hcat. induction ids as [|i ids (items & IH & Hitems)].
  - exists []. split; [reflexivity | constructor].
  - assert (Homap : omap (find_by_id catalog) (i :: ids) =
                    match find_by_id catalog i with
                    | Some ex => ex :: omap (find_by_id catalog) ids
                    | None => omap (find_by_id catalog) ids
                    end) by reflexivity.
    rewrite Homap. cbn [map saved_items]. rewrite IH. unfold saved_item_for.
    destruct (find_by_id catalog i) as [ex|] eqn:Hfind.
    + apply find_by_id_Some in Hfind as [Hin _].
      unfold linkable in Hcat. rewrite Forall_forall in Hcat.
      destruct (Hcat ex Hin) as [enc Henc]. cbn beta iota. rewrite Henc.
      exists (saved_item base enc ex :: items). split; [reflexivity|].
      constructor; [by exists enc | exact Hitems].
    + exists items. split; [reflexivity | exact Hitems].
Qed.

Lemma renderSavedExercisesList_empty acc list_el :
  page_element "savedExercisesList" (app_state acc) = Some list_el ->
  length_is_zero (bookmarkedExercises (app_state acc)) = Return true ->
  renderSavedExercisesList acc =
  (Return Undefined,
   then_page (set_hidden_if_present "noSavedExercises" false)
     (then_page (modify (set_innerHTML "savedExercisesList" [])) acc)).
Proof.
  intros Hel Hzero. unfold renderSavedExercisesList.
  unfold bindA at 1, getA at 1. rewrite Hel.
  rewrite (bindA_run _ _ acc true acc)
    by (rewrite on_page_then; unfold lift; cbn [fst]; rewrite Hzero; by destruct acc).
  rewrite (bindA_run _ _ acc tt (then_page (modify (set_innerHTML "savedExercisesList" [])) acc))
    by (by rewrite on_page_then).
  rewrite bindA_returns by apply set_hidden_if_present_returns.
  by rewrite on_page_then.
Qed.


Lemma renderSavedExercisesList_items acc list_el arr items :
  page_element "savedExercisesList" (app_state acc) = Some list_el ->
  bookmarkedExercises (app_state acc) = JArr arr -> arr <> [] ->
  exercises (app_state acc) <> [] ->
  saved_items (getBaseUrl (app_state acc)) (exercises (app_state acc)) arr = Return items ->
  renderSavedExercisesList acc =
  (Return Undefined,
   then_page (modify (set_innerHTML "savedExercisesList" items))
     (then_page (set_hidden_if_present "noSavedExercises" true) acc)).
Proof.
  intros Hel Harr Hne Hcat Hitems. unfold renderSavedExercisesList.
  unfold bindA at 1, getA at 1. rewrite Hel.
  rewrite (bindA_run _ _ acc false acc).
  2: { rewrite on_page_then. unfold lift. cbn [fst]. rewrite Harr.
       destruct arr; [done|]. by destruct acc. }
  cbn iota. rewrite bindA_returns by apply set_hidden_if_present_returns.
  rewrite on_page_then. cbn [snd].
  destruct (exercises (app_state acc)) as [|ex catalog] eqn:E; [done|].
  rewrite Harr, Hitems.
  set (acc1 := then_page (set_hidden_if_present "noSavedExercises" true) acc).
  rewrite (bindA_run _ _ acc1 items acc1)
    by (rewrite on_page_then; unfold lift; cbn [fst]; by destruct acc1).
  rewrite (bindA_run _ _ acc1 tt
             (then_page (modify (set_innerHTML "savedExercisesList" items)) acc1))
    by (by rewrite on_page_then).
  reflexivity.
Qed.

Lemma innerHTML_set_innerHTML i content st el :
  page_element i st = Some el ->
  innerHTML <$> page_element i (set_innerHTML i content st) = Some content.
Proof.
  unfold page_element, set_innerHTML. intros ->.
  cbn [document set_document]. by rewrite lookup_insert_eq.
Qed.

(** The saved list on the account page, for bookmarks that are an array
    of identifiers and a catalog that has been loaded: one item for each
    bookmark that names an exercise of the catalog, in the order of the
    bookmarks; a bookmark that names none is passed over.  The notice
    that nothing is saved is visible exactly when there is no bookmark,
    so bookmarks that all name no exercise leave the section blank. *)
Theorem renderSavedExercisesList_shows (acc : Account) (ids : list jsstring)
    (list_el : Element) :
  page_element "savedExercisesList" (app_state acc) = Some list_el ->
  bookmarkedExercises (app_state acc) = JArr (map JStr ids) ->
  exercises (app_state acc) <> [] ->
  linkable (exercises (app_state acc)) ->
  let run := renderSavedExercisesList acc in
  fst run = Return Undefined /\
  (exists items,
     innerHTML <$> page_element "savedExercisesList" (app_state (snd run)) = Some items /\
     Forall2 (item_of (getBaseUrl (app_state acc)))
       (omap (find_by_id (exercises (app_state acc))) ids) items) /\
  is_hidden "noSavedExercises" (app_state (snd run)) =
    (fun _ => negb (bool_decide (ids = []))) <$>
    is_hidden "noSavedExercises" (app_state acc) /\
  reloads_pending (snd run) = reloads_pending acc.
Proof.
  intros Hel Hids Hcat Hlink run. subst run.
  destruct ids as [|i ids].
  - rewrite (renderSavedExercisesList_empty acc list_el Hel)
      by (by rewrite Hids).
    cbn [fst snd then_page app_state reloads_pending].
    split; [reflexivity|]. split; [|split; [|reflexivity]].
    + exists []. split; [|constructor].
      unfold page_element.
      rewrite (same_element_set_hidden "savedExercisesList" "noSavedExercises" false
                 ltac:(done) _).
      unfold handle, modify. cbn [snd].
      by apply (innerHTML_set_innerHTML _ _ _ list_el).
    + rewrite is_hidden_set_hidden. unfold handle, modify. cbn [snd].
      by rewrite (is_hidden_same_element _ _ _
                    (same_element_set_innerHTML "noSavedExercises" "savedExercisesList"
                       [] (app_state acc) ltac:(done))).
  - destruct (saved_items_strings (getBaseUrl (app_state acc)) (exercises (app_state acc))
                (i :: ids) Hlink) as (items & Hitems & Hall).
    rewrite (renderSavedExercisesList_items acc list_el (map JStr (i :: ids)) items
               Hel Hids ltac:(done) Hcat Hitems).
    cbn [fst snd then_page app_state reloads_pending].
    split; [reflexivity|]. split; [|split; [|reflexivity]].
    + exists items. split; [|exact Hall].
      unfold handle at 1, modify. cbn [snd].
      apply (innerHTML_set_innerHTML _ _ _ list_el).
      unfold page_element in *.
      by rewrite (same_element_set_hidden "savedExercisesList" "noSavedExercises" true
                    ltac:(done) _).
    + unfold handle at 1, modify. cbn [snd].
      rewrite (is_hidden_same_element _ _ _
                 (same_element_set_innerHTML "noSavedExercises" "savedExercisesList"
                    items _ ltac:(done))).
      by rewrite is_hidden_set_hidden.
Qed.

Lemma remove_first_absent x ids : x ∉ ids -> remove_first x ids = ids.
Proof.
  induction ids as [|y ids IH]; [reflexivity|].
  intros Hx. apply not_elem_of_cons in Hx as [Hne Hx]. cbn [remove_first].
  rewrite bool_decide_eq_false_2 by congruence. by rewrite IH.
Qed.

Lemma removeSavedOnAccountPage_unfold acc arr x :
  bookmarkedExercises (app_state acc) = JArr arr ->
  removeSavedOnAccountPage x acc =
  if (indexOf arr x >? -1)%Z then
    (renderSavedExercisesList ~;; retA Undefined)
      (then_page saveBookmarks
         (then_page (modify (set_bookmarkedExercises
                               (JArr (splice1 arr (Z.to_nat (indexOf arr x)))))) acc))
  else (Return Undefined, acc).
Proof.
  intros Harr. unfold removeSavedOnAccountPage.
  unfold bindA at 1, getA at 1. rewrite Harr.
  destruct (indexOf arr x >? -1)%Z; [|reflexivity].
  rewrite (bindA_run _ _ acc tt
             (then_page (modify (set_bookmarkedExercises
                                   (JArr (splice1 arr (Z.to_nat (indexOf arr x)))))) acc))
    by (by rewrite on_page_then).
  match goal with
  | |- bindA _ _ ?a = _ =>
      rewrite (bindA_run _ _ a Undefined (then_page saveBookmarks a))
        by (by rewrite on_page_then)
  end.
  reflexivity.
Qed.

(** Taking the first occurrence out of a list leaves what is before it
    and what is after it, in their order. *)
Lemma remove_first_split x ids :
  x ∈ ids ->
  exists before after,
    ids = before ++ x :: after /\ (x ∉ before) /\ remove_first x ids = before ++ after.
Proof.
  induction ids as [|y ids IH]; intros Hin; [by apply elem_of_nil in Hin|].
  cbn [remove_first]. destruct (decide (y = x)) as [->|Hne].
  - rewrite bool_decide_eq_true_2 by reflexivity.
    exists [], ids. split; [reflexivity|]. split; [apply not_elem_of_nil | reflexivity].
  - rewrite bool_decide_eq_false_2 by assumption.
    apply elem_of_cons in Hin as [Hin|Hin]; [congruence|].
    destruct (IH Hin) as (before & after & Hids & Hfresh & Hrest).
    exists (y :: before), after. split; [by rewrite Hids|].
    split; [|by rewrite Hrest].
    apply not_elem_of_cons. split; [congruence | assumption].
Qed.

(** Removing a saved exercise on the account page, for bookmarks that
    are an array of identifiers.  The first occurrence of the identifier
    leaves the array and the others keep their order: what was before it
    is followed by what was after it, later occurrences included.  With
    distinct identifiers it is then no bookmark any more and every other
    bookmark stays.  The new array has been written to the storage by
    the time the call is over, also when rendering the list throws.  For
    an identifier that is not saved the call changes nothing at all.
    The catalog is never touched and no request is sent. *)
Theorem removeSavedOnAccountPage_removes (acc : Account) (ids : list jsstring)
    (x : jsstring) :
  bookmarkedExercises (app_state acc) = JArr (map JStr ids) ->
  let run := removeSavedOnAccountPage x acc in
  let ids' := remove_first x ids in
  bookmarkedExercises (app_state (snd run)) = JArr (map JStr ids') /\
  (x ∈ ids ->
     exists before after,
       ids = before ++ x :: after /\ (x ∉ before) /\ ids' = before ++ after) /\
  (x ∉ ids -> ids' = ids /\ run = (Return Undefined, acc)) /\
  (NoDup ids -> NoDup ids' /\ forall y, y ∈ ids' <-> y ∈ ids /\ y <> x) /\
  (x ∈ ids ->
     persisted (app_state (snd run)) = Some (stringify (JArr (map JStr ids'))) /\
     load_persisted (app_state (snd run)) = Some (JArr (map JStr ids'))) /\
  exercises (app_state (snd run)) = exercises (app_state acc) /\
  sent (snd run) = sent acc.
Proof.
  intros Hids run ids'. subst run ids'.
  rewrite (removeSavedOnAccountPage_unfold acc _ x Hids), indexOf_strings.
  split; [|split; [apply remove_first_split|]].
  2: split; [|split; [|]].
  - destruct (decide (x ∈ ids)) as [Hin|Hout].
    + rewrite bool_decide_eq_true_2 by assumption.
      rewrite (splice1_strings ids x Hin).
      set (acc1 := then_page saveBookmarks _).
      pose proof (same_model_renderSavedExercisesList acc1) as M.
      unfold same_modelA in M.
      assert (Hrun : snd ((renderSavedExercisesList ~;; retA Undefined) acc1) =
                     snd (renderSavedExercisesList acc1)).
      { unfold bindA. by destruct (renderSavedExercisesList acc1) as [[v|e] acc2]. }
      rewrite Hrun. destruct M as [_ Hbookmarks _ _ _ _ _ _ _ _].
      by rewrite Hbookmarks.
    + rewrite bool_decide_eq_false_2 by assumption. cbn [snd].
      by rewrite (remove_first_absent x ids Hout).
  - intros Hout. rewrite bool_decide_eq_false_2 by assumption.
    split; [by apply remove_first_absent | reflexivity].
  - intros Hnd. split; [by apply NoDup_remove_first|].
    intros y. by apply elem_of_remove_first.
  - split; [|].
    + intros Hin. rewrite bool_decide_eq_true_2 by assumption.
      rewrite (splice1_strings ids x Hin).
      set (acc1 := then_page saveBookmarks _).
      assert (P1 : persisted (app_state acc1) =
                   Some (stringify (JArr (map JStr (remove_first x ids))))).
      { unfold persisted. cbn [acc1 then_page app_state]. unfold handle, saveBookmarks.
        cbn. apply lookup_insert_eq. }
      pose proof (same_model_renderSavedExercisesList acc1) as M.
      unfold same_modelA in M.
      assert (Hrun : snd ((renderSavedExercisesList ~;; retA Undefined) acc1) =
                     snd (renderSavedExercisesList acc1)).
      { unfold bindA. by destruct (renderSavedExercisesList acc1) as [[v|e] acc2]. }
      rewrite Hrun. destruct M as [_ _ _ _ _ _ Hstorage _ _ _].
      unfold load_persisted, persisted in *.
      rewrite Hstorage, P1. split; [reflexivity|]. apply parse_stringify_ids.
    + destruct (decide (x ∈ ids)) as [Hin|Hout].
      * rewrite bool_decide_eq_true_2 by assumption.
        set (acc1 := then_page saveBookmarks _).
        assert (X1 : exercises (app_state acc1) = exercises (app_state acc)) by reflexivity.
        assert (S1 : sent acc1 = sent acc) by reflexivity.
        pose proof (same_model_renderSavedExercisesList acc1) as M.
        pose proof (same_sent_renderSavedExercisesList acc1) as S.
        unfold same_modelA in M. unfold same_sent in S.
        assert (Hrun : snd ((renderSavedExercisesList ~;; retA Undefined) acc1) =
                       snd (renderSavedExercisesList acc1)).
        { unfold bindA. by destruct (renderSavedExercisesList acc1) as [[v|e] acc2]. }
        rewrite Hrun. destruct M as [Hexercises _ _ _ _ _ _ _ _ _].
        split; congruence.
      * rewrite bool_decide_eq_false_2 by assumption. by cbn [snd].
Qed.

(** ** The reload that [renderSavedExercisesList] starts *)

Lemma effects_set_innerHTML i c st : effects (set_innerHTML i c st) = effects st.
Proof. unfold set_innerHTML. by destruct (document st !! i). Qed.







(** ** getBaseUrl *)

Lemma lastIndexOf_None c s : lastIndexOf c s = None <-> c ∉ s.
Proof.
  induction s as [|a s IH]; cbn [lastIndexOf].
  - split; [intros _; apply not_elem_of_nil | done].
  - rewrite not_elem_of_cons. destruct (lastIndexOf c s) as [k|].
    + split; [discriminate|]. intros [_ H]. by apply IH in H.
    + destruct (N.eqb_spec a c) as [->|Hne].
      * split; [discriminate | intros [H _]; done].
      * split; [|done]. intros _. split; [congruence | by apply IH].
Qed.

Lemma lastIndexOf_Some c s k :
  lastIndexOf c s = Some k ->
  exists rest, s = take (k + 1) s ++ rest /\ last (take (k + 1) s) = Some c /\ c ∉ rest.
Proof.
  revert k. induction s as [|a s IH]; intros k; cbn [lastIndexOf]; [discriminate|].
  destruct (lastIndexOf c s) as [j|] eqn:E.
  - intros [= <-]. destruct (IH j eq_refl) as (rest & Hs & Hlast & Hrest).
    exists rest. cbn [Nat.add take]. split; [cbn; by rewrite <- Hs|]. split; [|exact Hrest].
    destruct (take (j + 1) s) as [|b l] eqn:Ht; [discriminate|].
    exact Hlast.
  - destruct (N.eqb_spec a c) as [->|Hne]; [|discriminate].
    intros [= <-]. exists s. cbn. rewrite take_0.
    split; [reflexivity|]. split; [reflexivity|]. by apply lastIndexOf_None.
Qed.

(** The base address is the page address up to and including its last
    slash, so what is cut off holds no slash; an address without a slash
    gets one appended.  Either way the base ends in a slash, and links
    made by appending a file name to it stay in the directory of the
    page. *)
Theorem getBaseUrl_directory (st : State) :
  last (getBaseUrl st) = Some 47 /\
  (47 ∈ location_href st ->
   exists file, location_href st = getBaseUrl st ++ file /\ 47 ∉ file) /\
  (47 ∉ location_href st -> getBaseUrl st = location_href st ++ [47]).
Proof.
  unfold getBaseUrl. destruct (lastIndexOf 47 (location_href st)) as [k|] eqn:E.
  - destruct (lastIndexOf_Some _ _ _ E) as (rest & Hs & Hlast & Hrest).
    split; [exact Hlast|]. split.
    + intros _. by exists rest.
    + intros Hno. by apply lastIndexOf_None in Hno; congruence.
  - apply lastIndexOf_None in E. split; [apply last_snoc|]. split; [done | done].
Qed.

(** ** A visit of the home page *)

Lemma same_session_refl st : same_session st st.
Proof. by constructor. Qed.

Lemma same_session_trans a b c :
  same_session a b -> same_session b c -> same_session a c.
Proof. intros [] []; constructor; congruence. Qed.

Lemma same_session_of_model st st' : same_model st st' -> same_session st st'.
Proof. intros []; by constructor. Qed.

Lemma keeps_session_of_model {A} (m : M A) : keeps same_model m -> keeps same_session m.
Proof. intros H st. apply same_session_of_model, H. Qed.

Lemma keeps_session_viewExercise x : keeps same_session (viewExercise x).
Proof.
  unfold viewExercise, showError, announceToScreenReader.
  apply keeps_bind; [apply same_session_trans | apply keeps_get, same_session_refl |].
  intros st. destruct (find_by_id (exercises st) x) as [exercise|].
  - apply keeps_bind; [apply same_session_trans | |intros ?].
    { apply keeps_modify. intros ?. by constructor. }
    apply keeps_session_of_model.
    repeat first [apply same_model_set_hidden | apply keeps_renderExerciseDetail
                 | keeps_step].
  - apply keeps_session_of_model. repeat keeps_step.
Qed.

Lemma keeps_model_backToGallery : keeps same_model backToGallery.
Proof.
  unfold backToGallery, announceToScreenReader.
  repeat first [apply same_model_set_hidden | keeps_step].
Qed.

Lemma current_viewExercise x st :
  currentExercise (handle (viewExercise x) st) = currentExercise st \/
  exists exercise, currentExercise (handle (viewExercise x) st) = Some exercise /\
                   exercise ∈ exercises st.
Proof.
  destruct (find_by_id (exercises st) x) as [exercise|] eqn:Hfind.
  - right. exists exercise. split; [|by apply find_by_id_Some in Hfind as [? _]].
    assert (K : keeps (fun a b => currentExercise b = currentExercise a)
                  (set_hidden "gallery" true ;;;
                   set_hidden "exerciseDetail" false ;;;
                   renderExerciseDetail exercise ;;;
                   modify (emit ScrollToTop) ;;;
                   announceToScreenReader (js "Viewing " ++ name exercise ++ js " exercise") ;;;
                   ret Undefined)).
    { intros a.
      assert (M : keeps same_model
                    (set_hidden "gallery" true ;;;
                     set_hidden "exerciseDetail" false ;;;
                     renderExerciseDetail exercise ;;;
                     modify (emit ScrollToTop) ;;;
                     announceToScreenReader (js "Viewing " ++ name exercise ++ js " exercise") ;;;
                     ret Undefined)).
      { unfold announceToScreenReader.
        repeat first [apply same_model_set_hidden | apply keeps_renderExerciseDetail
                     | keeps_step]. }
      by destruct (M a). }
    unfold handle, viewExercise. unfold bind at 1, get at 1. rewrite Hfind.
    unfold bind at 1, modify at 1. unfold bind at 1, modify at 1.
    etransitivity; [apply K | reflexivity].
  - left. unfold handle, viewExercise. unfold bind at 1, get at 1. by rewrite Hfind.
Qed.

Lemma toggle_controls_state st play_ok :
  (let st' := handle toggleSlowMotion st in
   animationSpeed st' = (if Qeq_bool (animationSpeed st) 1 then 1 # 2 else 1)%Q /\
   showMuscleHighlight st' = showMuscleHighlight st /\
   exercises st' = exercises st /\ bookmarkedExercises st' = bookmarkedExercises st /\
   localStorage st' = localStorage st /\ currentExercise st' = currentExercise st) /\
  (let st' := handle toggleMuscleHighlight st in
   animationSpeed st' = animationSpeed st /\
   showMuscleHighlight st' = negb (showMuscleHighlight st) /\
   exercises st' = exercises st /\ bookmarkedExercises st' = bookmarkedExercises st /\
   localStorage st' = localStorage st /\ currentExercise st' = currentExercise st) /\
  (let st' := handle (togglePlayPause play_ok) st in
   animationSpeed st' = animationSpeed st /\
   showMuscleHighlight st' = showMuscleHighlight st /\
   exercises st' = exercises st /\ bookmarkedExercises st' = bookmarkedExercises st /\
   localStorage st' = localStorage st /\ currentExercise st' = currentExercise st).
Proof.
  unfold handle, toggleSlowMotion, toggleMuscleHighlight, togglePlayPause,
    announceToScreenReader.
  split; [|split].
  - cbv [bind get modify ret snd].
    destruct (element_exists "exerciseVideo" st), (element_exists "slowMotionBtn" st);
      cbn; auto 10.
  - cbv [bind get modify ret snd].
    destruct (element_exists "highlightMusclesBtn" st); cbn; auto 10.
  - cbv [bind get modify ret snd].
    destruct (element_exists "exerciseVideo" st), (element_exists "playPauseBtn" st),
      (isPlaying st), play_ok; cbn; auto 10.
Qed.

Lemma toggleBookmark_frame x st :
  let st' := handle (toggleBookmark x) st in
  exercises st' = exercises st /\ animationSpeed st' = animationSpeed st /\
  showMuscleHighlight st' = showMuscleHighlight st /\
  currentExercise st' = currentExercise st.
Proof.
  unfold handle.
  destruct (bookmarkedExercises st) as [| | | |arr|] eqn:Harr;
    try (unfold toggleBookmark, bind, get; rewrite Harr; by cbn).
  rewrite (toggleBookmark_unfold st arr x Harr).
  set (mid := if (indexOf arr x >? -1)%Z then _ else _).
  assert (Hmid : exercises mid = exercises st /\ animationSpeed mid = animationSpeed st /\
                 showMuscleHighlight mid = showMuscleHighlight st /\
                 currentExercise mid = currentExercise st)
    by (subst mid; by destruct (indexOf arr x >? -1)%Z).
  pose proof (keeps_update_ui x mid) as Hk. unfold handle in Hk.
  unfold bind, ret. destruct (update_ui x mid) as [[v|e] st2]; cbn [fst snd] in *;
    destruct Hk, Hmid as (? & ? & ? & ?); repeat split; congruence.
Qed.

Lemma in_sync_toggleBookmark x st : in_sync st -> in_sync (handle (toggleBookmark x) st).
Proof.
  intros (ids & Hids & Hnd & _).
  destruct (toggleBookmark_ids st ids x Hids) as (Hb & Hp & _).
  exists (toggle_ids x ids). split; [exact Hb|]. split; [by apply NoDup_toggle_ids|].
  left. unfold load_persisted. rewrite Hp. apply parse_stringify_ids.
Qed.

Lemma in_sync_same_session st st' : same_session st st' -> in_sync st -> in_sync st'.
Proof.
  intros [_ Hbookmarks _ _ _ Hstorage] (ids & Hids & Hnd & Hp). exists ids.
  unfold load_persisted, persisted in *. rewrite Hbookmarks, Hstorage. auto.
Qed.

(** One event: what it does to the catalog, the two flags, the current
    exercise and the bookmarks. *)
Lemma event_step event st :
  let st' := handle (on_event event) st in
  exercises st' = exercises st /\
  animationSpeed st' =
    (if is_slow_motion event
     then (if Qeq_bool (animationSpeed st) 1 then 1 # 2 else 1)%Q
     else animationSpeed st) /\
  showMuscleHighlight st' = xorb (showMuscleHighlight st) (is_muscle_highlight event) /\
  (currentExercise st' = currentExercise st \/
   exists exercise, currentExercise st' = Some exercise /\ exercise ∈ exercises st) /\
  (in_sync st -> in_sync st').
Proof.
  assert (Hview : forall x,
    let st' := handle (viewExercise x) st in
    exercises st' = exercises st /\ animationSpeed st' = animationSpeed st /\
    showMuscleHighlight st' = xorb (showMuscleHighlight st) false /\
    (currentExercise st' = currentExercise st \/
     exists exercise, currentExercise st' = Some exercise /\ exercise ∈ exercises st) /\
    (in_sync st -> in_sync st')).
  { intros x st'. subst st'. pose proof (keeps_session_viewExercise x st) as K.
    destruct K. rewrite xorb_false_r.
    repeat split; try assumption; [apply current_viewExercise|].
    apply in_sync_same_session. by constructor. }
  assert (Hback :
    let st' := handle backToGallery st in
    exercises st' = exercises st /\ animationSpeed st' = animationSpeed st /\
    showMuscleHighlight st' = xorb (showMuscleHighlight st) false /\
    (currentExercise st' = currentExercise st \/
     exists exercise, currentExercise st' = Some exercise /\ exercise ∈ exercises st) /\
    (in_sync st -> in_sync st')).
  { intros st'. subst st'. pose proof (keeps_model_backToGallery st) as K.
    rewrite xorb_false_r. split; [apply K|]. split; [apply K|]. split; [apply K|].
    split; [left; apply K|]. apply in_sync_same_session, same_session_of_model, K. }
  destruct (toggle_controls_state st true) as (Hslow & Hhigh & _).
  destruct event as [exerciseId|x|play_ok| | |x|]; cbn [on_event is_slow_motion
                                                        is_muscle_highlight].
  - unfold on_popstate. destruct (truthy_field exerciseId); [apply Hview | apply Hback].
  - apply Hview.
  - destruct (toggle_controls_state st play_ok) as (_ & _ & Hplay).
    cbn zeta in *. destruct Hplay as (? & ? & ? & ? & ? & ?). rewrite xorb_false_r.
    repeat split; try assumption; [by left|].
    intros (ids & Hids & Hnd & Hp). exists ids.
    unfold load_persisted, persisted in *. by rewrite H2, H3.
  - cbn zeta in *. destruct Hslow as (? & ? & ? & ? & ? & ?). rewrite xorb_false_r.
    repeat split; try assumption; [by left|].
    intros (ids & Hids & Hnd & Hp). exists ids.
    unfold load_persisted, persisted in *. by rewrite H2, H3.
  - cbn zeta in *. destruct Hhigh as (? & ? & ? & ? & ? & ?).
    rewrite xorb_true_r.
    repeat split; try assumption; [by left|].
    intros (ids & Hids & Hnd & Hp). exists ids.
    unfold load_persisted, persisted in *. by rewrite H2, H3.
  - destruct (toggleBookmark_frame x st) as (? & ? & ? & ?). rewrite xorb_false_r.
    repeat split; try assumption; [by left|]. apply in_sync_toggleBookmark.
  - apply Hback.
Qed.

Lemma times_snoc which events event :
  times which (events ++ [event]) =
  (times which events + (if which event then 1 else 0))%nat.
Proof.
  unfold times. rewrite filter_app, length_app. f_equal.
  destruct (which event) eqn:E.
  - by rewrite filter_cons_True.
  - rewrite filter_cons_False; [reflexivity | congruence].
Qed.

(** Through any sequence of events on the home page, whether handlers
    throw or not: the catalog stays the one that was loaded; slow motion
    is on exactly after an odd number of its toggles and the speed is
    never anything but 1 or 1/2; the muscle highlight follows the parity
    of its toggles; the current exercise, once there is one, is never
    cleared and is an exercise of the catalog; and bookmarks that were
    distinct identifiers in agreement with the storage stay so. *)
Theorem visit_invariants (events : list PageEvent) (st : State) :
  animationSpeed st = 1%Q ->
  let st' := after_events events st in
  exercises st' = exercises st /\
  animationSpeed st' =
    (if Nat.even (times is_slow_motion events) then 1 else 1 # 2)%Q /\
  showMuscleHighlight st' =
    xorb (showMuscleHighlight st) (Nat.odd (times is_muscle_highlight events)) /\
  (currentExercise st' = currentExercise st \/
   exists exercise, currentExercise st' = Some exercise /\ exercise ∈ exercises st) /\
  (in_sync st -> in_sync st').
Proof.
  intros Hspeed st'. subst st'.
  induction events as [|event events IH] using rev_ind.
  - cbn. rewrite xorb_false_r. auto 10.
  - unfold after_events in *. rewrite foldl_app. cbn [foldl].
    set (mid := foldl _ st events) in *.
    destruct IH as (Hx & Hs & Hh & Hc & Hsync).
    destruct (event_step event mid) as (Ex & Es & Eh & Ec & Esync).
    rewrite !times_snoc.
    split; [congruence|]. split; [|split; [|split]].
    + rewrite Es, Hs. destruct (is_slow_motion event).
      * rewrite Nat.add_1_r, Nat.even_succ, <- Nat.negb_even.
        by destruct (Nat.even (times is_slow_motion events)).
      * by rewrite Nat.add_0_r.
    + rewrite Eh, Hh. destruct (is_muscle_highlight event).
      * rewrite Nat.add_1_r, Nat.odd_succ, <- Nat.negb_odd.
        by destruct (showMuscleHighlight st), (Nat.odd (times is_muscle_highlight events)).
      * by rewrite Nat.add_0_r, xorb_false_r.
    + destruct Ec as [Ec|(exercise & Ec & Hin)].
      * rewrite Ec. exact Hc.
      * right. exists exercise. split; [exact Ec | congruence].
    + auto.
Qed.

(** ** The play button *)

Lemma last_toggle_app target class log more :
  last_toggle target class (log ++ more) =
  match last_toggle target class more with
  | Some on => Some on
  | None => last_toggle target class log
  end.
Proof.
  induction log as [|e log IH]; cbn [app last_toggle].
  - by destruct (last_toggle target class more).
  - rewrite IH. by destruct (last_toggle target class more).
Qed.

(** The play button and the flag [isPlaying].  The button is set from
    the flag as it is when the function runs; a [play()] that is
    rejected resets the flag afterwards and nothing resets the button.
    So after a call the button shows what the flag says, except when
    there is a video, it was not playing and [play()] was rejected: then
    the button is left on Pause while the flag says not playing. *)
Theorem togglePlayPause_button (play_ok : bool) (st : State) :
  element_exists "playPauseBtn" st = true ->
  let st' := handle (togglePlayPause play_ok) st in
  let rejected := element_exists "exerciseVideo" st && negb (isPlaying st) &&
                  negb play_ok in
  last_toggle "playPauseBtn" "active" (effects st') = Some (negb (isPlaying st)) /\
  isPlaying st' = (if rejected then false else negb (isPlaying st)) /\
  (last_toggle "playPauseBtn" "active" (effects st') = Some (isPlaying st') <->
   rejected = false).
Proof.
  intros Hbtn st' rejected. subst st' rejected.
  unfold handle, togglePlayPause, announceToScreenReader.
  cbv [bind get modify ret snd]. rewrite Hbtn.
  destruct (element_exists "exerciseVideo" st), (isPlaying st), play_ok;
    cbn [negb andb emit effects isPlaying set_isPlaying];
    rewrite <- ?app_assoc, last_toggle_app; cbn.
  all: split; [reflexivity|]; split; [reflexivity|]; split; congruence.
Qed.

(** ** Stored bookmarks of the wrong shape *)

Lemma bind_run {A B} (m : M A) (k : A -> M B) st a st1 :
  m st = (Return a, st1) -> bind m k st = k a st1.
Proof. unfold bind. by intros ->. Qed.

Lemma bind_throws {A B} (m : M A) (k : A -> M B) st e st1 :
  m st = (Throw e, st1) -> bind m k st = (Throw e, st1).
Proof. unfold bind. by intros ->. Qed.

Lemma run_handle {A} (m : M A) st a :
  fst (m st) = Return a -> m st = (Return a, handle m st).
Proof. unfold handle. destruct (m st). cbn. by intros ->. Qed.

Lemma createExerciseCard_throws ex st :
  has_includes (bookmarkedExercises st) = false ->
  createExerciseCard ex st = (Throw (TypeError "bookmarkedExercises.includes"), st).
Proof.
  intros Hv. unfold createExerciseCard. unfold bind at 1, get at 1.
  apply bind_throws. unfold lift.
  by destruct (bookmarkedExercises st).
Qed.

Lemma mapM_createExerciseCard_throws ex rest st :
  has_includes (bookmarkedExercises st) = false ->
  mapM createExerciseCard (ex :: rest) st =
  (Throw (TypeError "bookmarkedExercises.includes"), st).
Proof.
  intros Hv. cbn [mapM]. apply bind_throws. by apply createExerciseCard_throws.
Qed.

Lemma loaded_state outcome catalog st text v :
  fetched_catalog outcome = Some catalog ->
  localStorage st !! "moveoBookmarks" = Some text -> text <> [] ->
  parse text = Some v ->
  let st2 := handle loadBookmarks (handle (loadExercises outcome) st) in
  exercises st2 = catalog /\ bookmarkedExercises st2 = v /\
  document st2 = document st /\ location_href st2 = location_href st.
Proof.
  intros Hout Htext Hne Hparse.
  assert (outcome = Responded true (BodyJson catalog)) as ->.
  { destruct outcome as [e|[|] [e|c]]; cbn in Hout; congruence. }
  unfold handle at 1. rewrite loadBookmarks_unfold. cbn [snd]. unfold persisted.
  assert (Hst : localStorage (handle (loadExercises (Responded true (BodyJson catalog))) st) =
                localStorage st) by reflexivity.
  rewrite Hst, Htext, (truthy_nonempty _ Hne), Hparse.
  repeat split; reflexivity.
Qed.

Lemma keeps_model_setDailyExercise today : keeps same_model (setDailyExercise today).
Proof. unfold setDailyExercise. repeat keeps_step. Qed.

Lemma keeps_element_setDailyExercise i today :
  i <> "dailyExerciseContent"%string -> keeps (same_element i) (setDailyExercise today).
Proof.
  intros Hi. unfold setDailyExercise.
  apply keeps_bind; [apply same_element_trans | apply keeps_get, same_element_refl|].
  intros st.
  destruct (page_element "dailyExerciseContent" st);
    [|apply keeps_ret, same_element_refl].
  destruct (getDailyExercise today st); [|apply keeps_ret, same_element_refl].
  apply keeps_bind; [apply same_element_trans | apply keeps_lift, same_element_refl |].
  intros enc.
  apply keeps_bind; [apply same_element_trans | | intros ?; apply keeps_ret, same_element_refl].
  apply keeps_modify. intros ?. by apply same_element_set_innerHTML.
Qed.

Lemma effects_setDailyExercise today st :
  effects (handle (setDailyExercise today) st) = effects st.
Proof.
  unfold handle, setDailyExercise. unfold bind at 1, get at 1.
  destruct (page_element "dailyExerciseContent" st); [|reflexivity].
  destruct (getDailyExercise today st) as [daily|]; [|reflexivity].
  unfold bind at 1, lift at 1.
  destruct (encodeURIComponent (id daily)); [|reflexivity].
  cbv [bind modify ret snd]. apply effects_set_innerHTML.
Qed.

Lemma renderExerciseGallery_throws st grid ex rest :
  page_element "exercisesGrid" st = Some grid -> exercises st = ex :: rest ->
  has_includes (bookmarkedExercises st) = false ->
  renderExerciseGallery st = (Throw (TypeError "bookmarkedExercises.includes"), st).
Proof.
  intros Hgrid Hcat Hv. unfold renderExerciseGallery.
  unfold bind at 1, get at 1. rewrite Hgrid, Hcat.
  by apply bind_throws, mapM_createExerciseCard_throws.
Qed.

(** A slot of the storage whose text parses to something that is no
    array (and no string) is taken over by [loadBookmarks] as it is, and
    then the first card that is made throws: with such a slot and a
    catalog that loads, the list page and the home page both end their
    start-up with an error and leave their grid as the page came.  The
    home page does not get as far as announcing that it is loaded. *)
Theorem wrong_shape_breaks_grids (page : gmap string Element) (href : jsstring)
    (storage : gmap string jsstring) (text : jsstring) (v : json)
    (outcome : FetchOutcome) (catalog : list Exercise) (today : Date) :
  storage !! "moveoBookmarks" = Some text -> text <> [] ->
  parse text = Some v -> has_includes v = false ->
  fetched_catalog outcome = Some catalog -> catalog <> [] ->
  let st := initial_state page href storage in
  (is_Some (page !! "exercisesPageGrid") ->
   fst (initExercisesPage outcome st) = Throw (TypeError "bookmarkedExercises.includes") /\
   document (handle (initExercisesPage outcome) st) = page) /\
  (is_Some (page !! "exercisesGrid") ->
   (exists e, fst (initializeApp today outcome st) = Throw e) /\
   page_element "exercisesGrid" (handle (initializeApp today outcome) st) =
     page !! "exercisesGrid" /\
   Announce (js "Moveo loaded. Use navigation to explore exercises.") ∉
     effects (handle (initializeApp today outcome) st)).
Proof.
  intros Htext Hne Hparse Hv Hout Hcat st.
  destruct (loaded_state outcome catalog st text v Hout Htext Hne Hparse)
    as (X2 & B2 & D2 & _).
  set (st2 := handle loadBookmarks (handle (loadExercises outcome) st)) in *.
  assert (Hload : forall B (k : M B),
            (loadExercises outcome ;;; loadBookmarks ;;; k) st = k st2).
  { intros B k. rewrite (bind_run _ _ st Undefined (handle (loadExercises outcome) st))
      by (rewrite loadExercises_returns; reflexivity).
    cbn beta. apply (bind_run loadBookmarks (fun _ => k) _ Undefined st2).
    apply run_handle, loadBookmarks_returns. }
  destruct catalog as [|ex rest]; [done|].
  split.
  - intros [grid Hgrid].
    assert (Hrun : initExercisesPage outcome st =
                   (Throw (TypeError "bookmarkedExercises.includes"), st2)).
    { unfold initExercisesPage. rewrite Hload.
      unfold bind at 1, get at 1. unfold page_element. rewrite D2.
      cbn [st initial_state document]. rewrite Hgrid, X2.
      apply bind_throws, mapM_createExerciseCard_throws. by rewrite B2. }
    unfold handle at 1. rewrite Hrun. cbn [fst snd]. split; [reflexivity | exact D2].
  - intros [grid Hgrid].
    unfold initializeApp, handle at 1 2. rewrite Hload.
    pose proof (keeps_model_setDailyExercise today st2) as [Hexercises Hbookmarks _ _ _ _ _ _ _ _].
    pose proof (keeps_element_setDailyExercise "exercisesGrid" today ltac:(done) st2) as E3.
    pose proof (effects_setDailyExercise today st2) as F3.
    set (st3 := handle (setDailyExercise today) st2) in *.
    assert (Hgrid3 : page_element "exercisesGrid" st3 = Some grid).
    { unfold page_element. rewrite E3, D2. exact Hgrid. }
    assert (Hrun : exists e,
              (setDailyExercise today ;;; renderExerciseGallery ;;;
               announceToScreenReader
                 (js "Moveo loaded. Use navigation to explore exercises.") ;;;
               ret Undefined) st2 = (Throw e, st3)).
    { unfold bind at 1.
      destruct (setDailyExercise today st2) as [[u|e] st3'] eqn:Hdaily.
      all: assert (Heq : st3' = st3) by (unfold st3, handle; by rewrite Hdaily).
      all: rewrite Heq.
      2: by exists e.
      exists (TypeError "bookmarkedExercises.includes").
      apply bind_throws.
      apply (renderExerciseGallery_throws _ grid ex rest); [exact Hgrid3 | congruence|].
      by rewrite Hbookmarks, B2. }
    destruct Hrun as [e Hrun]. rewrite Hrun. cbn [fst snd].
    split; [by exists e|]. split; [by rewrite Hgrid3|].
    rewrite F3.
    assert (outcome = Responded true (BodyJson (ex :: rest))) as ->.
    { destruct outcome as [e'|[|] [e'|c]]; cbn in Hout; congruence. }
    unfold st2, handle at 1. rewrite loadBookmarks_unfold. cbn [snd]. unfold persisted.
    assert (Hst : localStorage (handle (loadExercises (Responded true (BodyJson (ex :: rest)))) st) =
                  storage) by reflexivity.
    rewrite Hst, Htext, (truthy_nonempty _ Hne), Hparse.
    cbn. intros Hin. apply list_elem_of_singleton in Hin. discriminate.
Qed.

(** ** The grids of cards *)








(** ** toggleBookmark and the view it renders again *)



(** ** The start of the home page *)








(** ** The account page, the grids and a visit at concrete inputs *)

Lemma saveExercise_result_shape_witness :
  let row := {| row_user_id := js "7f1c"; row_exercise_id := js "a" |} in
  let r := {| data := Some row; SaveExercise.error := None |} in
  fst (saveExercise (Some signed_in_client) (Some (js "a"))) = Return r /\
  (data r = None \/ SaveExercise.error r = None).
Proof.
  assert (H : fst (saveExercise (Some signed_in_client) (Some (js "a"))) =
              Return {| data := Some {| row_user_id := js "7f1c";
                                        row_exercise_id := js "a" |};
                        SaveExercise.error := None |})
    by (vm_compute; reflexivity).
  split; [exact H|].
  exact (proj1 (saveExercise_result_shape _ _ _ H)).
Defined.

Lemma getCurrentUser_user_witness :
  let su := {| su_id := js "7f1c"; su_email := Some (js "ada@example.org");
               su_name := js "ada" |} in
  getCurrentUser (Some signed_in_client) = Return (Some su) /\ su_name su <> [].
Proof.
  assert (H : getCurrentUser (Some signed_in_client) =
              Return (Some {| su_id := js "7f1c"; su_email := Some (js "ada@example.org");
                              su_name := js "ada" |}))
    by (vm_compute; reflexivity).
  split; [exact H|].
  exact (proj1 (getCurrentUser_user _ _ H)).
Defined.

Lemma handleSignIn_outcomes_witness :
  let acc' := snd (handleSignIn (Some sample_auth_client) (Some (js " ada@example.org "))
                     (Some (js "secret1")) fresh_account) in
  trim (js " ada@example.org ") = js "ada@example.org" /\
  is_hidden "accountAuthSection" (app_state acc') = Some true /\
  is_hidden "accountDashboardSection" (app_state acc') = Some false /\
  innerHTML <$> page_element "accountUserName" (app_state acc') = Some [Text (js "ada")].
Proof.
  assert (Hemail : trim (js " ada@example.org ") <> []) by (vm_compute; discriminate).
  assert (Hpw : js "secret1" <> []) by (vm_compute; discriminate).
  destruct (handleSignIn_outcomes sample_auth_client (js " ada@example.org ")
              (js "secret1") fresh_account Hemail Hpw) as (_ & _ & Hshown).
  destruct (Hshown {| signin_user := Some sample_user; signin_error := None |}
              sample_user (empty_element false))
    as (H1 & H2 & H3); try (vm_compute; reflexivity).
  split; [vm_compute; reflexivity|]. split; [exact H1|]. split; [exact H2 | exact H3].
Defined.

Lemma handleSignUp_outcomes_witness :
  let typed := handleSignUp (Some sample_auth_client) (Some (js "Ada "))
                 (Some (js "ada@example.org")) (Some (js "secret1")) fresh_account in
  let named := handleSignUp (Some named_auth_client) (Some (js "Ada "))
                 (Some (js "ada@example.org")) (Some (js "secret1")) fresh_account in
  (6 <= length (js "secret1"))%nat /\
  innerHTML <$> page_element "accountUserName" (app_state (snd typed)) =
    Some [Text (js "Ada")] /\
  innerHTML <$> page_element "accountUserName" (app_state (snd named)) =
    Some [Text (js "Countess")].
Proof.
  assert (Hname : trim (js "Ada ") <> []) by (vm_compute; discriminate).
  assert (Hemail : trim (js "ada@example.org") <> []) by (vm_compute; discriminate).
  assert (Hlen : (6 <= length (js "secret1"))%nat) by (vm_compute; lia).
  split; [exact Hlen|]. split.
  - destruct (handleSignUp_outcomes sample_auth_client (js "Ada ") (js "ada@example.org")
                (js "secret1") fresh_account Hname Hemail Hlen) as (_ & _ & _ & Hshown).
    assert (Hreply : auth_signUp sample_auth_client (trim (js "ada@example.org"))
                       (js "secret1") (trim (js "Ada ")) =
                     Fulfilled {| signup_user := Some sample_user; signup_session := true;
                                  signup_error := None |}) by reflexivity.
    assert (Hel : page_element "accountUserName" (app_state fresh_account) =
                  Some (empty_element false)) by (vm_compute; reflexivity).
    exact (proj2 (proj2 (Hshown _ sample_user (empty_element false) Hreply eq_refl eq_refl
                           eq_refl Hel))).
  - destruct (handleSignUp_outcomes named_auth_client (js "Ada ") (js "ada@example.org")
                (js "secret1") fresh_account Hname Hemail Hlen) as (_ & _ & _ & Hshown).
    assert (Hreply : auth_signUp named_auth_client (trim (js "ada@example.org"))
                       (js "secret1") (trim (js "Ada ")) =
                     Fulfilled {| signup_user := Some named_user; signup_session := true;
                                  signup_error := None |}) by reflexivity.
    assert (Hel : page_element "accountUserName" (app_state fresh_account) =
                  Some (empty_element false)) by (vm_compute; reflexivity).
    exact (proj2 (proj2 (Hshown _ named_user (empty_element false) Hreply eq_refl eq_refl
                           eq_refl Hel))).
Defined.

Lemma sample_catalog_linkable : linkable sample_catalog.
Proof. repeat constructor; eexists; vm_compute; reflexivity. Qed.


Lemma renderSavedExercisesList_shows_witness :
  exists items,
    innerHTML <$> page_element "savedExercisesList"
                    (app_state (snd (renderSavedExercisesList saved_account))) =
      Some items /\
    Forall2 (item_of (getBaseUrl (app_state saved_account)))
      (omap (find_by_id (exercises (app_state saved_account))) [js "a"; js "gone"]) items.
Proof.
  assert (Hel : exists el, page_element "savedExercisesList" (app_state saved_account) =
                           Some el) by (eexists; vm_compute; reflexivity).
  destruct Hel as [el Hel].
  assert (Hids : bookmarkedExercises (app_state saved_account) =
                 JArr (map JStr [js "a"; js "gone"])) by (vm_compute; reflexivity).
  assert (Hcat : exercises (app_state saved_account) = sample_catalog)
    by (vm_compute; reflexivity).
  assert (Hne : exercises (app_state saved_account) <> [])
    by (rewrite Hcat; discriminate).
  assert (Hlink : linkable (exercises (app_state saved_account)))
    by (rewrite Hcat; apply sample_catalog_linkable).
  exact (proj1 (proj2 (renderSavedExercisesList_shows saved_account [js "a"; js "gone"] el
                         Hel Hids Hne Hlink))).
Defined.

Lemma removeSavedOnAccountPage_removes_witness :
  bookmarkedExercises (app_state repeated_account) =
    JArr (map JStr [js "a"; js "gone"; js "a"]) /\
  bookmarkedExercises (app_state (snd (removeSavedOnAccountPage (js "gone") repeated_account))) =
    JArr (map JStr [js "a"; js "a"]) /\
  bookmarkedExercises (app_state (snd (removeSavedOnAccountPage (js "a") repeated_account))) =
    JArr (map JStr [js "gone"; js "a"]).
Proof.
  assert (Hids : bookmarkedExercises (app_state repeated_account) =
                 JArr (map JStr [js "a"; js "gone"; js "a"])) by (vm_compute; reflexivity).
  split; [exact Hids|]. split.
  - exact (proj1 (removeSavedOnAccountPage_removes repeated_account
                    [js "a"; js "gone"; js "a"] (js "gone") Hids)).
  - exact (proj1 (removeSavedOnAccountPage_removes repeated_account
                    [js "a"; js "gone"; js "a"] (js "a") Hids)).
Defined.


Lemma visit_invariants_witness :
  let events := [ViewExercise (js "a"); SlowMotion; MuscleHighlight; BackToGallery;
                 Bookmark (js "b"); SlowMotion; SlowMotion] in
  animationSpeed (after_events events home_loaded) = (1 # 2)%Q /\
  showMuscleHighlight (after_events events home_loaded) = true.
Proof.
  assert (Hspeed : animationSpeed home_loaded = 1%Q) by (vm_compute; reflexivity).
  destruct (visit_invariants
              [ViewExercise (js "a"); SlowMotion; MuscleHighlight; BackToGallery;
               Bookmark (js "b"); SlowMotion; SlowMotion] home_loaded Hspeed)
    as (_ & H1 & H2 & _).
  split; [exact H1 | exact H2].
Defined.

Lemma togglePlayPause_button_witness :
  let st := initial_state player_page home_href ∅ in
  let st' := handle (togglePlayPause false) st in
  last_toggle "playPauseBtn" "active" (effects st') = Some true /\
  isPlaying st' = false.
Proof.
  assert (Hbtn : element_exists "playPauseBtn" (initial_state player_page home_href ∅) = true)
    by (vm_compute; reflexivity).
  destruct (togglePlayPause_button false (initial_state player_page home_href ∅) Hbtn)
    as (H1 & H2 & _).
  split; [exact H1 | exact H2].
Defined.

Lemma wrong_shape_breaks_grids_witness :
  let st := initial_state home_page home_href {[ "moveoBookmarks"%string := js "{}" ]} in
  let run := initializeApp some_day (Responded true (BodyJson sample_catalog)) in
  (exists e, fst (run st) = Throw e) /\
  page_element "exercisesGrid" (handle run st) = home_page !! "exercisesGrid".
Proof.
  assert (Htext : ({[ "moveoBookmarks"%string := js "{}" ]} : gmap string jsstring)
                    !! "moveoBookmarks"%string = Some (js "{}")) by (vm_compute; reflexivity).
  assert (Hne : js "{}" <> []) by (vm_compute; discriminate).
  assert (Hparse : parse (js "{}") = Some (JObj [])) by (vm_compute; reflexivity).
  assert (Hcat : sample_catalog <> []) by (vm_compute; discriminate).
  destruct (wrong_shape_breaks_grids home_page home_href
              {[ "moveoBookmarks"%string := js "{}" ]} (js "{}") (JObj [])
              (Responded true (BodyJson sample_catalog)) sample_catalog some_day
              Htext Hne Hparse eq_refl eq_refl Hcat) as [_ Hhome].
  assert (Hgrid : is_Some (home_page !! "exercisesGrid"))
    by (eexists; vm_compute; reflexivity).
  destruct (Hhome Hgrid) as (H1 & H2 & _).
  split; [exact H1 | exact H2].
Defined.



